(** * Peer: the mutual-authentication engine of [src/auth/Peer.ts]

    A shallow embedding of the [Peer] class: the inbound dispatcher, the five
    message processors, the callback registry, the handshake wait with its
    timer, and the session bookkeeping they drive.  The wallet, the transport
    and the helper routines of [./utils] are external collaborators; they are
    gathered in a record of oracles ([World]) and every statement below is
    either universally quantified over that record or evaluated at a concrete
    one. *)

From Stdlib Require Import ZArith Ascii String List Bool Lia.
From stdpp Require Import base option list gmap strings.

Local Open Scope string_scope.
Local Open Scope Z_scope.

(** ** JavaScript values that may be absent

    The processors tell [undefined] from [null] ([=== undefined] against
    [== null]), so an optional field keeps both markers. *)

Inductive maybe (A : Type) : Type :=
| undefined
| null
| val (a : A).
Arguments undefined {A}.
Arguments null {A}.
Arguments val {A} a.

#[global] Instance maybe_eq_dec {A} `{EqDecision A} : EqDecision (maybe A).
Proof. solve_decision. Defined.

(** [x ?? d] *)
Definition nullish {A} (x : maybe A) (d : A) : A :=
  match x with
  | val a => a
  | _ => d
  end.
Notation "x ?? d" := (nullish x d) (at level 45, left associativity).

(** [x == null] (true of both [undefined] and [null]) *)
Definition is_nullish {A} (x : maybe A) : bool :=
  match x with
  | val _ => false
  | _ => true
  end.

(** [x === undefined] *)
Definition is_undefined {A} (x : maybe A) : bool :=
  match x with
  | undefined => true
  | _ => false
  end.

(** What a template literal or [String(x)] prints for an optional string. *)
Definition show (x : maybe string) : string :=
  match x with
  | undefined => "undefined"
  | null => "null"
  | val s => s
  end.

(** ** Strings

    A string is a sequence of code units below 256.  Of ECMAScript's
    WhiteSpace and LineTerminator code points, which [trim] removes, those
    below 256 are TAB, LF, VT, FF, CR, SP and NBSP. *)

Definition is_white_space (c : ascii) : bool :=
  let n := nat_of_ascii c in
  ((9 <=? n)%nat && (n <=? 13)%nat) || (n =? 32)%nat || (n =? 160)%nat.

Fixpoint trimStart (s : string) : string :=
  match s with
  | EmptyString => EmptyString
  | String c s' => if is_white_space c then trimStart s' else s
  end.

Definition reverse_string (s : string) : string :=
  string_of_list_ascii (rev (list_ascii_of_string s)).

Definition trim (s : string) : string :=
  reverse_string (trimStart (reverse_string (trimStart s))).

(** [x?.trim() === ''] : false when [x] is absent, since [undefined !== '']. *)
Definition optional_trim_is_empty (x : maybe string) : bool :=
  match x with
  | val s => bool_decide (trim s = "")
  | _ => false
  end.

(** [x === undefined || x === null || x.trim() === ''] *)
Definition missing_or_blank (x : maybe string) : bool :=
  match x with
  | val s => bool_decide (trim s = "")
  | _ => true
  end.

Definition AUTH_VERSION : string := "0.1".

(** ** Data model ([./types]) *)

Definition bytes : Type := list Z.

Record RequestedCertificateSet : Type := mkRequestedCertificateSet {
  certifiers : list string;
  types : list (string * list string)
}.

(** [{ certifiers: [], types: {} }] *)
Definition emptyRequest : RequestedCertificateSet :=
  {| certifiers := []; types := [] |}.

Record PeerSession : Type := mkPeerSession {
  isAuthenticated : bool;
  sessionNonce : maybe string;
  peerNonce : maybe string;
  peerIdentityKey : maybe string
}.

(** ** SessionManager *)

(** Modelled from the spec: the SessionManager class ([./SessionManager]) is
    not among the sources.  Section 4.3 of the specification gives its four
    operations, and its three indices: by [sessionNonce], by [peerNonce] and
    by [peerIdentityKey].  Sessions are JavaScript objects: the manager stores
    references, and the object a lookup returns is the stored one.  A
    reference is a location in the heap of session objects kept in the Peer's
    state below. *)
Record SessionManager : Type := mkSessionManager {
  bySessionNonce : gmap string nat;
  byPeerNonce : gmap string nat;
  byPeerIdentityKey : gmap string nat
}.

Definition emptySessionManager : SessionManager :=
  {| bySessionNonce := ∅; byPeerNonce := ∅; byPeerIdentityKey := ∅ |}.

Definition index_under (key : maybe string) (l : nat) (m : gmap string nat)
  : gmap string nat :=
  match key with
  | val k => <[k := l]> m
  | _ => m
  end.

Definition unindex (l : nat) (m : gmap string nat) : gmap string nat :=
  filter (λ kv, kv.2 ≠ l) m.

Module SessionManagerOps.

(** Modelled from the spec: [addSession(s)], "insert; indexed by
    sessionNonce, and by peerIdentityKey and peerNonce when present". *)
Definition addSession (l : nat) (s : PeerSession) (sm : SessionManager)
  : SessionManager :=
  {| bySessionNonce := index_under (sessionNonce s) l (bySessionNonce sm);
     byPeerNonce := index_under (peerNonce s) l (byPeerNonce sm);
     byPeerIdentityKey :=
       index_under (peerIdentityKey s) l (byPeerIdentityKey sm) |}.

(** Modelled from the spec: [getSession(key)], "lookup by any of the three
    indices; return the session or an absent marker".  The indices are
    tried in the order local nonce, peer nonce, identity key. *)
Definition getSession (key : maybe string) (sm : SessionManager)
  : option nat :=
  match key with
  | val k =>
      match bySessionNonce sm !! k with
      | Some l => Some l
      | None =>
          match byPeerNonce sm !! k with
          | Some l => Some l
          | None => byPeerIdentityKey sm !! k
          end
      end
  | _ => None
  end.

(** Modelled from the spec: [removeSession], "delete; tolerate missing". *)
Definition removeSession (l : nat) (sm : SessionManager) : SessionManager :=
  {| bySessionNonce := unindex l (bySessionNonce sm);
     byPeerNonce := unindex l (byPeerNonce sm);
     byPeerIdentityKey := unindex l (byPeerIdentityKey sm) |}.

(** Modelled from the spec: [updateSession(s)], "replace existing; re-index
    on changed keys". *)
Definition updateSession (l : nat) (s : PeerSession) (sm : SessionManager)
  : SessionManager :=
  addSession l s (removeSession l sm).

(** The references the manager holds. *)
Definition holds (sm : SessionManager) (l : nat) : Prop :=
  ∃ k, bySessionNonce sm !! k = Some l
       ∨ byPeerNonce sm !! k = Some l
       ∨ byPeerIdentityKey sm !! k = Some l.

End SessionManagerOps.

(** ** Results of calls that may raise *)

Inductive Result (A : Type) : Type :=
| Ok (a : A)
| Err (e : string).
Arguments Ok {A} a.
Arguments Err {A} e.

(** How a promise ends. *)
Inductive Settled : Type :=
| Fulfilled (v : string)
| Rejected (e : string).

Inductive PromiseState : Type :=
| Pending
| Settle (r : Settled).

(** ** The callback registry

    JavaScript's [Map] iterates in insertion order, so a callback map is an
    association list, oldest entry first. *)

Section JsMap.
Context {V : Type}.

Fixpoint map_has (id : nat) (m : list (nat * V)) : bool :=
  match m with
  | [] => false
  | (i, _) :: m' => (i =? id)%nat || map_has id m'
  end.

Fixpoint map_replace (id : nat) (v : V) (m : list (nat * V))
  : list (nat * V) :=
  match m with
  | [] => []
  | (i, w) :: m' =>
      if (i =? id)%nat then (i, v) :: m' else (i, w) :: map_replace id v m'
  end.

(** [m.set(id, v)] *)
Definition map_set (id : nat) (v : V) (m : list (nat * V))
  : list (nat * V) :=
  if map_has id m then map_replace id v m else m ++ [(id, v)].

(** [m.delete(id)]: no entry is left under [id]. *)
Fixpoint map_delete (id : nat) (m : list (nat * V)) : list (nat * V) :=
  match m with
  | [] => []
  | (i, w) :: m' =>
      if (i =? id)%nat then map_delete id m' else (i, w) :: map_delete id m'
  end.

Fixpoint map_get (id : nat) (m : list (nat * V)) : option V :=
  match m with
  | [] => None
  | (i, w) :: m' => if (i =? id)%nat then Some w else map_get id m'
  end.
End JsMap.

(** A user callback is a function the application owns; the model names it by
    a token and asks the [World] what running it does. *)
Definition Handler : Type := nat.

(** The closure [waitForInitialResponse] registers:
    [(sessionNonce) => { clearTimeout(timeoutHandle);
       this.stopListeningForInitialResponses(callbackID); resolve(sessionNonce) }] *)
Record WaitClosure : Type := mkWaitClosure {
  wc_timeoutHandle : nat;
  wc_callbackID : nat;
  wc_promise : nat
}.

(** An entry of [onInitialResponseReceivedCallbacks]. *)
Record InitialResponseEntry : Type := mkInitialResponseEntry {
  entry_callback : WaitClosure;
  entry_sessionNonce : string
}.

(** The closure handed to [setTimeout]:
    [() => { this.stopListeningForInitialResponses(callbackID);
             reject(new Error('Initial response timed out.')) }] *)
Record TimeoutClosure : Type := mkTimeoutClosure {
  tc_callbackID : nat;
  tc_promise : nat;
  tc_delay : Z
}.

(** ** Messages, wallet requests, observable events *)

Section Model.

(** Certificates are opaque to the Peer. *)
Context {VerifiableCertificate : Type}.

Record AuthMessage : Type := mkAuthMessage {
  version : maybe string;
  messageType : maybe string;
  identityKey : maybe string;
  nonce : maybe string;
  initialNonce : maybe string;
  yourNonce : maybe string;
  certificates : maybe (list VerifiableCertificate);
  requestedCertificates : maybe RequestedCertificateSet;
  payload : maybe bytes;
  signature : maybe bytes
}.

(** [protocolID: [2, 'auth message signature']] *)
Definition authProtocolID : Z * string := (2, "auth message signature").

(** The argument of [wallet.createSignature]. *)
Record SignatureRequest : Type := mkSignatureRequest {
  sr_data : bytes;
  sr_protocolID : Z * string;
  sr_keyID : string;
  sr_counterparty : maybe string
}.

(** The argument of [wallet.verifySignature]. *)
Record VerificationRequest : Type := mkVerificationRequest {
  vr_data : bytes;
  vr_signature : bytes;
  vr_protocolID : Z * string;
  vr_keyID : string;
  vr_counterparty : maybe string
}.

(** What a run of the Peer does to the outside, in order. *)
Inductive Event : Type :=
| Sent (m : AuthMessage)
| Logged (text : string)
| WalletSigned (r : SignatureRequest)
| WalletVerified (r : VerificationRequest)
| GeneralMessageCallback (callbackID : nat) (sender : maybe string)
    (data : bytes)
| CertificatesReceivedCallback (callbackID : nat) (sender : maybe string)
    (certs : list VerifiableCertificate)
| CertificatesRequestedCallback (callbackID : nat) (sender : maybe string)
    (request : RequestedCertificateSet)
| InitialResponseCallback (callbackID : nat) (nonce : string).

(** A send, or a callback of any of the four kinds. *)
Definition is_send_or_callback (e : Event) : bool :=
  match e with
  | Sent _ => true
  | GeneralMessageCallback _ _ _ => true
  | CertificatesReceivedCallback _ _ _ => true
  | CertificatesRequestedCallback _ _ _ => true
  | InitialResponseCallback _ _ => true
  | _ => false
  end.

Definition is_callback (e : Event) : bool :=
  match e with
  | GeneralMessageCallback _ _ _ => true
  | CertificatesReceivedCallback _ _ _ => true
  | CertificatesRequestedCallback _ _ _ => true
  | InitialResponseCallback _ _ => true
  | _ => false
  end.

(** ** The collaborators

    The wallet, the transport, the routines of [./utils], the random source
    and the application's callbacks.  [createNonce] and [randomBase64] take
    the number of values drawn so far.  An application callback may throw;
    it is taken not to call back into the Peer while it runs. *)
Record World : Type := mkWorld {
  createSignature : SignatureRequest → Result bytes;
  verifySignature : VerificationRequest → Result bool;
  getPublicKey : Result string;
  createNonce : nat → Result string;
  verifyNonce : maybe string → Result bool;
  getVerifiableCertificates :
    RequestedCertificateSet → maybe string
    → Result (list VerifiableCertificate);
  validateCertificates :
    AuthMessage → RequestedCertificateSet → Result unit;
  transportSend : AuthMessage → Result unit;
  (** [Utils.toBase64(Random(32))] *)
  randomBase64 : nat → string;
  (** [Utils.toArray(s, 'base64')] *)
  toArrayBase64 : string → bytes;
  (** [Utils.toArray(JSON.stringify(x), 'utf8')], [None] for [{}] *)
  utf8JsonOfRequest : option RequestedCertificateSet → bytes;
  utf8JsonOfCertificates : list VerifiableCertificate → bytes;
  runGeneralMessageHandler : Handler → maybe string → bytes → Result unit;
  runCertificatesReceivedHandler :
    Handler → maybe string → list VerifiableCertificate → Result unit;
  runCertificatesRequestedHandler :
    Handler → maybe string → RequestedCertificateSet → Result unit
}.

(** ** The state of a Peer

    The fields of the class, then the parts of the JavaScript runtime its
    methods reach: the session objects, the armed timers, the promises of
    pending handshake waits, and the count of random draws. *)
Record Peer : Type := mkPeer {
  sessionManager : SessionManager;
  certificatesToRequest : RequestedCertificateSet;
  onGeneralMessageReceivedCallbacks : list (nat * Handler);
  onCertificatesReceivedCallbacks : list (nat * Handler);
  onCertificateRequestReceivedCallbacks : list (nat * Handler);
  onInitialResponseReceivedCallbacks : list (nat * InitialResponseEntry);
  callbackIdCounter : nat;
  autoPersistLastSession : bool;
  lastInteractedWithPeer : maybe string;
  heap : gmap nat PeerSession;
  timers : gmap nat TimeoutClosure;
  promises : gmap nat PromiseState;
  nextRef : nat;
  nextTimer : nat;
  nextPromise : nat;
  draws : nat
}.

(** Field updates. *)
Definition set_sessionManager (x : SessionManager) (s : Peer) : Peer :=
  {| sessionManager := x;
     certificatesToRequest := certificatesToRequest s;
     onGeneralMessageReceivedCallbacks := onGeneralMessageReceivedCallbacks s;
     onCertificatesReceivedCallbacks := onCertificatesReceivedCallbacks s;
     onCertificateRequestReceivedCallbacks := onCertificateRequestReceivedCallbacks s;
     onInitialResponseReceivedCallbacks := onInitialResponseReceivedCallbacks s;
     callbackIdCounter := callbackIdCounter s;
     autoPersistLastSession := autoPersistLastSession s;
     lastInteractedWithPeer := lastInteractedWithPeer s;
     heap := heap s;
     timers := timers s;
     promises := promises s;
     nextRef := nextRef s;
     nextTimer := nextTimer s;
     nextPromise := nextPromise s;
     draws := draws s |}.

Definition set_onGeneralMessageReceivedCallbacks (x : list (nat * Handler)) (s : Peer) : Peer :=
  {| sessionManager := sessionManager s;
     certificatesToRequest := certificatesToRequest s;
     onGeneralMessageReceivedCallbacks := x;
     onCertificatesReceivedCallbacks := onCertificatesReceivedCallbacks s;
     onCertificateRequestReceivedCallbacks := onCertificateRequestReceivedCallbacks s;
     onInitialResponseReceivedCallbacks := onInitialResponseReceivedCallbacks s;
     callbackIdCounter := callbackIdCounter s;
     autoPersistLastSession := autoPersistLastSession s;
     lastInteractedWithPeer := lastInteractedWithPeer s;
     heap := heap s;
     timers := timers s;
     promises := promises s;
     nextRef := nextRef s;
     nextTimer := nextTimer s;
     nextPromise := nextPromise s;
     draws := draws s |}.

Definition set_onCertificatesReceivedCallbacks (x : list (nat * Handler)) (s : Peer) : Peer :=
  {| sessionManager := sessionManager s;
     certificatesToRequest := certificatesToRequest s;
     onGeneralMessageReceivedCallbacks := onGeneralMessageReceivedCallbacks s;
     onCertificatesReceivedCallbacks := x;
     onCertificateRequestReceivedCallbacks := onCertificateRequestReceivedCallbacks s;
     onInitialResponseReceivedCallbacks := onInitialResponseReceivedCallbacks s;
     callbackIdCounter := callbackIdCounter s;
     autoPersistLastSession := autoPersistLastSession s;
     lastInteractedWithPeer := lastInteractedWithPeer s;
     heap := heap s;
     timers := timers s;
     promises := promises s;
     nextRef := nextRef s;
     nextTimer := nextTimer s;
     nextPromise := nextPromise s;
     draws := draws s |}.

Definition set_onCertificateRequestReceivedCallbacks (x : list (nat * Handler)) (s : Peer) : Peer :=
  {| sessionManager := sessionManager s;
     certificatesToRequest := certificatesToRequest s;
     onGeneralMessageReceivedCallbacks := onGeneralMessageReceivedCallbacks s;
     onCertificatesReceivedCallbacks := onCertificatesReceivedCallbacks s;
     onCertificateRequestReceivedCallbacks := x;
     onInitialResponseReceivedCallbacks := onInitialResponseReceivedCallbacks s;
     callbackIdCounter := callbackIdCounter s;
     autoPersistLastSession := autoPersistLastSession s;
     lastInteractedWithPeer := lastInteractedWithPeer s;
     heap := heap s;
     timers := timers s;
     promises := promises s;
     nextRef := nextRef s;
     nextTimer := nextTimer s;
     nextPromise := nextPromise s;
     draws := draws s |}.

Definition set_onInitialResponseReceivedCallbacks (x : list (nat * InitialResponseEntry)) (s : Peer) : Peer :=
  {| sessionManager := sessionManager s;
     certificatesToRequest := certificatesToRequest s;
     onGeneralMessageReceivedCallbacks := onGeneralMessageReceivedCallbacks s;
     onCertificatesReceivedCallbacks := onCertificatesReceivedCallbacks s;
     onCertificateRequestReceivedCallbacks := onCertificateRequestReceivedCallbacks s;
     onInitialResponseReceivedCallbacks := x;
     callbackIdCounter := callbackIdCounter s;
     autoPersistLastSession := autoPersistLastSession s;
     lastInteractedWithPeer := lastInteractedWithPeer s;
     heap := heap s;
     timers := timers s;
     promises := promises s;
     nextRef := nextRef s;
     nextTimer := nextTimer s;
     nextPromise := nextPromise s;
     draws := draws s |}.

Definition set_callbackIdCounter (x : nat) (s : Peer) : Peer :=
  {| sessionManager := sessionManager s;
     certificatesToRequest := certificatesToRequest s;
     onGeneralMessageReceivedCallbacks := onGeneralMessageReceivedCallbacks s;
     onCertificatesReceivedCallbacks := onCertificatesReceivedCallbacks s;
     onCertificateRequestReceivedCallbacks := onCertificateRequestReceivedCallbacks s;
     onInitialResponseReceivedCallbacks := onInitialResponseReceivedCallbacks s;
     callbackIdCounter := x;
     autoPersistLastSession := autoPersistLastSession s;
     lastInteractedWithPeer := lastInteractedWithPeer s;
     heap := heap s;
     timers := timers s;
     promises := promises s;
     nextRef := nextRef s;
     nextTimer := nextTimer s;
     nextPromise := nextPromise s;
     draws := draws s |}.

Definition set_lastInteractedWithPeer (x : maybe string) (s : Peer) : Peer :=
  {| sessionManager := sessionManager s;
     certificatesToRequest := certificatesToRequest s;
     onGeneralMessageReceivedCallbacks := onGeneralMessageReceivedCallbacks s;
     onCertificatesReceivedCallbacks := onCertificatesReceivedCallbacks s;
     onCertificateRequestReceivedCallbacks := onCertificateRequestReceivedCallbacks s;
     onInitialResponseReceivedCallbacks := onInitialResponseReceivedCallbacks s;
     callbackIdCounter := callbackIdCounter s;
     autoPersistLastSession := autoPersistLastSession s;
     lastInteractedWithPeer := x;
     heap := heap s;
     timers := timers s;
     promises := promises s;
     nextRef := nextRef s;
     nextTimer := nextTimer s;
     nextPromise := nextPromise s;
     draws := draws s |}.

Definition set_heap (x : gmap nat PeerSession) (s : Peer) : Peer :=
  {| sessionManager := sessionManager s;
     certificatesToRequest := certificatesToRequest s;
     onGeneralMessageReceivedCallbacks := onGeneralMessageReceivedCallbacks s;
     onCertificatesReceivedCallbacks := onCertificatesReceivedCallbacks s;
     onCertificateRequestReceivedCallbacks := onCertificateRequestReceivedCallbacks s;
     onInitialResponseReceivedCallbacks := onInitialResponseReceivedCallbacks s;
     callbackIdCounter := callbackIdCounter s;
     autoPersistLastSession := autoPersistLastSession s;
     lastInteractedWithPeer := lastInteractedWithPeer s;
     heap := x;
     timers := timers s;
     promises := promises s;
     nextRef := nextRef s;
     nextTimer := nextTimer s;
     nextPromise := nextPromise s;
     draws := draws s |}.

Definition set_timers (x : gmap nat TimeoutClosure) (s : Peer) : Peer :=
  {| sessionManager := sessionManager s;
     certificatesToRequest := certificatesToRequest s;
     onGeneralMessageReceivedCallbacks := onGeneralMessageReceivedCallbacks s;
     onCertificatesReceivedCallbacks := onCertificatesReceivedCallbacks s;
     onCertificateRequestReceivedCallbacks := onCertificateRequestReceivedCallbacks s;
     onInitialResponseReceivedCallbacks := onInitialResponseReceivedCallbacks s;
     callbackIdCounter := callbackIdCounter s;
     autoPersistLastSession := autoPersistLastSession s;
     lastInteractedWithPeer := lastInteractedWithPeer s;
     heap := heap s;
     timers := x;
     promises := promises s;
     nextRef := nextRef s;
     nextTimer := nextTimer s;
     nextPromise := nextPromise s;
     draws := draws s |}.

Definition set_promises (x : gmap nat PromiseState) (s : Peer) : Peer :=
  {| sessionManager := sessionManager s;
     certificatesToRequest := certificatesToRequest s;
     onGeneralMessageReceivedCallbacks := onGeneralMessageReceivedCallbacks s;
     onCertificatesReceivedCallbacks := onCertificatesReceivedCallbacks s;
     onCertificateRequestReceivedCallbacks := onCertificateRequestReceivedCallbacks s;
     onInitialResponseReceivedCallbacks := onInitialResponseReceivedCallbacks s;
     callbackIdCounter := callbackIdCounter s;
     autoPersistLastSession := autoPersistLastSession s;
     lastInteractedWithPeer := lastInteractedWithPeer s;
     heap := heap s;
     timers := timers s;
     promises := x;
     nextRef := nextRef s;
     nextTimer := nextTimer s;
     nextPromise := nextPromise s;
     draws := draws s |}.

Definition set_nextRef (x : nat) (s : Peer) : Peer :=
  {| sessionManager := sessionManager s;
     certificatesToRequest := certificatesToRequest s;
     onGeneralMessageReceivedCallbacks := onGeneralMessageReceivedCallbacks s;
     onCertificatesReceivedCallbacks := onCertificatesReceivedCallbacks s;
     onCertificateRequestReceivedCallbacks := onCertificateRequestReceivedCallbacks s;
     onInitialResponseReceivedCallbacks := onInitialResponseReceivedCallbacks s;
     callbackIdCounter := callbackIdCounter s;
     autoPersistLastSession := autoPersistLastSession s;
     lastInteractedWithPeer := lastInteractedWithPeer s;
     heap := heap s;
     timers := timers s;
     promises := promises s;
     nextRef := x;
     nextTimer := nextTimer s;
     nextPromise := nextPromise s;
     draws := draws s |}.

Definition set_nextTimer (x : nat) (s : Peer) : Peer :=
  {| sessionManager := sessionManager s;
     certificatesToRequest := certificatesToRequest s;
     onGeneralMessageReceivedCallbacks := onGeneralMessageReceivedCallbacks s;
     onCertificatesReceivedCallbacks := onCertificatesReceivedCallbacks s;
     onCertificateRequestReceivedCallbacks := onCertificateRequestReceivedCallbacks s;
     onInitialResponseReceivedCallbacks := onInitialResponseReceivedCallbacks s;
     callbackIdCounter := callbackIdCounter s;
     autoPersistLastSession := autoPersistLastSession s;
     lastInteractedWithPeer := lastInteractedWithPeer s;
     heap := heap s;
     timers := timers s;
     promises := promises s;
     nextRef := nextRef s;
     nextTimer := x;
     nextPromise := nextPromise s;
     draws := draws s |}.

Definition set_nextPromise (x : nat) (s : Peer) : Peer :=
  {| sessionManager := sessionManager s;
     certificatesToRequest := certificatesToRequest s;
     onGeneralMessageReceivedCallbacks := onGeneralMessageReceivedCallbacks s;
     onCertificatesReceivedCallbacks := onCertificatesReceivedCallbacks s;
     onCertificateRequestReceivedCallbacks := onCertificateRequestReceivedCallbacks s;
     onInitialResponseReceivedCallbacks := onInitialResponseReceivedCallbacks s;
     callbackIdCounter := callbackIdCounter s;
     autoPersistLastSession := autoPersistLastSession s;
     lastInteractedWithPeer := lastInteractedWithPeer s;
     heap := heap s;
     timers := timers s;
     promises := promises s;
     nextRef := nextRef s;
     nextTimer := nextTimer s;
     nextPromise := x;
     draws := draws s |}.

Definition set_draws (x : nat) (s : Peer) : Peer :=
  {| sessionManager := sessionManager s;
     certificatesToRequest := certificatesToRequest s;
     onGeneralMessageReceivedCallbacks := onGeneralMessageReceivedCallbacks s;
     onCertificatesReceivedCallbacks := onCertificatesReceivedCallbacks s;
     onCertificateRequestReceivedCallbacks := onCertificateRequestReceivedCallbacks s;
     onInitialResponseReceivedCallbacks := onInitialResponseReceivedCallbacks s;
     callbackIdCounter := callbackIdCounter s;
     autoPersistLastSession := autoPersistLastSession s;
     lastInteractedWithPeer := lastInteractedWithPeer s;
     heap := heap s;
     timers := timers s;
     promises := promises s;
     nextRef := nextRef s;
     nextTimer := nextTimer s;
     nextPromise := nextPromise s;
     draws := x |}.

(** ** Runs

    A method either returns, throws, or stops at the [await] of a promise that
    only a later event settles; what it would do next is kept with the
    promise.  State changes made before a throw stay made.  The awaits of
    wallet and transport calls are answered by the [World] at once, and one
    inbound message is processed to its end before the next. *)
Inductive Outcome (A : Type) : Type :=
| Done (a : A)
| Threw (e : string)
| Await (p : nat) (k : Settled → Peer → Run A)
with Run (A : Type) : Type :=
| mkRun (s : Peer) (t : list Event) (o : Outcome A).
Arguments Done {A} a.
Arguments Threw {A} e.
Arguments Await {A} p k.
Arguments mkRun {A} s t o.

Definition final {A} (r : Run A) : Peer :=
  match r with mkRun s _ _ => s end.
Definition trace {A} (r : Run A) : list Event :=
  match r with mkRun _ t _ => t end.
Definition outcome {A} (r : Run A) : Outcome A :=
  match r with mkRun _ _ o => o end.

Definition M (A : Type) : Type := Peer → Run A.

Definition after {A} (t : list Event) (r : Run A) : Run A :=
  match r with mkRun s t' o => mkRun s (t ++ t') o end.

Fixpoint bindRun {A B} (r : Run A) (f : A → M B) : Run B :=
  match r with
  | mkRun s t o =>
      match o with
      | Done a => after t (f a s)
      | Threw e => mkRun s t (Threw e)
      | Await p k => mkRun s t (Await p (λ v s', bindRun (k v s') f))
      end
  end.

(** [try { ... } catch (error) { h error }] *)
Fixpoint catchRun {A} (r : Run A) (h : string → M A) : Run A :=
  match r with
  | mkRun s t o =>
      match o with
      | Done a => mkRun s t (Done a)
      | Threw e => after t (h e s)
      | Await p k => mkRun s t (Await p (λ v s', catchRun (k v s') h))
      end
  end.

#[global] Instance M_ret : MRet M := λ A a s, mkRun s [] (Done a).
#[global] Instance M_bind : MBind M := λ A B f m s, bindRun (m s) f.

Definition throw {A} (e : string) : M A := λ s, mkRun s [] (Threw e).
Definition catch {A} (m : M A) (h : string → M A) : M A :=
  λ s, catchRun (m s) h.
Definition gets {A} (f : Peer → A) : M A := λ s, mkRun s [] (Done (f s)).
Definition modify (f : Peer → Peer) : M unit := λ s, mkRun (f s) [] (Done tt).
Definition emit (e : Event) : M unit := λ s, mkRun s [e] (Done tt).

(** The [await] of a call to a collaborator. *)
Definition call {A} (r : Result A) : M A :=
  match r with
  | Ok a => mret a
  | Err e => throw e
  end.

(** The [await] of a promise of the Peer's own. *)
Definition await (p : nat) : M string :=
  λ s, mkRun s [] (Await p (λ v s',
    match v with
    | Fulfilled x => mkRun s' [] (Done x)
    | Rejected e => mkRun s' [] (Threw e)
    end)).

(** ** Reaching the runtime and the collaborators *)

Variable W : World.

(** [new Promise(...)]: a fresh pending promise. *)
Definition newPromise : M nat :=
  p ← gets nextPromise;
  modify (set_nextPromise (S p));;
  modify (λ s, set_promises (<[p := Pending]> (promises s)) s);;
  mret p.

(** [resolve(v)] and [reject(e)] act on a pending promise only. *)
Definition settle (p : nat) (r : Settled) : M unit :=
  modify (λ s,
    match promises s !! p with
    | Some Pending => set_promises (<[p := Settle r]> (promises s)) s
    | _ => s
    end).

Definition resolve (p : nat) (v : string) : M unit := settle p (Fulfilled v).
Definition reject (p : nat) (e : string) : M unit := settle p (Rejected e).

(** [setTimeout(closure, delay)] returns the handle of the armed timer. *)
Definition setTimeout (c : TimeoutClosure) : M nat :=
  h ← gets nextTimer;
  modify (set_nextTimer (S h));;
  modify (λ s, set_timers (<[h := c]> (timers s)) s);;
  mret h.

Definition clearTimeout (h : nat) : M unit :=
  modify (λ s, set_timers (delete h (timers s)) s).

(** An object literal of type [PeerSession]: a new heap cell. *)
Definition newSession (o : PeerSession) : M nat :=
  l ← gets nextRef;
  modify (set_nextRef (S l));;
  modify (λ s, set_heap (<[l := o]> (heap s)) s);;
  mret l.

(** [this.sessionManager.addSession({ ... })] *)
Definition addSession (o : PeerSession) : M unit :=
  l ← newSession o;
  modify (λ s,
    set_sessionManager (SessionManagerOps.addSession l o (sessionManager s)) s).

(** [this.sessionManager.getSession(key)]: the reference and the object
    it points to. *)
Definition lookupSession (key : maybe string) (s : Peer)
  : option (nat * PeerSession) :=
  l ← SessionManagerOps.getSession key (sessionManager s);
  o ← heap s !! l;
  Some (l, o).

Definition getSession (key : maybe string) : M (option (nat * PeerSession)) :=
  gets (lookupSession key).

(** [this.sessionManager.updateSession(peerSession)] *)
Definition updateSession (l : nat) : M unit :=
  modify (λ s,
    match heap s !! l with
    | Some o =>
        set_sessionManager
          (SessionManagerOps.updateSession l o (sessionManager s)) s
    | None => s
    end).

(** An assignment to fields of a session object, seen through every alias. *)
Definition writeSession (l : nat) (f : PeerSession → PeerSession) : M unit :=
  modify (λ s, set_heap (alter f l (heap s)) s).

Definition readSession (l : nat) (o : PeerSession) : M PeerSession :=
  gets (λ s, default o (heap s !! l)).

Definition drawNonce : M string :=
  n ← gets draws;
  modify (set_draws (S n));;
  call (createNonce W n).

Definition drawRandomBase64 : M string :=
  n ← gets draws;
  modify (set_draws (S n));;
  mret (randomBase64 W n).

Definition walletCreateSignature (r : SignatureRequest) : M bytes :=
  emit (WalletSigned r);;
  call (createSignature W r).

Definition walletVerifySignature (r : VerificationRequest) : M bool :=
  emit (WalletVerified r);;
  call (verifySignature W r).

(** [this.transport.send(m)] *)
Definition send (m : AuthMessage) : M unit :=
  emit (Sent m);;
  call (transportSend W m).

(** [console.error(text)] *)
Definition consoleError (text : string) : M unit := emit (Logged text).

(** [callbacks.forEach(f)] over a map of application callbacks. *)
Fixpoint forEachHandler (f : nat → Handler → M unit)
    (m : list (nat * Handler)) : M unit :=
  match m with
  | [] => mret tt
  | (id, h) :: m' => f id h;; forEachHandler f m'
  end.

(** ** The constructor and the callback registry *)

Definition constructor (certificates : maybe RequestedCertificateSet)
    (autoPersist : bool) : Peer :=
  {| sessionManager := emptySessionManager;
     certificatesToRequest := certificates ?? emptyRequest;
     onGeneralMessageReceivedCallbacks := [];
     onCertificatesReceivedCallbacks := [];
     onCertificateRequestReceivedCallbacks := [];
     onInitialResponseReceivedCallbacks := [];
     callbackIdCounter := 0;
     autoPersistLastSession := autoPersist;
     lastInteractedWithPeer := undefined;
     heap := ∅; timers := ∅; promises := ∅;
     nextRef := 0; nextTimer := 0; nextPromise := 0; draws := 0 |}.

(** [this.callbackIdCounter++] *)
Definition nextCallbackID : M nat :=
  callbackID ← gets callbackIdCounter;
  modify (set_callbackIdCounter (S callbackID));;
  mret callbackID.

Definition listenForGeneralMessages (callback : Handler) : M nat :=
  callbackID ← nextCallbackID;
  modify (λ s, set_onGeneralMessageReceivedCallbacks
    (map_set callbackID callback (onGeneralMessageReceivedCallbacks s)) s);;
  mret callbackID.

Definition stopListeningForGeneralMessages (callbackID : nat) : M unit :=
  modify (λ s, set_onGeneralMessageReceivedCallbacks
    (map_delete callbackID (onGeneralMessageReceivedCallbacks s)) s).

Definition listenForCertificatesReceived (callback : Handler) : M nat :=
  callbackID ← nextCallbackID;
  modify (λ s, set_onCertificatesReceivedCallbacks
    (map_set callbackID callback (onCertificatesReceivedCallbacks s)) s);;
  mret callbackID.

Definition stopListeningForCertificatesReceived (callbackID : nat) : M unit :=
  modify (λ s, set_onCertificatesReceivedCallbacks
    (map_delete callbackID (onCertificatesReceivedCallbacks s)) s).

Definition listenForCertificatesRequested (callback : Handler) : M nat :=
  callbackID ← nextCallbackID;
  modify (λ s, set_onCertificateRequestReceivedCallbacks
    (map_set callbackID callback (onCertificateRequestReceivedCallbacks s)) s);;
  mret callbackID.

Definition stopListeningForCertificatesRequested (callbackID : nat) : M unit :=
  modify (λ s, set_onCertificateRequestReceivedCallbacks
    (map_delete callbackID (onCertificateRequestReceivedCallbacks s)) s).

Definition listenForInitialResponse (sessionNonce : string)
    (callback : WaitClosure) : M nat :=
  callbackID ← nextCallbackID;
  modify (λ s, set_onInitialResponseReceivedCallbacks
    (map_set callbackID
       {| entry_callback := callback; entry_sessionNonce := sessionNonce |}
       (onInitialResponseReceivedCallbacks s)) s);;
  mret callbackID.

Definition stopListeningForInitialResponses (callbackID : nat) : M unit :=
  modify (λ s, set_onInitialResponseReceivedCallbacks
    (map_delete callbackID (onInitialResponseReceivedCallbacks s)) s).

(** ** The handshake wait and its timer *)

(** The body of the closure [waitForInitialResponse] registers as listener. *)
Definition runWaitClosure (c : WaitClosure) (sessionNonce : string) : M unit :=
  clearTimeout (wc_timeoutHandle c);;
  stopListeningForInitialResponses (wc_callbackID c);;
  resolve (wc_promise c) sessionNonce.

(** The body of the closure [waitForInitialResponse] hands to [setTimeout]. *)
Definition runTimeoutClosure (c : TimeoutClosure) : M unit :=
  stopListeningForInitialResponses (tc_callbackID c);;
  reject (tc_promise c) "Initial response timed out.".

(** The runtime's part: an armed timer whose delay has elapsed is disarmed
    and its closure is run; a cleared timer never fires. *)
Definition fireTimer (h : nat) : M unit :=
  armed ← gets (λ s, timers s !! h);
  match armed with
  | Some c => clearTimeout h;; runTimeoutClosure c
  | None => mret tt
  end.

(** The two closures name [callbackID] and [timeoutHandle], variables that
    hold the listener's ID and the timer's handle by the time either closure
    can run; the model reads both values off the counters beforehand. *)
Definition waitForInitialResponse (sessionNonce : string)
    (maxWaitTime : option Z) : M string :=
  let delay := default 10000 maxWaitTime in
  p ← newPromise;
  id ← gets callbackIdCounter;
  h ← gets nextTimer;
  callbackID ← listenForInitialResponse sessionNonce
    {| wc_timeoutHandle := h; wc_callbackID := id; wc_promise := p |};
  timeoutHandle ← setTimeout
    {| tc_callbackID := callbackID; tc_promise := p; tc_delay := delay |};
  await p.

Definition initiateHandshake (identityKey : maybe string)
    (maxWaitTime : option Z) : M string :=
  let maxWaitTime := default 10000 maxWaitTime in
  sessionNonce ← drawNonce;
  addSession {| isAuthenticated := false;
                sessionNonce := val sessionNonce;
                peerNonce := undefined;
                peerIdentityKey := identityKey |};;
  publicKey ← call (getPublicKey W);
  toRequest ← gets certificatesToRequest;
  let initialRequest :=
    {| version := val AUTH_VERSION;
       messageType := val "initialRequest";
       identityKey := val publicKey;
       nonce := undefined;
       initialNonce := val sessionNonce;
       yourNonce := undefined;
       certificates := undefined;
       requestedCertificates := val toRequest;
       payload := undefined;
       signature := undefined |} in
  send initialRequest;;
  waitForInitialResponse sessionNonce (Some maxWaitTime).

Definition getAuthenticatedSession (identityKey : maybe string)
    (maxWaitTime : option Z) : M (nat * PeerSession) :=
  peerSession ← (if is_nullish identityKey then mret None
                 else getSession identityKey);
  let establish : M (nat * PeerSession) :=
    sessionNonce ← initiateHandshake
      (match identityKey with val k => val k | _ => undefined end)
      maxWaitTime;
    peerSession ← getSession (val (identityKey ?? sessionNonce));
    match peerSession with
    | Some (l, o) =>
        if isAuthenticated o then mret (l, o)
        else throw "Unable to establish mutual authentication with peer!"
    | None => throw "Unable to establish mutual authentication with peer!"
    end in
  match peerSession with
  | Some (l, o) => if isAuthenticated o then mret (l, o) else establish
  | None => establish
  end.

(** ** Outbound messages *)

Definition toPeer (message : bytes) (identityKey : maybe string)
    (maxWaitTime : option Z) : M unit :=
  autoPersist ← gets autoPersistLastSession;
  last ← gets lastInteractedWithPeer;
  let identityKey :=
    match last, identityKey with
    | val k, val _ => identityKey
    | val k, _ => if (autoPersist : bool) then val k else identityKey
    | _, _ => identityKey
    end in
  '(l, peerSession) ← getAuthenticatedSession identityKey maxWaitTime;
  requestNonce ← drawRandomBase64;
  signature ← walletCreateSignature
    {| sr_data := message;
       sr_protocolID := authProtocolID;
       sr_keyID := requestNonce +:+ " " +:+ (peerNonce peerSession ?? "unknown");
       sr_counterparty := peerIdentityKey peerSession |};
  publicKey ← call (getPublicKey W);
  let generalMessage :=
    {| version := val AUTH_VERSION;
       messageType := val "general";
       identityKey := val publicKey;
       nonce := val requestNonce;
       initialNonce := undefined;
       yourNonce := val (peerNonce peerSession ?? "unknown");
       certificates := undefined;
       requestedCertificates := undefined;
       payload := val message;
       signature := val signature |} in
  catch (send generalMessage) (λ error,
    throw ("Failed to send message to peer "
           +:+ (peerIdentityKey peerSession ?? "unknown") +:+ ": " +:+ error)).

Definition requestCertificates (toRequest : RequestedCertificateSet)
    (identityKey : maybe string) (maxWaitTime : option Z) : M unit :=
  let maxWaitTime := default 10000 maxWaitTime in
  '(l, peerSession) ← getAuthenticatedSession identityKey (Some maxWaitTime);
  requestNonce ← drawRandomBase64;
  signature ← walletCreateSignature
    {| sr_data := utf8JsonOfRequest W (Some toRequest);
       sr_protocolID := authProtocolID;
       sr_keyID := requestNonce +:+ " " +:+ (peerNonce peerSession ?? "unknown");
       sr_counterparty := peerIdentityKey peerSession |};
  publicKey ← call (getPublicKey W);
  let certRequestMessage :=
    {| version := val AUTH_VERSION;
       messageType := val "certificateRequest";
       identityKey := val publicKey;
       nonce := val requestNonce;
       initialNonce := val (sessionNonce peerSession ?? "unknown");
       yourNonce := val (peerNonce peerSession ?? "unknown");
       certificates := undefined;
       requestedCertificates := val toRequest;
       payload := undefined;
       signature := val signature |} in
  catch (send certRequestMessage) (λ error,
    throw ("Failed to send certificate request message to peer "
           +:+ (peerIdentityKey peerSession ?? "unknown") +:+ ": " +:+ error)).

Definition sendCertificateResponse (verifierIdentityKey : string)
    (certs : list VerifiableCertificate) : M unit :=
  '(l, peerSession) ← getAuthenticatedSession (val verifierIdentityKey) None;
  requestNonce ← drawRandomBase64;
  signature ← walletCreateSignature
    {| sr_data := utf8JsonOfCertificates W certs;
       sr_protocolID := authProtocolID;
       sr_keyID := requestNonce +:+ " " +:+ (peerNonce peerSession ?? "unknown");
       sr_counterparty := val (peerIdentityKey peerSession ?? "unknown") |};
  publicKey ← call (getPublicKey W);
  let certificateResponse :=
    {| version := val AUTH_VERSION;
       messageType := val "certificateResponse";
       identityKey := val publicKey;
       nonce := val requestNonce;
       initialNonce := val (sessionNonce peerSession ?? "unknown");
       yourNonce := val (peerNonce peerSession ?? "unknown");
       certificates := val certs;
       requestedCertificates := undefined;
       payload := undefined;
       signature := val signature |} in
  catch (send certificateResponse) (λ error,
    throw ("Failed to send certificate response message to peer "
           +:+ (peerIdentityKey peerSession ?? "unknown") +:+ ": " +:+ error)).

(** ** Inbound processors *)

(** [this.onCertificateRequestReceivedCallbacks.forEach(callback =>
      callback(sender, request))] *)
Definition fireCertificatesRequested (sender : maybe string)
    (request : RequestedCertificateSet) : M unit :=
  callbacks ← gets onCertificateRequestReceivedCallbacks;
  forEachHandler (λ id h,
    emit (CertificatesRequestedCallback id sender request);;
    call (runCertificatesRequestedHandler W h sender request)) callbacks.

(** [this.onCertificatesReceivedCallbacks.forEach(callback =>
      callback(sender, certs))] *)
Definition fireCertificatesReceived (sender : maybe string)
    (certs : list VerifiableCertificate) : M unit :=
  callbacks ← gets onCertificatesReceivedCallbacks;
  forEachHandler (λ id h,
    emit (CertificatesReceivedCallback id sender certs);;
    call (runCertificatesReceivedHandler W h sender certs)) callbacks.

(** The data signed for an initialResponse:
    [Utils.toArray((message.initialNonce ?? '') + sessionNonce, 'base64')] *)
Definition initialResponseSignedData (peerInitialNonce : maybe string)
    (sessionNonce : string) : bytes :=
  toArrayBase64 W ((peerInitialNonce ?? "") +:+ sessionNonce).

(** The data verified for an initialResponse:
    [Utils.toArray((peerSession.sessionNonce ?? '') +
                   (message.initialNonce ?? ''), 'base64')] *)
Definition initialResponseVerifiedData (sessionNonce : maybe string)
    (peerInitialNonce : maybe string) : bytes :=
  toArrayBase64 W ((sessionNonce ?? "") +:+ (peerInitialNonce ?? "")).

Definition processInitialRequest (message : AuthMessage) : M unit :=
  if optional_trim_is_empty (identityKey message)
     || optional_trim_is_empty (initialNonce message)
  then throw "Missing required fields in initialResponse message."
  else
    sessionNonce ← drawNonce;
    addSession {| isAuthenticated := true;
                  sessionNonce := val sessionNonce;
                  peerNonce := initialNonce message;
                  peerIdentityKey := identityKey message |};;
    certificatesToInclude ←
      match requestedCertificates message with
      | val requested =>
          if (0 <? length (certifiers requested))%nat then
            registered ← gets onCertificateRequestReceivedCallbacks;
            if (0 <? length registered)%nat then
              fireCertificatesRequested (identityKey message) requested;;
              mret undefined
            else
              found ← call (getVerifiableCertificates W requested
                              (identityKey message));
              mret (val found)
          else mret undefined
      | _ => mret undefined
      end;
    signature ← walletCreateSignature
      {| sr_data :=
           initialResponseSignedData (initialNonce message) sessionNonce;
         sr_protocolID := authProtocolID;
         sr_keyID :=
           (initialNonce message ?? "unknown") +:+ " " +:+ sessionNonce;
         sr_counterparty := val (identityKey message ?? "unknown") |};
    publicKey ← call (getPublicKey W);
    toRequest ← gets certificatesToRequest;
    let initialResponseMessage :=
      {| version := val AUTH_VERSION;
         messageType := val "initialResponse";
         identityKey := val publicKey;
         nonce := undefined;
         initialNonce := val sessionNonce;
         yourNonce := val (initialNonce message ?? "unknown");
         certificates := certificatesToInclude;
         requestedCertificates := val toRequest;
         payload := undefined;
         signature := val signature |} in
    last ← gets lastInteractedWithPeer;
    (if is_undefined last
     then modify (set_lastInteractedWithPeer (identityKey message))
     else mret tt);;
    send initialResponseMessage.

(** [this.onInitialResponseReceivedCallbacks.forEach(entry => ...)]: the
    entries in insertion order; one deleted before its turn is passed over. *)
Fixpoint forEachInitialResponse (f : nat → InitialResponseEntry → M unit)
    (entries : list (nat * InitialResponseEntry)) : M unit :=
  match entries with
  | [] => mret tt
  | (id, e) :: rest =>
      live ← gets (λ s, map_has id (onInitialResponseReceivedCallbacks s));
      (if (live : bool) then f id e else mret tt);;
      forEachInitialResponse f rest
  end.

Definition fireInitialResponse (l : nat) (o : PeerSession) : M unit :=
  entries ← gets onInitialResponseReceivedCallbacks;
  forEachInitialResponse (λ id entry,
    peerSession ← readSession l o;
    match sessionNonce peerSession with
    | val sn =>
        if bool_decide (entry_sessionNonce entry = sn) then
          emit (InitialResponseCallback id sn);;
          runWaitClosure (entry_callback entry) sn
        else mret tt
    | _ => mret tt
    end) entries.

Definition processInitialResponse (message : AuthMessage) : M unit :=
  if is_undefined (yourNonce message)
  then throw "The nonce is missing from the message."
  else
    validNonce ← call (verifyNonce W (yourNonce message));
    if negb validNonce then
      throw ("Initial response nonce verification failed from peer: "
             +:+ (identityKey message ?? "unknown"))
    else
      found ← getSession (yourNonce message);
      match found with
      | None =>
          throw ("Peer session not found for peer: "
                 +:+ (identityKey message ?? "unknown"))
      | Some (l, peerSession) =>
          valid ← walletVerifySignature
            {| vr_data :=
                 initialResponseVerifiedData (sessionNonce peerSession)
                   (initialNonce message);
               vr_signature := signature message ?? [];
               vr_protocolID := authProtocolID;
               vr_keyID := (sessionNonce peerSession ?? "") +:+ " "
                           +:+ (initialNonce message ?? "");
               vr_counterparty := val (identityKey message ?? "") |};
          if negb valid then
            throw ("Unable to verify initial response signature for peer: "
                   +:+ (identityKey message ?? "unknown"))
          else
            writeSession l (λ o,
              {| isAuthenticated := true;
                 sessionNonce := sessionNonce o;
                 peerNonce := initialNonce message;
                 peerIdentityKey := identityKey message |});;
            updateSession l;;
            toRequest ← gets certificatesToRequest;
            if (0 <? length (certifiers toRequest))%nat
               && (0 <? length (certificates message ?? []))%nat
            then
              call (validateCertificates W message toRequest);;
              match certificates message with
              | val (c :: cs) =>
                  fireCertificatesReceived (identityKey message) (c :: cs)
              | _ => mret tt
              end;;
              (if negb (missing_or_blank (identityKey message))
               then modify (set_lastInteractedWithPeer (identityKey message))
               else mret tt);;
              fireInitialResponse l peerSession;;
              match requestedCertificates message with
              | val requested =>
                  if (0 <? length (certifiers requested))%nat then
                    registered ← gets onCertificateRequestReceivedCallbacks;
                    if (0 <? length registered)%nat then
                      fireCertificatesRequested
                        (val (identityKey message ?? "unknown")) requested
                    else
                      verifiableCertificates ←
                        call (getVerifiableCertificates W requested
                                (val (identityKey message ?? "unknown")));
                      sendCertificateResponse
                        (identityKey message ?? "unknown")
                        verifiableCertificates
                  else mret tt
              | _ => mret tt
              end
            else mret tt
      end.

(** [if (x === undefined || x === null || x.trim() === '') throw new Error(e)],
    after which [x] is a string. *)
Definition requireNonBlank (x : maybe string) (e : string) : M string :=
  match x with
  | val v => if bool_decide (trim v = "") then throw e else mret v
  | _ => throw e
  end.

(** [if (x === undefined || x === null) throw new Error(e)] *)
Definition requirePresent {A} (x : maybe A) (e : string) : M A :=
  match x with
  | val v => mret v
  | _ => throw e
  end.

Definition processCertificateRequest (message : AuthMessage) : M unit :=
  let sender := identityKey message ?? "unknown" in
  yourNonce ← requireNonBlank (yourNonce message)
    ("Invalid message: Missing 'yourNonce' from " +:+ sender);
  validNonce ← call (verifyNonce W (val yourNonce));
  if negb validNonce then
    throw ("Unable to verify nonce for certificate request message from: "
           +:+ sender)
  else
    found ← getSession (val yourNonce);
    match found with
    | None => throw ("Peer session not found for peer: " +:+ sender)
    | Some (l, peerSession) =>
        signature ← requirePresent (signature message)
          ("Invalid message: Missing 'signature' from " +:+ sender);
        nonce ← requireNonBlank (nonce message)
          ("Invalid message: Missing 'nonce' from " +:+ sender);
        sessionNonce ← requireNonBlank (sessionNonce peerSession)
          ("Invalid session: Missing 'sessionNonce' for peer " +:+ sender);
        peerIdentityKey ← requireNonBlank (peerIdentityKey peerSession)
          ("Invalid session: Missing 'peerIdentityKey' for peer " +:+ sender);
        valid ← walletVerifySignature
          {| vr_data :=
               utf8JsonOfRequest W
                 (match requestedCertificates message with
                  | val requested => Some requested
                  | _ => None
                  end);
             vr_signature := signature;
             vr_protocolID := authProtocolID;
             vr_keyID := nonce +:+ " " +:+ sessionNonce;
             vr_counterparty := val peerIdentityKey |};
        if negb valid then
          throw ("Invalid signature in certificate request message from "
                 +:+ peerIdentityKey)
        else
          match requestedCertificates message, identityKey message with
          | val requested, val key =>
              if (0 <? length (certifiers requested))%nat
                 && negb (bool_decide (trim key = ""))
              then
                registered ← gets onCertificateRequestReceivedCallbacks;
                if (0 <? length registered)%nat then
                  fireCertificatesRequested (val key) requested
                else
                  verifiableCertificates ←
                    call (getVerifiableCertificates W requested (val key));
                  sendCertificateResponse key verifiableCertificates
              else mret tt
          | _, _ => mret tt
          end
    end.

Definition processCertificateResponse (message : AuthMessage) : M unit :=
  let sender := identityKey message ?? "unknown peer" in
  yourNonce ← requireNonBlank (yourNonce message)
    ("Invalid message: Missing 'yourNonce' from " +:+ sender +:+ "!");
  validNonce ← call (verifyNonce W (val yourNonce));
  if negb validNonce then
    throw ("Unable to verify nonce for certificate response from: "
           +:+ sender +:+ "!")
  else
    found ← getSession (val yourNonce);
    match found with
    | None => throw ("Peer session not found for nonce: " +:+ yourNonce)
    | Some (l, peerSession) =>
        sessionNonce ← requireNonBlank (sessionNonce peerSession)
          ("Invalid peer session: Missing 'sessionNonce' for " +:+ sender);
        signature ← requirePresent (signature message)
          ("Invalid message: Missing 'signature' from " +:+ sender +:+ "!");
        valid ← walletVerifySignature
          {| vr_data := utf8JsonOfCertificates W (certificates message ?? []);
             vr_signature := signature;
             vr_protocolID := authProtocolID;
             vr_keyID := (nonce message ?? "unknown") +:+ " " +:+ sessionNonce;
             vr_counterparty := val (identityKey message ?? "unknown") |};
        if negb valid then
          throw ("Unable to verify certificate response signature for peer: "
                 +:+ sender)
        else
          call (validateCertificates W message
                  (requestedCertificates message ?? emptyRequest));;
          fireCertificatesReceived (val (identityKey message ?? "unknown"))
            (certificates message ?? [])
    end.

Definition processGeneralMessage (message : AuthMessage) : M unit :=
  let sender := show (identityKey message) in
  yourNonce ← requirePresent (yourNonce message)
    ("Invalid message: Missing 'yourNonce' from " +:+ sender);
  signature ← requirePresent (signature message)
    ("Invalid message: Missing 'signature' from " +:+ sender);
  nonce ← requirePresent (nonce message)
    ("Invalid message: Missing 'nonce' from " +:+ sender);
  data ← requirePresent (payload message)
    ("Invalid message: Missing 'payload' from " +:+ sender);
  validNonce ← call (verifyNonce W (val yourNonce));
  if negb validNonce then
    throw ("Unable to verify nonce for general message from: " +:+ sender)
  else
    found ← getSession (val yourNonce);
    match found with
    | None => throw ("Peer session not found for peer: " +:+ sender)
    | Some (l, peerSession) =>
        sessionNonce ← requirePresent (sessionNonce peerSession)
          ("Invalid peer session: Missing sessionNonce for peer: " +:+ sender);
        peerIdentityKey ← requirePresent (peerIdentityKey peerSession)
          ("Invalid peer session: Missing peerIdentityKey for peer: "
           +:+ sender);
        valid ← walletVerifySignature
          {| vr_data := data;
             vr_signature := signature;
             vr_protocolID := authProtocolID;
             vr_keyID := nonce +:+ " " +:+ sessionNonce;
             vr_counterparty := val peerIdentityKey |};
        if negb valid then
          throw ("Invalid signature in generalMessage from "
                 +:+ peerIdentityKey)
        else
          match identityKey message with
          | val key =>
              modify (set_lastInteractedWithPeer (val key));;
              callbacks ← gets onGeneralMessageReceivedCallbacks;
              forEachHandler (λ id h,
                emit (GeneralMessageCallback id (val key) data);;
                call (runGeneralMessageHandler W h (val key) data)) callbacks
          | _ => throw "Invalid message: Missing identityKey"
          end
    end.

(** ** The dispatcher *)

Definition handleIncomingMessage (message : AuthMessage) : M unit :=
  if missing_or_blank (version message)
     || negb (bool_decide (version message = val AUTH_VERSION))
  then
    consoleError ("Invalid message auth version! Received: "
                  +:+ (version message ?? "unknown")
                  +:+ ", expected: " +:+ AUTH_VERSION)
  else
    let kind := messageType message in
    if bool_decide (kind = val "initialRequest") then
      processInitialRequest message
    else if bool_decide (kind = val "initialResponse") then
      processInitialResponse message
    else if bool_decide (kind = val "certificateRequest") then
      processCertificateRequest message
    else if bool_decide (kind = val "certificateResponse") then
      processCertificateResponse message
    else if bool_decide (kind = val "general") then
      processGeneralMessage message
    else
      consoleError ("Unknown message type of " +:+ show kind +:+ " from "
                    +:+ (identityKey message ?? "unknown")).

(** The handler the constructor gives to [transport.onData]. *)
Definition onData (message : AuthMessage) : M unit :=
  catch (handleIncomingMessage message) (λ error,
    consoleError ("Error handling incoming message: " +:+ error)).

End Model.

Arguments AuthMessage : clear implicits.
Arguments Event : clear implicits.
Arguments World : clear implicits.
Arguments Peer : clear implicits.
Arguments lookupSession : simpl never.
Arguments fireCertificatesReceived : simpl never.
Arguments fireCertificatesRequested : simpl never.
Arguments fireInitialResponse : simpl never.
Arguments sendCertificateResponse : simpl never.
Arguments getAuthenticatedSession : simpl never.
Arguments nullish {A} !x d : simpl nomatch.
Arguments Nat.ltb !n !m : simpl nomatch.
Arguments authProtocolID : simpl never.
Arguments trim : simpl never.
Arguments String.append : simpl never.
Arguments Run : clear implicits.
Arguments Outcome : clear implicits.
Arguments M : clear implicits.
Arguments Done {VerifiableCertificate A} a.
Arguments Threw {VerifiableCertificate A} e.
Arguments Await {VerifiableCertificate A} p k.
Arguments mkRun {VerifiableCertificate A} s t o.

(** ** Base64 *)

Module Base64.

(** Modelled from the spec: the value of a character of the base64
    alphabet ([A-Z], [a-z], [0-9], [+], [/]); [Utils.toArray], which the
    spec calls base64-decode, is not among the sources. *)
Definition sextet (c : ascii) : option Z :=
  let n := Z.of_nat (nat_of_ascii c) in
  if (65 <=? n) && (n <=? 90) then Some (n - 65)
  else if (97 <=? n) && (n <=? 122) then Some (n - 71)
  else if (48 <=? n) && (n <=? 57) then Some (n + 4)
  else if n =? 43 then Some 62
  else if n =? 47 then Some 63
  else None.

(** Modelled from the spec: base64-decode.  Six bits are taken from each
    character of the alphabet and a byte is produced as soon as eight are
    available; the padding character and anything else outside the alphabet
    carries no bits. *)
Fixpoint decodeFrom (acc : Z) (pending : Z) (s : string) : bytes :=
  match s with
  | EmptyString => []
  | String c s' =>
      match sextet c with
      | None => decodeFrom acc pending s'
      | Some v =>
          let acc := Z.lor (Z.shiftl acc 6) v in
          let pending := pending + 6 in
          if 8 <=? pending then
            Z.land (Z.shiftr acc (pending - 8)) 255
            :: decodeFrom (Z.land acc (Z.ones (pending - 8)))
                 (pending - 8) s'
          else decodeFrom acc pending s'
      end
  end.

(** Modelled from the spec: [Utils.toArray(s, 'base64')]. *)
Definition decode (s : string) : bytes := decodeFrom 0 0 s.

Definition inAlphabet (c : ascii) : bool :=
  match sextet c with
  | Some _ => true
  | None => false
  end.

(** A string made of whole groups of four characters of the alphabet,
    as the encoding of a number of bytes divisible by three is. *)
Fixpoint wholeGroups (s : string) : bool :=
  match s with
  | EmptyString => true
  | String c1 (String c2 (String c3 (String c4 s'))) =>
      inAlphabet c1 && inAlphabet c2 && inAlphabet c3 && inAlphabet c4
      && wholeGroups s'
  | _ => false
  end.

End Base64.

(** ** Concrete peers

    Two identity keys, wallet nonces of 48 bytes (64 base64 characters), and a
    world in which every collaborator succeeds. *)
Module Scenario.

Definition Cert : Type := string.

Definition localKey : string :=
  "02a1633cafcc01ebfb6d78e39f687a1f0995c62fc95f51ead10a02ee0be551b5dc".
Definition remoteKey : string :=
  "03d0de0aaeaefad02b8bdc8a01a1b8b11c696bd3d66a2c5f10780d95b7df42645c".

Definition localNonce : string :=
  "q83vEjRWeJq83vEjRWeJq83vEjRWeJq83vEjRWeJq83vEjRWeJq83vEjRWeJq83v".
Definition laterNonce : string :=
  "EjRWeJq83vEjRWeJq83vEjRWeJq83vEjRWeJq83vEjRWeJq83vEjRWeJq83vEjRW".
Definition remoteNonce : string :=
  "/ty6mHZUMhD+3LqYdlQyEP7cuph2VDIQ/ty6mHZUMhD+3LqYdlQyEP7cuph2VDIQ".

Definition world : World Cert :=
  {| createSignature := λ _, Ok [48; 68; 2; 32];
     verifySignature := λ _, Ok true;
     getPublicKey := Ok localKey;
     createNonce := λ n, Ok (match n with O => localNonce | _ => laterNonce end);
     verifyNonce := λ _, Ok true;
     getVerifiableCertificates := λ _ _, Ok [];
     validateCertificates := λ _ _, Ok tt;
     transportSend := λ _, Ok tt;
     randomBase64 := λ _, "3q2+796tvu/erb7v3q2+796tvu/erb7v3q2+796tvu8=";
     toArrayBase64 := Base64.decode;
     utf8JsonOfRequest := λ _, [];
     utf8JsonOfCertificates := λ _, [];
     runGeneralMessageHandler := λ _ _ _, Ok tt;
     runCertificatesReceivedHandler := λ _ _ _, Ok tt;
     runCertificatesRequestedHandler := λ _ _ _, Ok tt |}.

(** A Peer built with the constructor's defaults. *)
Definition fresh : Peer := constructor undefined true.

(** The same Peer once it has begun a handshake with [remoteKey]: the
    pending session is stored, the initialRequest is with the transport,
    and the caller waits in [waitForInitialResponse]. *)
Definition waiting : Peer :=
  final (getAuthenticatedSession world (val remoteKey) None fresh).

(** The initialResponse the remote peer answers with. *)
Definition initialResponse : AuthMessage Cert :=
  {| version := val AUTH_VERSION; messageType := val "initialResponse";
     identityKey := val remoteKey; nonce := undefined;
     initialNonce := val remoteNonce; yourNonce := val localNonce;
     certificates := undefined;
     requestedCertificates := val emptyRequest;
     payload := undefined; signature := val [48; 69; 2; 33] |}.

(** An initialRequest from the remote peer, asking for no certificates. *)
Definition initialRequest : AuthMessage Cert :=
  {| version := val AUTH_VERSION; messageType := val "initialRequest";
     identityKey := val remoteKey; nonce := undefined;
     initialNonce := val remoteNonce; yourNonce := undefined;
     certificates := undefined;
     requestedCertificates := val emptyRequest;
     payload := undefined; signature := undefined |}.

(** The Peer after it has answered that request: it holds an authenticated
    session whose local nonce is [localNonce]. *)
Definition established : Peer :=
  final (processInitialRequest world initialRequest fresh).

(** A general message for that session that names no sender. *)
Definition anonymousGeneral : AuthMessage Cert :=
  {| version := val AUTH_VERSION; messageType := val "general";
     identityKey := undefined;
     nonce := val "3q2+796tvu/erb7v3q2+796tvu/erb7v3q2+796tvu8=";
     initialNonce := undefined; yourNonce := val localNonce;
     certificates := undefined; requestedCertificates := undefined;
     payload := val [222; 173; 190; 239]; signature := val [48; 68; 2; 32] |}.

(** A wallet that recognises no nonce as its own. *)
Definition forgetful : World Cert :=
  {| createSignature := createSignature world;
     verifySignature := verifySignature world;
     getPublicKey := getPublicKey world;
     createNonce := createNonce world;
     verifyNonce := λ _, Ok false;
     getVerifiableCertificates := getVerifiableCertificates world;
     validateCertificates := validateCertificates world;
     transportSend := transportSend world;
     randomBase64 := randomBase64 world;
     toArrayBase64 := toArrayBase64 world;
     utf8JsonOfRequest := utf8JsonOfRequest world;
     utf8JsonOfCertificates := utf8JsonOfCertificates world;
     runGeneralMessageHandler := runGeneralMessageHandler world;
     runCertificatesReceivedHandler := runCertificatesReceivedHandler world;
     runCertificatesRequestedHandler :=
       runCertificatesRequestedHandler world |}.

(** An initialRequest that carries no initialNonce. *)
Definition requestWithoutNonce : AuthMessage Cert :=
  {| version := val AUTH_VERSION; messageType := val "initialRequest";
     identityKey := val remoteKey; nonce := undefined;
     initialNonce := undefined; yourNonce := undefined;
     certificates := undefined;
     requestedCertificates := val emptyRequest;
     payload := undefined; signature := undefined |}.

(** The reply [processInitialRequest] builds for it. *)
Definition replyToRequestWithoutNonce : AuthMessage Cert :=
  {| version := val AUTH_VERSION; messageType := val "initialResponse";
     identityKey := val localKey; nonce := undefined;
     initialNonce := val localNonce; yourNonce := val "unknown";
     certificates := undefined;
     requestedCertificates := val emptyRequest;
     payload := undefined; signature := val [48; 68; 2; 32] |}.

(** An initialResponse whose identityKey is the empty string. *)
Definition namelessResponse : AuthMessage Cert :=
  {| version := val AUTH_VERSION; messageType := val "initialResponse";
     identityKey := val ""; nonce := undefined;
     initialNonce := val remoteNonce; yourNonce := val localNonce;
     certificates := val ["certificate of membership"];
     requestedCertificates := val emptyRequest;
     payload := undefined; signature := val [48; 69; 2; 33] |}.

(** An initialRequest whose initialNonce is the base64 of a single byte. *)
Definition paddedRequest : AuthMessage Cert :=
  {| version := val AUTH_VERSION; messageType := val "initialRequest";
     identityKey := val remoteKey; nonce := undefined;
     initialNonce := val "QQ=="; yourNonce := undefined;
     certificates := undefined;
     requestedCertificates := val emptyRequest;
     payload := undefined; signature := undefined |}.

(** A general message of a later protocol version. *)
Definition futureGeneral : AuthMessage Cert :=
  {| version := val "0.2"; messageType := val "general";
     identityKey := val remoteKey;
     nonce := val "3q2+796tvu/erb7v3q2+796tvu/erb7v3q2+796tvu8=";
     initialNonce := undefined; yourNonce := val localNonce;
     certificates := undefined; requestedCertificates := undefined;
     payload := val [222; 173; 190; 239]; signature := val [48; 68; 2; 32] |}.

Definition certifierKey : string :=
  "02c5d0f4b1f9e1e3a2b64c8a9f7d3e2b1a0c9d8e7f6a5b4c3d2e1f0a9b8c7d6e5f".

(** A Peer that asks its counterparty for certificates of one certifier. *)
Definition demanding : Peer :=
  constructor
    (val {| certifiers := [certifierKey];
            types := [("membership", ["name"])] |}) true.

(** That Peer waiting for the answer to its initialRequest. *)
Definition demandingWaiting : Peer :=
  final (getAuthenticatedSession world (val remoteKey) None demanding).

(** An initialResponse that encloses one certificate. *)
Definition certifiedResponse : AuthMessage Cert :=
  {| version := val AUTH_VERSION; messageType := val "initialResponse";
     identityKey := val remoteKey; nonce := undefined;
     initialNonce := val remoteNonce; yourNonce := val localNonce;
     certificates := val ["certificate of membership"];
     requestedCertificates := val emptyRequest;
     payload := undefined; signature := val [48; 69; 2; 33] |}.

(** A world whose certificate validation fails. *)
Definition strict : World Cert :=
  {| createSignature := createSignature world;
     verifySignature := verifySignature world;
     getPublicKey := getPublicKey world;
     createNonce := createNonce world;
     verifyNonce := verifyNonce world;
     getVerifiableCertificates := getVerifiableCertificates world;
     validateCertificates := λ _ _, Err "certificate validation failed";
     transportSend := transportSend world;
     randomBase64 := randomBase64 world;
     toArrayBase64 := toArrayBase64 world;
     utf8JsonOfRequest := utf8JsonOfRequest world;
     utf8JsonOfCertificates := utf8JsonOfCertificates world;
     runGeneralMessageHandler := runGeneralMessageHandler world;
     runCertificatesReceivedHandler := runCertificatesReceivedHandler world;
     runCertificatesRequestedHandler :=
       runCertificatesRequestedHandler world |}.

End Scenario.

(** ** Vocabulary of the properties *)

Definition knownMessageTypes : list string :=
  ["initialRequest"; "initialResponse"; "certificateRequest";
   "certificateResponse"; "general"].

Definition knownMessageType (kind : maybe string) : Prop :=
  ∃ k, kind = val k ∧ k ∈ knownMessageTypes.

#[global] Instance Result_eq_dec {A} `{EqDecision A} : EqDecision (Result A).
Proof. solve_decision. Defined.

(** The processors of the four kinds of message that carry [yourNonce]. *)
Definition yourNonceProcessors {C} (W : World C)
  : list (AuthMessage C → M C unit) :=
  [processInitialResponse W; processCertificateRequest W;
   processCertificateResponse W; processGeneralMessage W].

(** A run that got as far as changing the Peer, sending, or calling back,
    or that ran to its end. *)
Definition tookEffect {C A} (s : Peer) (r : Run C A) : Prop :=
  final r ≠ s
  ∨ Exists (λ e, is_send_or_callback e = true) (trace r)
  ∨ ∃ a, outcome r = Done a.

(** The request [processGeneralMessage] puts to [wallet.verifySignature]. *)
Definition generalVerification (data signature : bytes)
    (nonce sessionNonce peerIdentityKey : string) : VerificationRequest :=
  {| vr_data := data;
     vr_signature := signature;
     vr_protocolID := authProtocolID;
     vr_keyID := nonce +:+ " " +:+ sessionNonce;
     vr_counterparty := val peerIdentityKey |}.

(** The request [processInitialResponse] puts to [wallet.verifySignature]. *)
Definition initialResponseVerification {C} (W : World C)
    (message : AuthMessage C) (peerSession : PeerSession)
  : VerificationRequest :=
  {| vr_data :=
       initialResponseVerifiedData W (sessionNonce peerSession)
         (initialNonce message);
     vr_signature := signature message ?? [];
     vr_protocolID := authProtocolID;
     vr_keyID := (sessionNonce peerSession ?? "") +:+ " "
                 +:+ (initialNonce message ?? "");
     vr_counterparty := val (identityKey message ?? "") |}.

(** The session object as [processInitialResponse] leaves it. *)
Definition authenticatedBy {C} (message : AuthMessage C) (o : PeerSession)
  : PeerSession :=
  {| isAuthenticated := true;
     sessionNonce := sessionNonce o;
     peerNonce := initialNonce message;
     peerIdentityKey := identityKey message |}.

Definition present {A} (x : maybe A) : Prop := ∃ a, x = val a.

(** Every authenticated session the manager holds has its three keys. *)
Definition sessionsComplete (s : Peer) : Prop :=
  ∀ l o,
    SessionManagerOps.holds (sessionManager s) l →
    heap s !! l = Some o →
    isAuthenticated o = true →
    present (sessionNonce o) ∧ present (peerNonce o)
    ∧ present (peerIdentityKey o).

(** A method that leaves a part of the state as it found it, as far as it
    runs. *)
Definition preserves {C A B} (part : Peer → B) (m : M C A) : Prop :=
  ∀ s, part (final (m s)) = part s.

(** A method all of whose events satisfy [P]. *)
Definition emits {C A} (P : Event C → Prop) (m : M C A) : Prop :=
  ∀ s, Forall P (trace (m s)).

(** What holds of the state in which a method returns, if it returns. *)
Definition returns {C A} (m : M C A) (s : Peer) (Q : Peer → Prop) : Prop :=
  ∀ a, outcome (m s) = Done a → Q (final (m s)).

(** The value [processInitialRequest] leaves in lastInteractedWithPeer. *)
Definition lastAfterInitialRequest {C} (message : AuthMessage C) (s : Peer)
  : maybe string :=
  if is_undefined (lastInteractedWithPeer s) then identityKey message
  else lastInteractedWithPeer s.

(** The value the certificate branch of [processInitialResponse] leaves in
    lastInteractedWithPeer. *)
Definition lastAfterInitialResponse {C} (message : AuthMessage C) (s : Peer)
  : maybe string :=
  if missing_or_blank (identityKey message) then lastInteractedWithPeer s
  else identityKey message.

(** The outcome of the [await] of a collaborator's answer. *)
Definition settled {C A} (r : Result A) : Outcome C A :=
  match r with
  | Ok a => Done a
  | Err e => Threw e
  end.

(** The data of the signatures a run asked the wallet to create. *)
Definition signedData {C} (t : list (Event C)) : list bytes :=
  omap (λ e, match e with
             | WalletSigned r => Some (sr_data r)
             | _ => None
             end) t.

Definition signsNothing {C} (e : Event C) : Prop :=
  match e with
  | WalletSigned _ => False
  | _ => True
  end.

(** What holds of the events of a run. *)
Definition traced {C A} (m : M C A) (s : Peer)
    (Q : list (Event C) → Prop) : Prop :=
  Q (trace (m s)).

(** ** Vocabulary of the further properties *)

(** A run that does not end with an error, now or after any resumption. *)
Fixpoint neverThrows {C A} (r : Run C A) : Prop :=
  match r with
  | mkRun _ _ o =>
      match o with
      | Done _ => True
      | Threw _ => False
      | Await _ k => ∀ v s', neverThrows (k v s')
      end
  end.

(** [I] holds where the run returns, throws or is suspended, and again where
    it ends after being resumed in a state where [I] holds. *)
Fixpoint establishes {C A} (I : Peer → Prop) (r : Run C A) : Prop :=
  match r with
  | mkRun s _ o =>
      I s ∧ match o with
            | Await _ k => ∀ v s', I s' → establishes I (k v s')
            | _ => True
            end
  end.

(** A method that keeps an invariant of the Peer. *)
Definition keeps {C A} (I : Peer → Prop) (m : M C A) : Prop :=
  ∀ s, I s → establishes I (m s).

Definition keysBelow {V} (n : nat) (m : list (nat * V)) : Prop :=
  Forall (λ kv, (kv.1 < n)%nat) m.

(** Every registered listener, of any of the four kinds, has an ID below the
    shared counter. *)
Definition registryBelow (s : Peer) : Prop :=
  keysBelow (callbackIdCounter s) (onGeneralMessageReceivedCallbacks s)
  ∧ keysBelow (callbackIdCounter s) (onCertificatesReceivedCallbacks s)
  ∧ keysBelow (callbackIdCounter s) (onCertificateRequestReceivedCallbacks s)
  ∧ keysBelow (callbackIdCounter s) (onInitialResponseReceivedCallbacks s).

(** The call [forEach] makes on one general-message listener. *)
Definition generalCallback {C} (sender : string) (data : bytes)
    (listener : nat * Handler) : Event C :=
  GeneralMessageCallback listener.1 (val sender) data.

(** The initialRequest [initiateHandshake] sends. *)
Definition initialRequestOf {C} (publicKey sessionNonce : string)
    (toRequest : RequestedCertificateSet) : AuthMessage C :=
  {| version := val AUTH_VERSION; messageType := val "initialRequest";
     identityKey := val publicKey; nonce := undefined;
     initialNonce := val sessionNonce; yourNonce := undefined;
     certificates := undefined;
     requestedCertificates := val toRequest;
     payload := undefined; signature := undefined |}.

(** The session [initiateHandshake] stores before it sends. *)
Definition pendingSession (sessionNonce : string) (identityKey : maybe string)
  : PeerSession :=
  {| isAuthenticated := false; sessionNonce := val sessionNonce;
     peerNonce := undefined; peerIdentityKey := identityKey |}.

(** [identityKey ?? undefined] *)
Definition orUndefined (identityKey : maybe string) : maybe string :=
  match identityKey with val k => val k | _ => undefined end.

(** [getAuthenticatedSession] finds no authenticated session to return: no
    identity key is given, or no session is stored for it, or the one stored
    is not authenticated. *)
Definition unauthenticated (identityKey : maybe string) (s : Peer) : Prop :=
  is_nullish identityKey = true
  ∨ match lookupSession identityKey s with
    | Some (_, o) => isAuthenticated o = false
    | None => True
    end.

Definition unableToEstablish : string :=
  "Unable to establish mutual authentication with peer!".

(** The call [forEach] makes on one certificatesReceived listener. *)
Definition certificatesCallback {C} (sender : maybe string) (certs : list C)
    (listener : nat * Handler) : Event C :=
  CertificatesReceivedCallback listener.1 sender certs.

(** The call [forEach] makes on one certificatesRequested listener. *)
Definition requestedCallback {C} (sender : maybe string)
    (requested : RequestedCertificateSet) (listener : nat * Handler)
  : Event C :=
  CertificatesRequestedCallback listener.1 sender requested.

(** What [processInitialRequest] does about the certificates an
    initialRequest asks for, when it gets past that step: the listeners it
    calls and the certificates it will enclose in its answer.  A request that
    names certifiers goes to the application's certificatesRequested
    listeners if there are any, and nothing is enclosed; with no listener
    the wallet's matching certificates are enclosed. *)
Definition certificatesStep {C} (W : World C) (s : Peer)
    (sender : maybe string) (requested : maybe RequestedCertificateSet)
    (calls : list (Event C)) (enclosed : maybe (list C)) : Prop :=
  match requested with
  | val r =>
      match certifiers r, onCertificateRequestReceivedCallbacks s with
      | [], _ => calls = [] ∧ enclosed = undefined
      | _ :: _, [] =>
          calls = []
          ∧ ∃ found, getVerifiableCertificates W r sender = Ok found
                     ∧ enclosed = val found
      | _ :: _, listeners =>
          (∀ id h, (id, h) ∈ listeners →
             runCertificatesRequestedHandler W h sender r = Ok tt)
          ∧ calls = map (requestedCallback sender r) listeners
          ∧ enclosed = undefined
      end
  | _ => calls = [] ∧ enclosed = undefined
  end.

(** The session [processInitialRequest] stores. *)
Definition acceptedSession {C} (message : AuthMessage C)
    (sessionNonce : string) : PeerSession :=
  {| isAuthenticated := true; sessionNonce := val sessionNonce;
     peerNonce := initialNonce message;
     peerIdentityKey := identityKey message |}.

(** The signature [processInitialRequest] asks the wallet for. *)
Definition initialResponseSigning {C} (W : World C) (message : AuthMessage C)
    (sessionNonce : string) : SignatureRequest :=
  {| sr_data :=
       toArrayBase64 W ((initialNonce message ?? "") +:+ sessionNonce);
     sr_protocolID := authProtocolID;
     sr_keyID := (initialNonce message ?? "unknown") +:+ " " +:+ sessionNonce;
     sr_counterparty := val (identityKey message ?? "unknown") |}.

(** The initialResponse [processInitialRequest] sends. *)
Definition initialResponseOf {C} (message : AuthMessage C)
    (publicKey sessionNonce : string) (enclosed : maybe (list C))
    (toRequest : RequestedCertificateSet) (sg : bytes) : AuthMessage C :=
  {| version := val AUTH_VERSION; messageType := val "initialResponse";
     identityKey := val publicKey; nonce := undefined;
     initialNonce := val sessionNonce;
     yourNonce := val (initialNonce message ?? "unknown");
     certificates := enclosed;
     requestedCertificates := val toRequest;
     payload := undefined; signature := val sg |}.

(** The general message [toPeer] sends. *)
Definition generalMessageOf {C} (publicKey requestNonce peerNonce : string)
    (data sg : bytes) : AuthMessage C :=
  {| version := val AUTH_VERSION; messageType := val "general";
     identityKey := val publicKey; nonce := val requestNonce;
     initialNonce := undefined; yourNonce := val peerNonce;
     certificates := undefined; requestedCertificates := undefined;
     payload := val data; signature := val sg |}.

(** The request [processCertificateRequest] puts to [wallet.verifySignature]:
    the data is the JSON text of the requested set, of [{}] when the message
    has none. *)
Definition certificateRequestVerification {C} (W : World C)
    (message : AuthMessage C) (sg : bytes)
    (nonce sessionNonce peerIdentityKey : string) : VerificationRequest :=
  {| vr_data :=
       utf8JsonOfRequest W
         match requestedCertificates message with
         | val requested => Some requested
         | _ => None
         end;
     vr_signature := sg;
     vr_protocolID := authProtocolID;
     vr_keyID := nonce +:+ " " +:+ sessionNonce;
     vr_counterparty := val peerIdentityKey |}.

(** The request [processCertificateResponse] puts to
    [wallet.verifySignature]. *)
Definition certificateResponseVerification {C} (W : World C)
    (message : AuthMessage C) (sg : bytes) (sessionNonce : string)
  : VerificationRequest :=
  {| vr_data := utf8JsonOfCertificates W (certificates message ?? []);
     vr_signature := sg;
     vr_protocolID := authProtocolID;
     vr_keyID := (nonce message ?? "unknown") +:+ " " +:+ sessionNonce;
     vr_counterparty := val (identityKey message ?? "unknown") |}.

(** The signature [sendCertificateResponse] asks the wallet for. *)
Definition certificateResponseSigning {C} (W : World C) (certs : list C)
    (requestNonce : string) (o : PeerSession) : SignatureRequest :=
  {| sr_data := utf8JsonOfCertificates W certs;
     sr_protocolID := authProtocolID;
     sr_keyID := requestNonce +:+ " " +:+ (peerNonce o ?? "unknown");
     sr_counterparty := val (peerIdentityKey o ?? "unknown") |}.

(** The certificateResponse [sendCertificateResponse] sends. *)
Definition certificateResponseOf {C} (certs : list C)
    (publicKey requestNonce : string) (o : PeerSession) (sg : bytes)
  : AuthMessage C :=
  {| version := val AUTH_VERSION; messageType := val "certificateResponse";
     identityKey := val publicKey; nonce := val requestNonce;
     initialNonce := val (sessionNonce o ?? "unknown");
     yourNonce := val (peerNonce o ?? "unknown");
     certificates := val certs; requestedCertificates := undefined;
     payload := undefined; signature := val sg |}.

(** The signature [requestCertificates] asks the wallet for. *)
Definition certificateRequestSigning {C} (W : World C)
    (toRequest : RequestedCertificateSet) (requestNonce : string)
    (o : PeerSession) : SignatureRequest :=
  {| sr_data := utf8JsonOfRequest W (Some toRequest);
     sr_protocolID := authProtocolID;
     sr_keyID := requestNonce +:+ " " +:+ (peerNonce o ?? "unknown");
     sr_counterparty := peerIdentityKey o |}.

(** The certificateRequest [requestCertificates] sends. *)
Definition certificateRequestOf {C} (toRequest : RequestedCertificateSet)
    (publicKey requestNonce : string) (o : PeerSession) (sg : bytes)
  : AuthMessage C :=
  {| version := val AUTH_VERSION; messageType := val "certificateRequest";
     identityKey := val publicKey; nonce := val requestNonce;
     initialNonce := val (sessionNonce o ?? "unknown");
     yourNonce := val (peerNonce o ?? "unknown");
     certificates := undefined; requestedCertificates := val toRequest;
     payload := undefined; signature := val sg |}.

(** A string that is neither empty nor blank. *)
Definition nonBlank (x : string) : Prop := trim x ≠ "".

(** A run that leaves a part of the Peer as it was when the run began, and
    whose every resumption leaves that part as it was when resumed. *)
Fixpoint leaves {C A B} (part : Peer → B) (s0 : Peer) (r : Run C A) : Prop :=
  match r with
  | mkRun s _ o =>
      part s = part s0
      ∧ match o with
        | Await _ k => ∀ v s', leaves part s' (k v s')
        | _ => True
        end
  end.

(** A method that never changes a part of the Peer. *)
Definition untouched {C A B} (part : Peer → B) (m : M C A) : Prop :=
  ∀ s, leaves part s (m s).

(** What the application sets up: the certificates to ask for, the
    auto-persist switch and its three kinds of listeners. *)
Definition configuration (s : Peer)
  : RequestedCertificateSet * bool * list (nat * Handler)
    * list (nat * Handler) * list (nat * Handler) :=
  (certificatesToRequest s, autoPersistLastSession s,
   onGeneralMessageReceivedCallbacks s, onCertificatesReceivedCallbacks s,
   onCertificateRequestReceivedCallbacks s).

(** A run refused before it did anything: it threw, the Peer is as it was,
    and it neither sent nor called back. *)
Definition refused {C A} (s : Peer) (r : Run C A) : Prop :=
  final r = s
  ∧ (∃ e, outcome r = Threw e)
  ∧ Forall (λ e, is_send_or_callback e = false) (trace r).

(** A run that began by having the wallet verify a signature, which the
    wallet found valid. *)
Definition beganWithValidSignature {C A} (W : World C) (r : Run C A) : Prop :=
  ∃ v t, trace r = WalletVerified v :: t ∧ verifySignature W v = Ok true.

(** A run that either was refused or began with a valid signature. *)
Definition gated {C A} (W : World C) (s : Peer) (r : Run C A) : Prop :=
  refused s r ∨ beganWithValidSignature W r.

(** ** Further situations *)

Module Situation.
Import Scenario.

(** A general message from the remote peer for the session whose local nonce
    is [localNonce]. *)
Definition general : AuthMessage Cert :=
  {| version := val AUTH_VERSION; messageType := val "general";
     identityKey := val remoteKey;
     nonce := val "3q2+796tvu/erb7v3q2+796tvu/erb7v3q2+796tvu8=";
     initialNonce := undefined; yourNonce := val localNonce;
     certificates := undefined; requestedCertificates := undefined;
     payload := val [222; 173; 190; 239]; signature := val [48; 68; 2; 32] |}.

(** The Peer that waits for the answer to its initialRequest, its session
    with [remoteKey] not yet authenticated, after the application has
    registered three listeners for general messages. *)
Definition listening : Peer :=
  final (@listenForGeneralMessages Cert 9%nat
    (final (@listenForGeneralMessages Cert 8%nat
      (final (@listenForGeneralMessages Cert 7%nat waiting))))).

(** An application whose second listener throws. *)
Definition faulty : World Cert :=
  {| createSignature := createSignature world;
     verifySignature := verifySignature world;
     getPublicKey := getPublicKey world;
     createNonce := createNonce world;
     verifyNonce := verifyNonce world;
     getVerifiableCertificates := getVerifiableCertificates world;
     validateCertificates := validateCertificates world;
     transportSend := transportSend world;
     randomBase64 := randomBase64 world;
     toArrayBase64 := toArrayBase64 world;
     utf8JsonOfRequest := utf8JsonOfRequest world;
     utf8JsonOfCertificates := utf8JsonOfCertificates world;
     runGeneralMessageHandler := λ h _ _,
       if (h =? 8)%nat then Err "listener failed" else Ok tt;
     runCertificatesReceivedHandler := runCertificatesReceivedHandler world;
     runCertificatesRequestedHandler :=
       runCertificatesRequestedHandler world |}.

(** A transport that cannot send. *)
Definition offline : World Cert :=
  {| createSignature := createSignature world;
     verifySignature := verifySignature world;
     getPublicKey := getPublicKey world;
     createNonce := createNonce world;
     verifyNonce := verifyNonce world;
     getVerifiableCertificates := getVerifiableCertificates world;
     validateCertificates := validateCertificates world;
     transportSend := λ _, Err "socket closed";
     randomBase64 := randomBase64 world;
     toArrayBase64 := toArrayBase64 world;
     utf8JsonOfRequest := utf8JsonOfRequest world;
     utf8JsonOfCertificates := utf8JsonOfCertificates world;
     runGeneralMessageHandler := runGeneralMessageHandler world;
     runCertificatesReceivedHandler := runCertificatesReceivedHandler world;
     runCertificatesRequestedHandler :=
       runCertificatesRequestedHandler world |}.

(** The remote peer's side: its wallet has the key [remoteKey], mints
    [remoteNonce] and holds one certificate that matches any request. *)
Definition responder : World Cert :=
  {| createSignature := λ _, Ok [48; 69; 2; 33];
     verifySignature := verifySignature world;
     getPublicKey := Ok remoteKey;
     createNonce := λ _, Ok remoteNonce;
     verifyNonce := verifyNonce world;
     getVerifiableCertificates := λ _ _, Ok ["certificate of membership"];
     validateCertificates := validateCertificates world;
     transportSend := transportSend world;
     randomBase64 := randomBase64 world;
     toArrayBase64 := toArrayBase64 world;
     utf8JsonOfRequest := utf8JsonOfRequest world;
     utf8JsonOfCertificates := utf8JsonOfCertificates world;
     runGeneralMessageHandler := runGeneralMessageHandler world;
     runCertificatesReceivedHandler := runCertificatesReceivedHandler world;
     runCertificatesRequestedHandler :=
       runCertificatesRequestedHandler world |}.

(** The remote peer once it has answered the initialRequest of the Peer that
    asks for certificates, with a listener for general messages. *)
Definition answered : Peer :=
  final (@listenForGeneralMessages Cert 7%nat
    (final (processInitialRequest responder
              (initialRequestOf localKey localNonce
                 (certificatesToRequest demanding)) fresh))).

(** The same, its application also listening for certificate requests. *)
Definition consulted : Peer :=
  final (@listenForCertificatesRequested Cert 5%nat answered).

(** The certificateRequest the Peer that answered [remoteKey] sends it. *)
Definition certificateRequest : AuthMessage Cert :=
  {| version := val AUTH_VERSION; messageType := val "certificateRequest";
     identityKey := val localKey;
     nonce := val "3q2+796tvu/erb7v3q2+796tvu/erb7v3q2+796tvu8=";
     initialNonce := val localNonce; yourNonce := val remoteNonce;
     certificates := undefined;
     requestedCertificates := val (certificatesToRequest demanding);
     payload := undefined; signature := val [48; 68; 2; 32] |}.

(** The certificateResponse the remote peer answers with. *)
Definition certificateResponse : AuthMessage Cert :=
  {| version := val AUTH_VERSION; messageType := val "certificateResponse";
     identityKey := val remoteKey;
     nonce := val "3q2+796tvu/erb7v3q2+796tvu/erb7v3q2+796tvu8=";
     initialNonce := val remoteNonce; yourNonce := val localNonce;
     certificates := val ["certificate of membership"];
     requestedCertificates := undefined;
     payload := undefined; signature := val [48; 69; 2; 33] |}.

(** A wallet that finds every signature invalid. *)
Definition distrustful : World Cert :=
  {| createSignature := createSignature world;
     verifySignature := λ _, Ok false;
     getPublicKey := getPublicKey world;
     createNonce := createNonce world;
     verifyNonce := verifyNonce world;
     getVerifiableCertificates := getVerifiableCertificates world;
     validateCertificates := validateCertificates world;
     transportSend := transportSend world;
     randomBase64 := randomBase64 world;
     toArrayBase64 := toArrayBase64 world;
     utf8JsonOfRequest := utf8JsonOfRequest world;
     utf8JsonOfCertificates := utf8JsonOfCertificates world;
     runGeneralMessageHandler := runGeneralMessageHandler world;
     runCertificatesReceivedHandler := runCertificatesReceivedHandler world;
     runCertificatesRequestedHandler :=
       runCertificatesRequestedHandler world |}.

End Situation.

(** * Facts and tactics *)

Create HintDb peer_ops.
#[global] Hint Unfold mbind M_bind mret M_ret gets modify emit call throw catch
  getSession updateSession writeSession readSession addSession newSession
  walletVerifySignature walletCreateSignature send consoleError
  requirePresent requireNonBlank drawNonce drawRandomBase64 : peer_ops.

Create HintDb peer_methods.
#[global] Hint Unfold getSession updateSession writeSession readSession
  addSession newSession walletVerifySignature walletCreateSignature send
  consoleError requirePresent requireNonBlank drawNonce drawRandomBase64
  newPromise settle resolve reject setTimeout clearTimeout nextCallbackID
  listenForInitialResponse stopListeningForInitialResponses runWaitClosure
  runTimeoutClosure fireTimer waitForInitialResponse initiateHandshake
  getAuthenticatedSession sendCertificateResponse fireCertificatesRequested
  fireCertificatesReceived fireInitialResponse : peer_methods.

(** Run a method as far as the facts at hand decide its branches. *)
Ltac run := repeat (autounfold with peer_ops; cbn).

(** ** Facts about runs *)

Section RunFacts.
Context {C : Type}.

Lemma final_after {A} (t : list (Event C)) (r : Run C A) :
  final (after t r) = final r.
Proof. destruct r; reflexivity. Qed.

Lemma trace_after {A} (t : list (Event C)) (r : Run C A) :
  trace (after t r) = (t ++ trace r)%list.
Proof. destruct r; reflexivity. Qed.

Lemma outcome_after {A} (t : list (Event C)) (r : Run C A) :
  outcome (after t r) = outcome r.
Proof. destruct r; reflexivity. Qed.

Lemma bind_run {A B} (m : M C A) (f : A → M C B) (s : Peer) :
  (m ≫= f) s = bindRun (m s) f.
Proof. reflexivity. Qed.

Section Preservation.
Context {B : Type} (part : Peer → B).

Lemma preserves_bind {A A'} (m : M C A) (f : A → M C A') :
  preserves part m → (∀ a, preserves part (f a)) →
  preserves part (m ≫= f).
Proof.
  intros Hm Hf s. rewrite bind_run. specialize (Hm s).
  destruct (m s) as [s' t [a | e | p k]]; cbn in *; [| assumption ..].
  rewrite final_after, Hf. assumption.
Qed.

Lemma preserves_ret {A} (a : A) : preserves part (mret a : M C A).
Proof. intros s. reflexivity. Qed.

Lemma preserves_throw {A} e : preserves part (throw e : M C A).
Proof. intros s. reflexivity. Qed.

Lemma preserves_gets {A} (f : Peer → A) : preserves part (gets f : M C A).
Proof. intros s. reflexivity. Qed.

Lemma preserves_emit e : preserves part (emit e : M C unit).
Proof. intros s. reflexivity. Qed.

Lemma preserves_call {A} (r : Result A) : preserves part (call r : M C A).
Proof. intros s. destruct r; reflexivity. Qed.

Lemma preserves_await p : preserves part (await p : M C string).
Proof. intros s. reflexivity. Qed.

Lemma preserves_modify (f : Peer → Peer) :
  (∀ s, part (f s) = part s) → preserves part (modify f : M C unit).
Proof. intros H s. apply H. Qed.

Lemma preserves_catch {A} (m : M C A) (h : string → M C A) :
  preserves part m → (∀ e, preserves part (h e)) →
  preserves part (catch m h).
Proof.
  intros Hm Hh s. unfold catch. specialize (Hm s).
  destruct (m s) as [s' t [a | e | p k]]; cbn in *; [assumption | | assumption].
  rewrite final_after, Hh. assumption.
Qed.

Lemma preserves_forEachHandler (f : nat → Handler → M C unit) m :
  (∀ id h, preserves part (f id h)) →
  preserves part (forEachHandler f m).
Proof.
  intros Hf. induction m as [| [id h] m IH]; cbn.
  - apply preserves_ret.
  - apply preserves_bind; [apply Hf | intros _; exact IH].
Qed.

Lemma preserves_forEachInitialResponse
    (f : nat → InitialResponseEntry → M C unit) entries :
  (∀ id e, preserves part (f id e)) →
  preserves part (forEachInitialResponse f entries).
Proof.
  intros Hf. induction entries as [| [id e] m IH]; cbn.
  - apply preserves_ret.
  - apply preserves_bind; [apply preserves_gets |].
    intros live. apply preserves_bind; [| intros _; exact IH].
    destruct live; [apply Hf | apply preserves_ret].
Qed.

End Preservation.

End RunFacts.

(** Break a preservation goal down along the structure of the method. *)
Ltac preservation :=
  autounfold with peer_methods;
  repeat first
    [ apply preserves_ret | apply preserves_throw | apply preserves_gets
    | apply preserves_emit | apply preserves_call | apply preserves_await
    | apply preserves_modify; intros; repeat case_match; reflexivity
    | apply preserves_bind; [| intros ]
    | apply preserves_catch; [| intros ]
    | apply preserves_forEachHandler; intros
    | apply preserves_forEachInitialResponse; intros
    | match goal with
      | |- preserves _ (match ?x with _ => _ end) => destruct x
      | |- preserves _ (let _ := _ in _) => cbv zeta
      end ].

Section Returns.
Context {C : Type}.

Lemma returns_bind {A B} (m : M C A) (f : A → M C B) (s : Peer)
    (Q : Peer → Prop) :
  match m s with
  | mkRun s' _ (Done a) => returns (f a) s' Q
  | _ => True
  end →
  returns (m ≫= f) s Q.
Proof.
  unfold returns. rewrite bind_run.
  destruct (m s) as [s' t [a | e | p k]]; cbn; intros H b Hb;
    try discriminate.
  rewrite outcome_after in Hb. rewrite final_after. eapply H, Hb.
Qed.

Lemma returns_preserved {A B} (part : Peer → B) (m : M C A) (s : Peer)
    (x : B) :
  preserves part m → part s = x → returns m s (λ s', part s' = x).
Proof. intros Hm Hs a _. rewrite Hm. exact Hs. Qed.

Lemma returns_throw {A} e (s : Peer) Q : returns (throw e : M C A) s Q.
Proof. intros a H. discriminate. Qed.

End Returns.

Lemma returns_weaken {C A} (m : M C A) (s : Peer) (Q Q' : Peer → Prop) :
  returns m s Q → (∀ s', Q s' → Q' s') → returns m s Q'.
Proof. intros H HQ a Ha. apply HQ. eapply H, Ha. Qed.

(** ** What a run emits *)

Section Emission.
Context {C : Type} (P : Event C → Prop).

Lemma trace_bind {A B} (m : M C A) (f : A → M C B) (s : Peer) :
  trace ((m ≫= f) s)
  = (trace (m s)
     ++ match outcome (m s) with
        | Done a => trace (f a (final (m s)))
        | _ => []
        end)%list.
Proof.
  rewrite bind_run. destruct (m s) as [s' t [a | e | p k]]; cbn.
  - apply trace_after.
  - symmetry. apply app_nil_r.
  - symmetry. apply app_nil_r.
Qed.

Lemma emits_bind {A B} (m : M C A) (f : A → M C B) :
  emits P m → (∀ a, emits P (f a)) → emits P (m ≫= f).
Proof.
  intros Hm Hf s. rewrite trace_bind. apply Forall_app. split; [apply Hm |].
  destruct (outcome (m s)); [apply Hf | constructor ..].
Qed.

Lemma emits_ret {A} (a : A) : emits P (mret a : M C A).
Proof. intros s. constructor. Qed.

Lemma emits_throw {A} e : emits P (throw e : M C A).
Proof. intros s. constructor. Qed.

Lemma emits_gets {A} (f : Peer → A) : emits P (gets f : M C A).
Proof. intros s. constructor. Qed.

Lemma emits_modify f : emits P (modify f : M C unit).
Proof. intros s. constructor. Qed.

Lemma emits_call {A} (r : Result A) : emits P (call r : M C A).
Proof. intros s. destruct r; constructor. Qed.

Lemma emits_emit e : P e → emits P (emit e : M C unit).
Proof. intros H s. repeat constructor. exact H. Qed.

Lemma emits_forEachHandler (f : nat → Handler → M C unit) m :
  (∀ id h, emits P (f id h)) → emits P (forEachHandler f m).
Proof.
  intros Hf. induction m as [| [id h] m IH]; cbn.
  - apply emits_ret.
  - apply emits_bind; [apply Hf | intros _; exact IH].
Qed.

End Emission.

Lemma signedData_nothing {C} (t : list (Event C)) :
  Forall signsNothing t → signedData t = [].
Proof.
  induction 1 as [| e t He _ IH]; [reflexivity |].
  unfold signedData in *. cbn. destruct e; cbn in *; tauto.
Qed.

Lemma signedData_app {C} (t t' : list (Event C)) :
  signedData (t ++ t') = (signedData t ++ signedData t')%list.
Proof. apply omap_app. Qed.

(** ** What the primitives do *)

Section Primitives.
Context {C : Type} (W : World C).

Lemma call_run {A} (r : Result A) (s : Peer) :
  call r s = mkRun (VerifiableCertificate := C) s [] (settled r).
Proof. destruct r; reflexivity. Qed.

Lemma drawNonce_run (s : Peer) :
  drawNonce W s
  = mkRun (set_draws (S (draws s)) s) [] (settled (createNonce W (draws s))).
Proof.
  unfold drawNonce. run. destruct (createNonce W (draws s)); reflexivity.
Qed.

Lemma addSession_run (o : PeerSession) (s : Peer) :
  @addSession C o s
  = mkRun (set_sessionManager
             (SessionManagerOps.addSession (nextRef s) o (sessionManager s))
             (set_heap (<[nextRef s := o]> (heap s))
                (set_nextRef (S (nextRef s)) s)))
      [] (Done tt).
Proof. reflexivity. Qed.

Lemma walletCreateSignature_run (r : SignatureRequest) (s : Peer) :
  walletCreateSignature W r s
  = mkRun s [WalletSigned r] (settled (createSignature W r)).
Proof.
  unfold walletCreateSignature. run.
  destruct (createSignature W r); reflexivity.
Qed.

Lemma walletVerifySignature_run (r : VerificationRequest) (s : Peer) :
  walletVerifySignature W r s
  = mkRun s [WalletVerified r] (settled (verifySignature W r)).
Proof.
  unfold walletVerifySignature. run.
  destruct (verifySignature W r); reflexivity.
Qed.

Lemma send_run (m : AuthMessage C) (s : Peer) :
  send W m s = mkRun s [Sent m] (settled (transportSend W m)).
Proof. unfold send. run. destruct (transportSend W m); reflexivity. Qed.

End Primitives.

(** One step of a method, the rest left as written. *)
Ltac returns_step :=
  apply returns_bind;
  rewrite ?call_run, ?drawNonce_run, ?addSession_run,
    ?walletCreateSignature_run, ?walletVerifySignature_run, ?send_run;
  unfold getSession, writeSession, updateSession, gets, modify, emit, throw,
    settled, mret, M_ret;
  lazy beta iota.

Section Traces.
Context {C : Type}.

Lemma traced_bind {A B} (m : M C A) (f : A → M C B) (s : Peer)
    (Q : list (Event C) → Prop) :
  match m s with
  | mkRun s' t (Done a) => traced (f a) s' (λ t', Q (t ++ t')%list)
  | mkRun _ t _ => Q t
  end →
  traced (m ≫= f) s Q.
Proof.
  unfold traced. rewrite bind_run.
  destruct (m s) as [s' t [a | e | p k]]; cbn; [| tauto ..].
  rewrite trace_after. tauto.
Qed.

End Traces.

(** One step of a method, for a statement about its events. *)
Ltac traced_step :=
  apply traced_bind;
  rewrite ?call_run, ?drawNonce_run, ?addSession_run,
    ?walletCreateSignature_run, ?walletVerifySignature_run, ?send_run;
  unfold getSession, writeSession, updateSession, gets, modify, emit, throw,
    settled, mret, M_ret;
  lazy beta iota; cbn [app].

(** Break a goal about the events of a method down along its structure. *)
Ltac emission :=
  autounfold with peer_methods;
  repeat first
    [ apply emits_ret | apply emits_throw | apply emits_gets
    | apply emits_modify | apply emits_call
    | apply emits_emit; exact I
    | apply emits_bind; [| intros ]
    | apply emits_forEachHandler; intros
    | match goal with
      | |- emits _ (match ?x with _ => _ end) => destruct x
      | |- emits _ (let _ := _ in _) => cbv zeta
      end ].

(** ** Sessions *)

Lemma lookupSession_Some (key : maybe string) (s : Peer) l o :
  lookupSession key s = Some (l, o) →
  SessionManagerOps.getSession key (sessionManager s) = Some l
  ∧ heap s !! l = Some o.
Proof.
  unfold lookupSession. intros H.
  destruct (SessionManagerOps.getSession key (sessionManager s)) as [l' |];
    [| discriminate].
  cbn in H. destruct (heap s !! l') as [o' |] eqn:Hh; [| discriminate].
  cbn in H. inversion H; subst. split; [reflexivity | assumption].
Qed.

Lemma updateSession_found l o sm sn :
  sessionNonce o = val sn →
  SessionManagerOps.getSession (val sn)
    (SessionManagerOps.updateSession l o sm) = Some l.
Proof.
  intros H. unfold SessionManagerOps.updateSession,
    SessionManagerOps.addSession, SessionManagerOps.getSession. cbn.
  rewrite H. cbn. rewrite lookup_insert_eq. reflexivity.
Qed.

(** ** Facts about callback maps *)

Section JsMapFacts.
Context {V : Type}.

Lemma map_get_delete (id : nat) (m : list (nat * V)) :
  map_get id (map_delete id m) = None.
Proof.
  induction m as [| [i w] m IH]; [reflexivity |].
  cbn. destruct (i =? id)%nat eqn:E; [exact IH |].
  cbn. rewrite E. exact IH.
Qed.

Lemma map_get_replace (id : nat) (v : V) (m : list (nat * V)) :
  map_has id m = true → map_get id (map_replace id v m) = Some v.
Proof.
  induction m as [| [i w] m IH]; [discriminate |].
  cbn. destruct (i =? id)%nat eqn:E; cbn; rewrite E; [reflexivity |].
  exact IH.
Qed.

Lemma map_get_append (id : nat) (v : V) (m : list (nat * V)) :
  map_has id m = false → map_get id (m ++ [(id, v)]) = Some v.
Proof.
  induction m as [| [i w] m IH]; cbn.
  - rewrite Nat.eqb_refl. reflexivity.
  - destruct (i =? id)%nat; [discriminate | exact IH].
Qed.

Lemma map_get_set (id : nat) (v : V) (m : list (nat * V)) :
  map_get id (map_set id v m) = Some v.
Proof.
  unfold map_set. destruct (map_has id m) eqn:E.
  - apply map_get_replace, E.
  - apply map_get_append, E.
Qed.

End JsMapFacts.

(** ** Facts about base64 decoding *)

Section Base64Facts.
Import Base64.

Lemma decodeFrom_group (c1 c2 c3 c4 : ascii) (rest : string) :
  inAlphabet c1 = true → inAlphabet c2 = true →
  inAlphabet c3 = true → inAlphabet c4 = true →
  decodeFrom 0 0 (String c1 (String c2 (String c3 (String c4 rest))))
  = (decodeFrom 0 0 (String c1 (String c2 (String c3 (String c4 ""))))
     ++ decodeFrom 0 0 rest)%list.
Proof.
  unfold inAlphabet. intros H1 H2 H3 H4.
  destruct (sextet c1) as [v1 |] eqn:E1; [| discriminate].
  destruct (sextet c2) as [v2 |] eqn:E2; [| discriminate].
  destruct (sextet c3) as [v3 |] eqn:E3; [| discriminate].
  destruct (sextet c4) as [v4 |] eqn:E4; [| discriminate].
  cbn [decodeFrom]. rewrite E1, E2, E3, E4.
  change (0 + 6) with 6. change (8 <=? 6) with false. lazy beta iota zeta.
  change (6 + 6) with 12. change (8 <=? 12) with true.
  change (12 - 8) with 4. lazy beta iota zeta.
  change (4 + 6) with 10. change (8 <=? 10) with true.
  change (10 - 8) with 2. lazy beta iota zeta.
  change (2 + 6) with 8. change (8 <=? 8) with true.
  change (8 - 8) with 0. lazy beta iota zeta.
  change (Z.ones 0) with 0. rewrite Z.land_0_r. reflexivity.
Qed.

Lemma decode_append_bounded (n : nat) :
  ∀ a b : string,
    (String.length a ≤ n)%nat → wholeGroups a = true →
    decode (a +:+ b) = (decode a ++ decode b)%list.
Proof.
  unfold decode. induction n as [| n IH]; intros a b Hlen Hwhole.
  - destruct a; [reflexivity | cbn in Hlen; lia].
  - destruct a as [| c1 [| c2 [| c3 [| c4 a']]]]; try discriminate;
      [reflexivity |].
    cbn [wholeGroups] in Hwhole.
    repeat (apply andb_prop in Hwhole as [Hwhole ?]).
    change (String c1 (String c2 (String c3 (String c4 a'))) +:+ b)
      with (String c1 (String c2 (String c3 (String c4 (a' +:+ b))))).
    rewrite (decodeFrom_group c1 c2 c3 c4 (a' +:+ b)) by assumption.
    rewrite (decodeFrom_group c1 c2 c3 c4 a') by assumption.
    rewrite IH by (cbn in Hlen; (lia || assumption)).
    apply app_assoc.
Qed.

(** Decoding is a homomorphism on strings whose first part consists of
    whole groups. *)
Lemma decode_append (a b : string) :
  wholeGroups a = true → decode (a +:+ b) = (decode a ++ decode b)%list.
Proof. apply (decode_append_bounded (String.length a)). lia. Qed.

End Base64Facts.

(** * The claims *)

(** ** The dispatcher *)

Section Dispatcher.
Context {C : Type} (W : World C).

Lemma version_gate (message : AuthMessage C) :
  missing_or_blank (version message)
  || negb (bool_decide (version message = val AUTH_VERSION)) = false
  → version message = val AUTH_VERSION.
Proof.
  intros H. apply orb_false_elim in H as [_ H].
  apply negb_false_iff, bool_decide_eq_true in H. exact H.
Qed.

(** C2. A message whose version is not "0.1", or whose messageType is none
    of the five kinds, is dropped: the dispatcher returns, the Peer's state
    (session manager, sessions, lastInteractedWithPeer, registry) is the one
    it started from, and the only thing that happens is one console.error
    line; no callback runs and nothing is sent.  The same holds of the
    handler registered with the transport. *)
Theorem unknown_message_dropped (message : AuthMessage C) (s : Peer) :
  version message ≠ val AUTH_VERSION
  ∨ ¬ knownMessageType (messageType message) →
  ∃ text,
    handleIncomingMessage W message s = mkRun s [Logged text] (Done tt)
    ∧ onData W message s = mkRun s [Logged text] (Done tt).
Proof.
  intros H. unfold onData, catch, handleIncomingMessage.
  destruct (missing_or_blank (version message)
            || negb (bool_decide (version message = val AUTH_VERSION)))
    eqn:Hv.
  - eexists. split; reflexivity.
  - apply version_gate in Hv. destruct H as [H | H]; [contradiction |].
    assert (Hk : ∀ k, k ∈ knownMessageTypes → messageType message ≠ val k).
    { intros k Hin Heq. apply H. exists k. split; assumption. }
    unfold knownMessageTypes in Hk.
    repeat case_bool_decide;
      try (exfalso; eapply Hk; [| eassumption]; set_solver).
    eexists. split; reflexivity.
Qed.

End Dispatcher.

(** A well-signed general message of version "0.2" is dropped with one line
    of log. *)
Lemma unknown_message_dropped_witness :
  ∃ text,
    handleIncomingMessage Scenario.world Scenario.futureGeneral
      Scenario.established
    = mkRun Scenario.established [Logged text] (Done tt)
    ∧ onData Scenario.world Scenario.futureGeneral Scenario.established
      = mkRun Scenario.established [Logged text] (Done tt).
Proof.
  apply (unknown_message_dropped Scenario.world Scenario.futureGeneral
           Scenario.established).
  left. vm_compute. discriminate.
Defined.

(** ** The nonce gate *)

Section NonceGate.
Context {C : Type} (W : World C).

Lemma initialResponse_nonce_gate (message : AuthMessage C) (s : Peer) :
  verifyNonce W (yourNonce message) ≠ Ok true →
  ∃ e, processInitialResponse W message s = mkRun s [] (Threw e).
Proof.
  intros H. unfold processInitialResponse.
  destruct (is_undefined (yourNonce message)); [eexists; reflexivity |].
  run. destruct (verifyNonce W (yourNonce message)) as [[|] | e];
    [contradiction | |]; eexists; reflexivity.
Qed.

Lemma certificateRequest_nonce_gate (message : AuthMessage C) (s : Peer) :
  verifyNonce W (yourNonce message) ≠ Ok true →
  ∃ e, processCertificateRequest W message s = mkRun s [] (Threw e).
Proof.
  intros H. unfold processCertificateRequest. run.
  destruct (yourNonce message) as [| | yn]; try (eexists; reflexivity).
  case_bool_decide; [eexists; reflexivity |]. run.
  destruct (verifyNonce W (val yn)) as [[|] | e];
    [contradiction | |]; eexists; reflexivity.
Qed.

Lemma certificateResponse_nonce_gate (message : AuthMessage C) (s : Peer) :
  verifyNonce W (yourNonce message) ≠ Ok true →
  ∃ e, processCertificateResponse W message s = mkRun s [] (Threw e).
Proof.
  intros H. unfold processCertificateResponse. run.
  destruct (yourNonce message) as [| | yn]; try (eexists; reflexivity).
  case_bool_decide; [eexists; reflexivity |]. run.
  destruct (verifyNonce W (val yn)) as [[|] | e];
    [contradiction | |]; eexists; reflexivity.
Qed.

Lemma general_nonce_gate (message : AuthMessage C) (s : Peer) :
  verifyNonce W (yourNonce message) ≠ Ok true →
  ∃ e, processGeneralMessage W message s = mkRun s [] (Threw e).
Proof.
  intros H. unfold processGeneralMessage. run.
  destruct (yourNonce message) as [| | yn]; try (eexists; reflexivity).
  destruct (signature message); try (eexists; reflexivity).
  destruct (nonce message); try (eexists; reflexivity).
  destruct (payload message); try (eexists; reflexivity). run.
  destruct (verifyNonce W (val yn)) as [[|] | e];
    [contradiction | |]; eexists; reflexivity.
Qed.

(** C3. For each of the four processors of messages that carry yourNonce:
    when verifyNonce(message.yourNonce) did not return true, the processor
    throws with the Peer's state untouched and with nothing sent, verified or
    called back; hence a run that changed the state, sent, called back or
    completed had verifyNonce return true. *)
Theorem accepted_only_with_verified_nonce
    (process : AuthMessage C → M C unit) (message : AuthMessage C)
    (s : Peer) :
  process ∈ yourNonceProcessors W →
  (verifyNonce W (yourNonce message) ≠ Ok true →
   ∃ e, process message s = mkRun s [] (Threw e))
  ∧ (tookEffect s (process message s) →
     verifyNonce W (yourNonce message) = Ok true).
Proof.
  intros Hin.
  assert (Hgate : verifyNonce W (yourNonce message) ≠ Ok true →
                  ∃ e, process message s = mkRun s [] (Threw e)).
  { unfold yourNonceProcessors in Hin.
    repeat (apply elem_of_cons in Hin as [-> | Hin]);
      [ apply initialResponse_nonce_gate
      | apply certificateRequest_nonce_gate
      | apply certificateResponse_nonce_gate
      | apply general_nonce_gate
      | apply elem_of_nil in Hin; contradiction ]. }
  split; [exact Hgate |].
  intros Heffect.
  destruct (decide (verifyNonce W (yourNonce message) = Ok true)) as [| Hne];
    [assumption | exfalso].
  destruct (Hgate Hne) as [e He]. rewrite He in Heffect.
  destruct Heffect as [Hs | [Ht | [a Ha]]]; cbn in *.
  - congruence.
  - inversion Ht.
  - discriminate.
Qed.

End NonceGate.

(** The general message of [Scenario.anonymousGeneral], offered to a wallet
    that rejects its yourNonce, is refused before anything happens. *)
Lemma accepted_only_with_verified_nonce_witness :
  ∃ e, processGeneralMessage Scenario.forgetful Scenario.anonymousGeneral
         Scenario.established
       = mkRun Scenario.established [] (Threw e).
Proof.
  apply (accepted_only_with_verified_nonce Scenario.forgetful
           (processGeneralMessage Scenario.forgetful)
           Scenario.anonymousGeneral Scenario.established).
  - unfold yourNonceProcessors. do 3 apply list_elem_of_further.
    apply list_elem_of_here.
  - discriminate.
Defined.

(** ** Initial requests *)

Section InitialRequest.
Context {C : Type} (W : World C).

(** An initialRequest whose identityKey or initialNonce is a string of
    nothing but white space is refused before anything is done. *)
Lemma blank_initialRequest_rejected (message : AuthMessage C) (s : Peer)
    (blank : string) :
  trim blank = "" →
  identityKey message = val blank ∨ initialNonce message = val blank →
  processInitialRequest W message s
  = mkRun s [] (Threw "Missing required fields in initialResponse message.").
Proof.
  intros Hb H. unfold processInitialRequest.
  assert (Hguard : optional_trim_is_empty (identityKey message)
                   || optional_trim_is_empty (initialNonce message) = true).
  { destruct H as [-> | ->]; cbn; rewrite bool_decide_eq_true_2 by assumption;
      [reflexivity | apply orb_true_r]. }
  rewrite Hguard. reflexivity.
Qed.

(** An initialRequest whose initialNonce is absent passes that check, and
    whatever happens next, the Peer now holds an authenticated session
    without peerNonce. *)
Lemma absent_initialNonce_creates_session (message : AuthMessage C)
    (s : Peer) (sn : string) :
  is_nullish (initialNonce message) = true →
  optional_trim_is_empty (identityKey message) = false →
  createNonce W (draws s) = Ok sn →
  lookupSession (val sn) (final (processInitialRequest W message s))
  = Some (nextRef s,
          {| isAuthenticated := true;
             sessionNonce := val sn;
             peerNonce := initialNonce message;
             peerIdentityKey := identityKey message |}).
Proof.
  intros Habsent Hkey Hsn. unfold processInitialRequest.
  rewrite Hkey.
  replace (optional_trim_is_empty (initialNonce message)) with false
    by (destruct (initialNonce message); [reflexivity .. | discriminate]).
  cbn [orb].
  rewrite bind_run, drawNonce_run, Hsn. cbn [settled bindRun].
  rewrite final_after, bind_run, addSession_run. cbn [bindRun].
  rewrite final_after.
  match goal with
  | |- lookupSession _ (final (?rest ?s2)) = _ =>
      assert (Hrest : preserves (λ s, (sessionManager s, heap s)) rest)
        by preservation;
      specialize (Hrest s2);
      remember (final (rest s2)) as s3 eqn:Hs3 in *; clear Hs3;
      lazy beta in Hrest; injection Hrest as Hmanager Hheap
  end.
  unfold lookupSession. rewrite Hmanager, Hheap.
  unfold SessionManagerOps.getSession, SessionManagerOps.addSession. cbn.
  rewrite lookup_insert_eq. cbn. rewrite lookup_insert_eq. reflexivity.
Qed.

End InitialRequest.

(** C5, evaluated.  An initialRequest without initialNonce is not refused:
    processInitialRequest returns normally, having stored a session for the
    sender and handed an initialResponse to the transport.  The same happens
    when the field is null. *)
Theorem initialRequest_without_nonce_accepted :
  let r := processInitialRequest Scenario.world Scenario.requestWithoutNonce
             Scenario.fresh in
  outcome r = Done tt
  ∧ lookupSession (val Scenario.localNonce) (final r)
    = Some (0%nat,
            {| isAuthenticated := true;
               sessionNonce := val Scenario.localNonce;
               peerNonce := undefined;
               peerIdentityKey := val Scenario.remoteKey |})
  ∧ filter (λ e, is_send_or_callback e = true) (trace r)
    = [Sent Scenario.replyToRequestWithoutNonce]
  ∧ lookupSession (val Scenario.localNonce) Scenario.fresh = None.
Proof. vm_compute. repeat split; reflexivity. Qed.

(** C4, evaluated.  The Peer starts with no session, so every authenticated
    session it holds is complete; after the same initialRequest without
    initialNonce it holds an authenticated session whose peerNonce is
    absent. *)
Theorem authenticated_session_without_peerNonce :
  sessionsComplete Scenario.fresh
  ∧ ¬ sessionsComplete
        (final (processInitialRequest Scenario.world
                  Scenario.requestWithoutNonce Scenario.fresh)).
Proof.
  split.
  - intros l o [k Hk] _ _. cbn in Hk. rewrite !lookup_empty in Hk.
    destruct Hk as [Hk | [Hk | Hk]]; discriminate.
  - intros Hall.
    destruct (Hall 0%nat
                {| isAuthenticated := true;
                   sessionNonce := val Scenario.localNonce;
                   peerNonce := undefined;
                   peerIdentityKey := val Scenario.remoteKey |})
      as (_ & [a Ha] & _).
    + exists Scenario.localNonce. left. vm_compute. reflexivity.
    + vm_compute. reflexivity.
    + reflexivity.
    + discriminate.
Qed.

(** ** Initial responses *)

Section InitialResponse.
Context {C : Type} (W : World C).

(** C9. processInitialResponse is not atomic with respect to certificate
    validation.  When the nonce is recognised, the pending session is found
    and the signature verifies, the session object is written
    (isAuthenticated, peerNonce, peerIdentityKey) and handed to updateSession
    before validateCertificates is called; if that call then raises, the
    error is thrown with the session still stored and authenticated, while
    nothing but the signature verification has happened: no
    certificatesReceived and no initial-response callback ran, and the
    listeners and lastInteractedWithPeer are as they were. *)
Theorem authenticated_before_certificates_validated
    (message : AuthMessage C) (s : Peer) (l : nat) (o : PeerSession)
    (sn e : string) :
  is_undefined (yourNonce message) = false →
  verifyNonce W (yourNonce message) = Ok true →
  lookupSession (yourNonce message) s = Some (l, o) →
  sessionNonce o = val sn →
  verifySignature W (initialResponseVerification W message o) = Ok true →
  certifiers (certificatesToRequest s) ≠ [] →
  certificates message ?? [] ≠ [] →
  validateCertificates W message (certificatesToRequest s) = Err e →
  let r := processInitialResponse W message s in
  outcome r = Threw e
  ∧ final r
    = set_sessionManager
        (SessionManagerOps.updateSession l (authenticatedBy message o)
           (sessionManager s))
        (set_heap (alter (authenticatedBy message) l (heap s)) s)
  ∧ lookupSession (val sn) (final r) = Some (l, authenticatedBy message o)
  ∧ trace r = [WalletVerified (initialResponseVerification W message o)]
  ∧ onInitialResponseReceivedCallbacks (final r)
    = onInitialResponseReceivedCallbacks s
  ∧ onCertificatesReceivedCallbacks (final r)
    = onCertificatesReceivedCallbacks s
  ∧ promises (final r) = promises s
  ∧ lastInteractedWithPeer (final r) = lastInteractedWithPeer s.
Proof.
  intros Hyn Hvn Hget Hsn Hvs Hreq Hcerts Hval r.
  destruct (lookupSession_Some _ _ _ _ Hget) as [Hidx Hheap].
  assert (Hr : r = mkRun
            (set_sessionManager
               (SessionManagerOps.updateSession l (authenticatedBy message o)
                  (sessionManager s))
               (set_heap (alter (authenticatedBy message) l (heap s)) s))
            [WalletVerified (initialResponseVerification W message o)]
            (Threw e)).
  { subst r. unfold processInitialResponse, initialResponseVerification in *.
    rewrite Hyn. run. rewrite Hvn. run. rewrite Hget. run. rewrite Hvs. run.
    rewrite lookup_alter_eq, Hheap. cbn.
    destruct (certifiers (certificatesToRequest s)); [contradiction |].
    destruct (certificates message ?? []); [contradiction |].
    run. rewrite Hval. reflexivity. }
  rewrite Hr. cbn. repeat split.
  unfold lookupSession.
  cbn [sessionManager set_sessionManager heap set_heap].
  rewrite (updateSession_found l (authenticatedBy message o) _ sn Hsn). cbn.
  rewrite lookup_alter_eq, Hheap. reflexivity.
Qed.

End InitialResponse.

Lemma authenticated_before_certificates_validated_witness :
  outcome (processInitialResponse Scenario.strict Scenario.certifiedResponse
             Scenario.demandingWaiting)
  = Threw "certificate validation failed"
  ∧ lookupSession (val Scenario.localNonce)
      (final (processInitialResponse Scenario.strict
                Scenario.certifiedResponse Scenario.demandingWaiting))
    = Some (0%nat,
            {| isAuthenticated := true;
               sessionNonce := val Scenario.localNonce;
               peerNonce := val Scenario.remoteNonce;
               peerIdentityKey := val Scenario.remoteKey |}).
Proof.
  pose proof (authenticated_before_certificates_validated Scenario.strict
                Scenario.certifiedResponse Scenario.demandingWaiting 0%nat
                {| isAuthenticated := false;
                   sessionNonce := val Scenario.localNonce;
                   peerNonce := undefined;
                   peerIdentityKey := val Scenario.remoteKey |}
                Scenario.localNonce "certificate validation failed"
                ltac:(vm_compute; reflexivity)
                ltac:(vm_compute; reflexivity)
                ltac:(vm_compute; reflexivity)
                ltac:(vm_compute; reflexivity)
                ltac:(vm_compute; reflexivity)
                ltac:(vm_compute; discriminate)
                ltac:(vm_compute; discriminate)
                ltac:(vm_compute; reflexivity)) as H.
  destruct H as (Hout & _ & Hstored & _).
  split; [exact Hout | exact Hstored].
Defined.

Section InitialResponseWithoutCertificates.
Context {C : Type} (W : World C).

(** Whenever no certificates were asked for, or the response encloses none,
    processInitialResponse runs none of the code that follows certificate
    validation: no callback of any kind is called, the listeners and the
    promises of waiting callers are untouched, and lastInteractedWithPeer
    keeps its value. *)
Lemma no_certificates_no_callbacks (message : AuthMessage C) (s : Peer) :
  certifiers (certificatesToRequest s) = []
  ∨ certificates message ?? [] = [] →
  let r := processInitialResponse W message s in
  Forall (λ e, is_callback e = false) (trace r)
  ∧ onInitialResponseReceivedCallbacks (final r)
    = onInitialResponseReceivedCallbacks s
  ∧ promises (final r) = promises s
  ∧ timers (final r) = timers s
  ∧ lastInteractedWithPeer (final r) = lastInteractedWithPeer s.
Proof.
  intros Hnone r. subst r. unfold processInitialResponse.
  destruct (is_undefined (yourNonce message)); [by repeat constructor |].
  run. destruct (verifyNonce W (yourNonce message)) as [[|] | e]; run;
    try by repeat constructor.
  destruct (lookupSession (yourNonce message) s) as [[l o] |]; run;
    try by repeat constructor.
  match goal with
  | |- context [verifySignature W ?r] =>
      destruct (verifySignature W r) as [[|] | e]
  end; run; try by repeat constructor.
  assert (Hskip : (0 <? length (certifiers (certificatesToRequest s)))%nat
                  && (0 <? length (certificates message ?? []))%nat = false).
  { destruct Hnone as [-> | ->]; [reflexivity | apply andb_false_r]. }
  destruct (alter _ l (heap s) !! l); run; rewrite Hskip;
    by repeat constructor.
Qed.

End InitialResponseWithoutCertificates.

(** C1, evaluated.  A Peer built with the constructor's defaults starts a
    handshake and waits; the counterparty's initialResponse arrives, its
    yourNonce is recognised, the pending session is found under it and the
    signature verifies.  The session is marked authenticated with the peer's
    nonce and key, but the listener registered for that session nonce is not
    called: it stays registered and the waiting caller's promise stays
    pending, so that the only way out is the timer. *)
Theorem initialResponse_without_certificates_fires_no_callback :
  let r := processInitialResponse Scenario.world Scenario.initialResponse
             Scenario.waiting in
  let pending := {| isAuthenticated := false;
                    sessionNonce := val Scenario.localNonce;
                    peerNonce := undefined;
                    peerIdentityKey := val Scenario.remoteKey |} in
  let listener := {| entry_callback := mkWaitClosure 0 0 0;
                     entry_sessionNonce := Scenario.localNonce |} in
  (verifyNonce Scenario.world (yourNonce Scenario.initialResponse) = Ok true
   ∧ lookupSession (yourNonce Scenario.initialResponse) Scenario.waiting
     = Some (0%nat, pending)
   ∧ verifySignature Scenario.world
       (initialResponseVerification Scenario.world Scenario.initialResponse
          pending) = Ok true
   ∧ onInitialResponseReceivedCallbacks Scenario.waiting
     = [(0%nat, listener)])
  ∧ outcome r = Done tt
  ∧ lookupSession (val Scenario.localNonce) (final r)
    = Some (0%nat, authenticatedBy Scenario.initialResponse pending)
  ∧ trace r
    = [WalletVerified
         (initialResponseVerification Scenario.world Scenario.initialResponse
            pending)]
  ∧ onInitialResponseReceivedCallbacks (final r) = [(0%nat, listener)]
  ∧ promises (final r) !! 0%nat = Some Pending
  ∧ promises (final (@fireTimer Scenario.Cert 0 (final r))) !! 0%nat
    = Some (Settle (Rejected "Initial response timed out.")).
Proof. vm_compute. repeat split; reflexivity. Qed.

(** ** The data signed in the handshake *)

Section HandshakeSignature.
Context {C : Type} (W : World C).

(** What processInitialRequest asks the wallet to sign: nothing, when it
    stops before, and otherwise exactly once the decoding of the peer's
    initialNonce (the empty string when absent) joined to the new session
    nonce. *)
Lemma initialRequest_signed_data (message : AuthMessage C) (s : Peer) :
  let t := trace (processInitialRequest W message s) in
  signedData t = []
  ∨ ∃ sn, createNonce W (draws s) = Ok sn
          ∧ signedData t
            = [toArrayBase64 W ((initialNonce message ?? "") +:+ sn)].
Proof.
  cbv zeta.
  destruct (createNonce W (draws s)) as [sn | e] eqn:Hsn.
  - enough (H : traced (processInitialRequest W message) s
             (λ t, signedData t = []
                   ∨ signedData t
                     = [toArrayBase64 W
                          ((initialNonce message ?? "") +:+ sn)])).
    { destruct H as [H | H]; [left; exact H | right; eauto]. }
    unfold processInitialRequest.
    destruct (_ || _); [left; reflexivity |].
    traced_step. rewrite Hsn. lazy beta iota.
    traced_step. traced_step.
    match goal with
    | |- match ?m ?s1 with _ => _ end =>
        assert (Hm : emits signsNothing m) by emission;
        specialize (Hm s1); apply signedData_nothing in Hm;
        destruct (m s1) as [s2 t2 [certs | e | p k]]; cbn [trace] in Hm;
        [| left; exact Hm ..]
    end.
    apply traced_bind. rewrite walletCreateSignature_run.
    destruct (createSignature W _) as [sg | e]; cbn [settled];
      lazy beta iota.
    + match goal with
      | |- traced ?m ?s1 _ =>
          assert (Hm' : emits signsNothing m) by emission;
          specialize (Hm' s1); apply signedData_nothing in Hm'
      end.
      unfold traced. right.
      rewrite !signedData_app, Hm, Hm'. reflexivity.
    + right. rewrite signedData_app, Hm. reflexivity.
  - left. unfold processInitialRequest.
    destruct (_ || _); [reflexivity |].
    rewrite bind_run, drawNonce_run, Hsn. reflexivity.
Qed.

(** What processInitialResponse asks the wallet to verify, once the nonce
    is recognised and the session found. *)
Lemma initialResponse_verified_data (message : AuthMessage C) (s : Peer)
    (l : nat) (o : PeerSession) :
  is_undefined (yourNonce message) = false →
  verifyNonce W (yourNonce message) = Ok true →
  lookupSession (yourNonce message) s = Some (l, o) →
  ∃ rest,
    trace (processInitialResponse W message s)
    = WalletVerified (initialResponseVerification W message o) :: rest.
Proof.
  intros Hyn Hvn Hget.
  change (traced (processInitialResponse W message) s
            (λ t, ∃ rest,
               t = WalletVerified (initialResponseVerification W message o)
                   :: rest)).
  unfold processInitialResponse. rewrite Hyn.
  traced_step. rewrite Hvn. lazy beta iota. cbn [negb].
  traced_step. rewrite Hget. lazy beta iota.
  apply traced_bind. rewrite walletVerifySignature_run.
  destruct (verifySignature W _); cbn [settled]; lazy beta iota;
    unfold traced; eexists; reflexivity.
Qed.

(** C6, as amended.  The data processInitialRequest signs is the base64
    decoding of the string made of the peer's initialNonce followed by the
    new session nonce; the data processInitialResponse verifies is the
    decoding of the string made of the session's nonce followed by the
    message's initialNonce (an absent nonce counting as the empty string in
    both); the two are the same bytes when both sides hold the same two
    nonces; and with the base64 decoding of this development they are the
    decoding of the first nonce followed by the decoding of the second
    whenever the first nonce consists of whole groups of four characters of
    the alphabet. *)
Theorem initialResponse_signature_data (request message : AuthMessage C)
    (s s' : Peer) (l : nat) (o : PeerSession) (a b : string) :
  (let t := trace (processInitialRequest W request s) in
   signedData t = []
   ∨ ∃ sn, createNonce W (draws s) = Ok sn
           ∧ signedData t
             = [toArrayBase64 W ((initialNonce request ?? "") +:+ sn)])
  ∧ (is_undefined (yourNonce message) = false →
     verifyNonce W (yourNonce message) = Ok true →
     lookupSession (yourNonce message) s' = Some (l, o) →
     ∃ r rest,
       trace (processInitialResponse W message s')
       = WalletVerified r :: rest
       ∧ vr_data r
         = toArrayBase64 W
             ((sessionNonce o ?? "") +:+ (initialNonce message ?? "")))
  ∧ initialResponseSignedData W (val a) b
    = initialResponseVerifiedData W (val a) (val b)
  ∧ (toArrayBase64 W = Base64.decode →
     Base64.wholeGroups a = true →
     initialResponseSignedData W (val a) b
     = (Base64.decode a ++ Base64.decode b)%list).
Proof.
  split; [apply initialRequest_signed_data |].
  split.
  { intros Hyn Hvn Hget.
    destruct (initialResponse_verified_data message s' l o Hyn Hvn Hget)
      as [rest Hrest].
    exists (initialResponseVerification W message o), rest.
    split; [exact Hrest | reflexivity]. }
  split; [reflexivity |].
  intros Hdecode Hwhole. unfold initialResponseSignedData.
  rewrite Hdecode. cbn [nullish]. apply decode_append, Hwhole.
Qed.

End HandshakeSignature.

(** With two wallet nonces of 48 bytes: the initiator verifies the decoding
    of its own nonce joined to the responder's, and the data the responder
    signs for the same pair is the 96 bytes of the two nonces. *)
Lemma initialResponse_signature_data_witness :
  (∃ r rest,
     trace (processInitialResponse Scenario.world Scenario.initialResponse
              Scenario.waiting)
     = WalletVerified r :: rest
     ∧ vr_data r
       = toArrayBase64 Scenario.world
           (Scenario.localNonce +:+ Scenario.remoteNonce))
  ∧ initialResponseSignedData Scenario.world (val Scenario.localNonce)
      Scenario.remoteNonce
    = (Base64.decode Scenario.localNonce
       ++ Base64.decode Scenario.remoteNonce)%list.
Proof.
  destruct (initialResponse_signature_data Scenario.world
              Scenario.initialRequest Scenario.initialResponse
              Scenario.fresh Scenario.waiting 0%nat
              {| isAuthenticated := false;
                 sessionNonce := val Scenario.localNonce;
                 peerNonce := undefined;
                 peerIdentityKey := val Scenario.remoteKey |}
              Scenario.localNonce Scenario.remoteNonce)
    as (_ & Hverified & _ & Hdecode).
  split.
  - apply Hverified; vm_compute; reflexivity.
  - apply Hdecode; [reflexivity | vm_compute; reflexivity].
Defined.

(** C6 as stated fails for a peer nonce that is not made of whole groups:
    for the initialNonce "QQ==" (one byte) the data signed is the decoding of
    "QQ==" joined to the session nonce, and that is not the byte followed by
    the 48 bytes of the session nonce. *)
Lemma signed_data_is_not_concatenation :
  let t := trace (processInitialRequest Scenario.world Scenario.paddedRequest
                    Scenario.fresh) in
  signedData t = [Base64.decode ("QQ==" +:+ Scenario.localNonce)]
  ∧ signedData t
    ≠ [(Base64.decode "QQ==" ++ Base64.decode Scenario.localNonce)%list].
Proof. vm_compute. split; [reflexivity | discriminate]. Qed.

(** ** The handshake wait *)

Section HandshakeWait.
Context {C : Type}.

(** C7. waitForInitialResponse registers a listener for the session nonce,
    arms a timer with delay maxWaitTime (10000 by default) and suspends its
    caller on a fresh pending promise.  From any later state in which that
    listener, that timer and that promise are still as registered:
    - when the timer fires, the listener is removed from the callback map and
      the promise is rejected, so that the waiting caller resumes by throwing
      "Initial response timed out.";
    - when instead the listener is called with the session nonce, the timer
      is cleared, the listener is removed and the promise is fulfilled, so
      that the waiting caller resumes with the session nonce; the cleared
      timer then does nothing. *)
Theorem wait_ends_by_timeout_or_callback (s : Peer) (sessionNonce : string)
    (maxWaitTime : option Z) :
  let p := nextPromise s in
  let id := callbackIdCounter s in
  let h := nextTimer s in
  let listener :=
    {| entry_callback := mkWaitClosure h id p;
       entry_sessionNonce := sessionNonce |} in
  let timeout :=
    {| tc_callbackID := id; tc_promise := p;
       tc_delay := default 10000 maxWaitTime |} in
  ∃ (s1 : Peer) (k : Settled → Peer → Run C string),
    waitForInitialResponse sessionNonce maxWaitTime s
    = mkRun s1 [] (Await p k)
    ∧ map_get id (onInitialResponseReceivedCallbacks s1) = Some listener
    ∧ timers s1 !! h = Some timeout
    ∧ promises s1 !! p = Some Pending
    ∧ ∀ s' : Peer,
        map_get id (onInitialResponseReceivedCallbacks s') = Some listener →
        timers s' !! h = Some timeout →
        promises s' !! p = Some Pending →
        (let r := @fireTimer C h s' in
         let e := "Initial response timed out." in
         outcome r = Done tt
         ∧ map_get id (onInitialResponseReceivedCallbacks (final r)) = None
         ∧ timers (final r) !! h = None
         ∧ promises (final r) !! p = Some (Settle (Rejected e))
         ∧ k (Rejected e) (final r) = mkRun (final r) [] (Threw e))
        ∧ (let r := @runWaitClosure C (entry_callback listener)
                      sessionNonce s' in
           outcome r = Done tt
           ∧ timers (final r) !! h = None
           ∧ map_get id (onInitialResponseReceivedCallbacks (final r)) = None
           ∧ promises (final r) !! p
             = Some (Settle (Fulfilled sessionNonce))
           ∧ k (Fulfilled sessionNonce) (final r)
             = mkRun (final r) [] (Done sessionNonce)
           ∧ @fireTimer C h (final r) = mkRun (final r) [] (Done tt)).
Proof.
  intros p id h listener timeout.
  unfold waitForInitialResponse, newPromise, listenForInitialResponse,
    nextCallbackID, setTimeout, await. run.
  do 2 eexists. split; [reflexivity |].
  split; [apply map_get_set |].
  split; [apply lookup_insert_eq |].
  split; [apply lookup_insert_eq |].
  intros s' Hlistener Htimer Hpromise. split.
  - unfold fireTimer, runTimeoutClosure, clearTimeout,
      stopListeningForInitialResponses, reject, settle. run.
    fold h. rewrite Htimer. run. fold p. rewrite Hpromise. cbn.
    repeat split.
    + apply map_get_delete.
    + apply lookup_delete_eq.
    + apply lookup_insert_eq.
  - unfold runWaitClosure, fireTimer, clearTimeout,
      stopListeningForInitialResponses, resolve, settle. run.
    fold p. rewrite Hpromise. cbn. repeat split.
    + apply lookup_delete_eq.
    + apply map_get_delete.
    + apply lookup_insert_eq.
    + run. fold h. rewrite lookup_delete_eq. reflexivity.
Qed.

End HandshakeWait.

Lemma wait_ends_by_timeout_or_callback_witness :
  ∃ (s1 : Peer) (k : Settled → Peer → Run Scenario.Cert string),
    @waitForInitialResponse Scenario.Cert Scenario.localNonce (Some 50)
      Scenario.fresh
    = mkRun s1 [] (Await 0%nat k)
    ∧ timers s1 !! 0%nat = Some (mkTimeoutClosure 0 0 50)
    ∧ k (Rejected "Initial response timed out.")
        (final (@fireTimer Scenario.Cert 0 s1))
      = mkRun (final (@fireTimer Scenario.Cert 0 s1)) []
          (Threw "Initial response timed out.")
    ∧ k (Fulfilled Scenario.localNonce)
        (final (@runWaitClosure Scenario.Cert (mkWaitClosure 0 0 0)
                  Scenario.localNonce s1))
      = mkRun (final (@runWaitClosure Scenario.Cert (mkWaitClosure 0 0 0)
                        Scenario.localNonce s1)) []
          (Done Scenario.localNonce).
Proof.
  destruct (@wait_ends_by_timeout_or_callback Scenario.Cert Scenario.fresh
              Scenario.localNonce (Some 50))
    as (s1 & k & Hrun & Hlistener & Htimer & Hpromise & Hlater).
  exists s1, k.
  destruct (Hlater s1 Hlistener Htimer Hpromise)
    as [(_ & _ & _ & _ & Hrejected) (_ & _ & _ & _ & Hfulfilled & _)].
  split; [exact Hrun |].
  split; [exact Htimer |].
  split; [exact Hrejected | exact Hfulfilled].
Defined.

Section Handshake.
Context {C : Type} (W : World C).

(** The wait begins once the initialRequest is with the transport: when the
    nonce is minted, the public key obtained and the send accepted,
    initiateHandshake has sent exactly the initialRequest and is suspended
    on a fresh promise, with the listener registered for the new nonce and
    the timer armed with the given delay. *)
Lemma handshake_sends_then_waits (s : Peer) (key : maybe string)
    (maxWaitTime : option Z) (sn pk : string) :
  let request :=
    {| version := val AUTH_VERSION; messageType := val "initialRequest";
       identityKey := val pk; nonce := undefined;
       initialNonce := val sn; yourNonce := undefined;
       certificates := undefined;
       requestedCertificates := val (certificatesToRequest s);
       payload := undefined; signature := undefined |} in
  createNonce W (draws s) = Ok sn →
  getPublicKey W = Ok pk →
  transportSend W request = Ok tt →
  ∃ (s1 : Peer) (k : Settled → Peer → Run C string),
    initiateHandshake W key maxWaitTime s
    = mkRun s1 [Sent request] (Await (nextPromise s) k)
    ∧ map_get (callbackIdCounter s) (onInitialResponseReceivedCallbacks s1)
      = Some {| entry_callback :=
                  mkWaitClosure (nextTimer s) (callbackIdCounter s)
                    (nextPromise s);
                entry_sessionNonce := sn |}
    ∧ timers s1 !! nextTimer s
      = Some {| tc_callbackID := callbackIdCounter s;
                tc_promise := nextPromise s;
                tc_delay := default 10000 maxWaitTime |}
    ∧ promises s1 !! nextPromise s = Some Pending
    ∧ lookupSession (val sn) s1
      = Some (nextRef s,
              {| isAuthenticated := false; sessionNonce := val sn;
                 peerNonce := undefined; peerIdentityKey := key |}).
Proof.
  intros request Hsn Hpk Hsend. subst request.
  unfold initiateHandshake, waitForInitialResponse, newPromise,
    listenForInitialResponse, nextCallbackID, setTimeout, await.
  run. rewrite Hsn. run. rewrite Hpk. run. rewrite Hsend. run.
  do 2 eexists. split; [reflexivity |].
  split; [apply map_get_set |].
  split; [destruct maxWaitTime; apply lookup_insert_eq |].
  split; [apply lookup_insert_eq |].
  unfold lookupSession, SessionManagerOps.getSession,
    SessionManagerOps.addSession. cbn.
  rewrite lookup_insert_eq. cbn. rewrite lookup_insert_eq. reflexivity.
Qed.

End Handshake.

(** ** lastInteractedWithPeer *)

Section LastInteractedWithPeer.
Context {C : Type} (W : World C).

Lemma initialRequest_sets_last (message : AuthMessage C) (s : Peer) :
  returns (processInitialRequest W message) s
    (λ s', lastInteractedWithPeer s' = lastAfterInitialRequest message s).
Proof.
  unfold processInitialRequest.
  destruct (_ || _); [apply returns_throw |].
  returns_step. destruct (createNonce W (draws s)) as [sn | e]; [| exact I].
  returns_step. returns_step.
  match goal with
  | |- match ?m ?s1 with _ => _ end =>
      assert (Hp : preserves lastInteractedWithPeer m) by preservation;
      specialize (Hp s1); destruct (m s1) as [s2 t2 [certs | e | p k]];
      [| exact I ..]
  end.
  cbn in Hp.
  returns_step. destruct (createSignature W _) as [sg | e]; [| exact I].
  returns_step. destruct (getPublicKey W) as [pk | e]; [| exact I].
  returns_step. lazy zeta. returns_step. returns_step.
  unfold lastAfterInitialRequest. rewrite <- Hp.
  destruct (is_undefined (lastInteractedWithPeer s2)); lazy beta iota;
    (apply returns_preserved; [preservation | reflexivity]).
Qed.

Lemma initialResponse_sets_last (message : AuthMessage C) (s : Peer) :
  certifiers (certificatesToRequest s) ≠ [] →
  certificates message ?? [] ≠ [] →
  returns (processInitialResponse W message) s
    (λ s', lastInteractedWithPeer s' = lastAfterInitialResponse message s).
Proof.
  intros Hreq Hcerts. unfold processInitialResponse.
  destruct (is_undefined _); [apply returns_throw |].
  returns_step.
  destruct (verifyNonce W _) as [[|] | e];
    [| apply returns_throw | exact I]. cbn [negb].
  returns_step.
  destruct (lookupSession _ s) as [[l o] |]; [| apply returns_throw].
  returns_step.
  destruct (verifySignature W _) as [[|] | e];
    [| apply returns_throw | exact I]. cbn [negb].
  returns_step. returns_step. returns_step.
  match goal with
  | |- returns _ ?s1 _ =>
      remember s1 as s1' eqn:Hs1;
      assert (lastInteractedWithPeer s1' = lastInteractedWithPeer s
              ∧ certificatesToRequest s1' = certificatesToRequest s)
        as [Hsame Hsame']
        by (subst s1'; cbn; case_match; split; reflexivity);
      clear Hs1
  end.
  rewrite Hsame'.
  destruct (certifiers (certificatesToRequest s)) as [| c cs];
    [contradiction |].
  destruct (certificates message ?? []) as [| c' cs']; [contradiction |].
  change ((0 <? length (c :: cs))%nat && (0 <? length (c' :: cs'))%nat)
    with true. lazy beta iota.
  returns_step.
  destruct (validateCertificates W _ _) as [[] | e]; [| exact I].
  returns_step.
  match goal with
  | |- match ?m ?s1 with _ => _ end =>
      assert (Hp : preserves lastInteractedWithPeer m) by preservation;
      specialize (Hp s1); destruct (m s1) as [s2 t2 [[] | e | p k]];
      [| exact I ..]
  end.
  cbn in Hp. returns_step.
  unfold lastAfterInitialResponse. rewrite <- Hsame, <- Hp.
  destruct (missing_or_blank (identityKey message)); cbn [negb];
    lazy beta iota;
    (apply returns_preserved; [preservation | reflexivity]).
Qed.

Lemma general_sets_last (message : AuthMessage C) (s : Peer) :
  returns (processGeneralMessage W message) s
    (λ s', ∃ key, identityKey message = val key
                  ∧ lastInteractedWithPeer s' = val key).
Proof.
  unfold processGeneralMessage, requirePresent. lazy zeta.
  returns_step. destruct (yourNonce message) as [| | yn]; try exact I.
  returns_step. destruct (signature message) as [| | sg]; try exact I.
  returns_step. destruct (nonce message) as [| | no]; try exact I.
  returns_step. destruct (payload message) as [| | data]; try exact I.
  returns_step.
  destruct (verifyNonce W _) as [[|] | e];
    [| apply returns_throw | exact I]. cbn [negb].
  returns_step.
  destruct (lookupSession _ s) as [[l o] |]; [| apply returns_throw].
  returns_step. destruct (sessionNonce o) as [| | sn]; try exact I.
  returns_step. destruct (peerIdentityKey o) as [| | pk]; try exact I.
  returns_step.
  destruct (verifySignature W _) as [[|] | e];
    [| apply returns_throw | exact I]. cbn [negb].
  destruct (identityKey message) as [| | key]; try apply returns_throw.
  returns_step.
  eapply returns_weaken.
  - apply (returns_preserved lastInteractedWithPeer _ _ (val key));
      [preservation | reflexivity].
  - intros s' Hs'. exists key. split; [reflexivity | exact Hs'].
Qed.

(** C8, as amended.  lastInteractedWithPeer is assigned by three processors
    and by no other:
    - processInitialRequest, when it returns, has set it to the message's
      identityKey if it was undefined, and has left it alone otherwise;
    - processInitialResponse, when it returns having validated certificates
      it had asked for, has set it to the message's identityKey if that is a
      non-blank string, and has left it alone if identityKey is missing or
      blank;
    - processGeneralMessage, when it returns, has set it to the message's
      identityKey, which is then present;
    - processCertificateRequest and processCertificateResponse never
      change it.
    Nothing is said here of an initialResponse that skips certificate
    processing. *)
Theorem lastInteractedWithPeer_assignments (message : AuthMessage C)
    (s : Peer) :
  returns (processInitialRequest W message) s
    (λ s', lastInteractedWithPeer s' = lastAfterInitialRequest message s)
  ∧ (certifiers (certificatesToRequest s) ≠ [] →
     certificates message ?? [] ≠ [] →
     returns (processInitialResponse W message) s
       (λ s', lastInteractedWithPeer s'
              = lastAfterInitialResponse message s)
     ∧ ∀ key, identityKey message = val key → trim key ≠ "" →
         returns (processInitialResponse W message) s
           (λ s', lastInteractedWithPeer s' = val key))
  ∧ returns (processGeneralMessage W message) s
      (λ s', ∃ key, identityKey message = val key
                    ∧ lastInteractedWithPeer s' = val key)
  ∧ preserves lastInteractedWithPeer (processCertificateRequest W message)
  ∧ preserves lastInteractedWithPeer (processCertificateResponse W message).
Proof.
  split; [apply initialRequest_sets_last |].
  split.
  { intros Hreq Hcerts.
    split; [apply initialResponse_sets_last; assumption |].
    intros key Hkey Hblank.
    eapply returns_weaken;
      [apply initialResponse_sets_last; assumption |].
    intros s' ->. unfold lastAfterInitialResponse. rewrite Hkey. cbn.
    rewrite bool_decide_eq_false_2 by assumption. reflexivity. }
  split; [apply general_sets_last |].
  split.
  - unfold processCertificateRequest. preservation.
  - unfold processCertificateResponse. preservation.
Qed.

End LastInteractedWithPeer.

(** An initialResponse with certificates, from a peer with a proper identity
    key, leaves that key in lastInteractedWithPeer. *)
Lemma lastInteractedWithPeer_assignments_witness :
  lastInteractedWithPeer
    (final (processInitialResponse Scenario.world Scenario.certifiedResponse
              Scenario.demandingWaiting))
  = val Scenario.remoteKey.
Proof.
  destruct (lastInteractedWithPeer_assignments Scenario.world
              Scenario.certifiedResponse Scenario.demandingWaiting)
    as (_ & Hresponse & _).
  destruct (Hresponse ltac:(vm_compute; discriminate)
              ltac:(vm_compute; discriminate)) as [_ Hkey].
  apply (Hkey Scenario.remoteKey eq_refl ltac:(vm_compute; discriminate) tt).
  vm_compute. reflexivity.
Defined.

(** C8 as stated fails where the code declines to record a blank identity
    key: this initialResponse is processed to the end (the waiting caller's
    listener is called), and lastInteractedWithPeer, undefined before, is not
    the message's identityKey afterwards. *)
Lemma blank_identityKey_not_recorded :
  let r := processInitialResponse Scenario.world Scenario.namelessResponse
             Scenario.demandingWaiting in
  outcome r = Done tt
  ∧ filter (λ e, is_callback e = true) (trace r)
    = [InitialResponseCallback 0 Scenario.localNonce]
  ∧ lastInteractedWithPeer (final r) = undefined
  ∧ lastInteractedWithPeer (final r) ≠ identityKey Scenario.namelessResponse.
Proof. vm_compute. repeat split; try reflexivity. discriminate. Qed.

(** The handshake of a Peer that asks for certificates, from end to end: the
    initialResponse calls the waiting listener, which fulfils the promise,
    and the suspended getAuthenticatedSession then returns the authenticated
    session. *)
Example handshake_completes_with_certificates :
  let r0 := getAuthenticatedSession Scenario.world (val Scenario.remoteKey)
              None Scenario.demanding in
  let r1 := processInitialResponse Scenario.world Scenario.certifiedResponse
              (final r0) in
  filter (λ e, is_callback e = true) (trace r1)
  = [InitialResponseCallback 0 Scenario.localNonce]
  ∧ promises (final r1) !! 0%nat
    = Some (Settle (Fulfilled Scenario.localNonce))
  ∧ timers (final r1) !! 0%nat = None
  ∧ match outcome r0 with
    | Await p k =>
        outcome (k (Fulfilled Scenario.localNonce) (final r1))
        = Done (0%nat,
                {| isAuthenticated := true;
                   sessionNonce := val Scenario.localNonce;
                   peerNonce := val Scenario.remoteNonce;
                   peerIdentityKey := val Scenario.remoteKey |})
    | _ => False
    end.
Proof. vm_compute. repeat split; reflexivity. Qed.

(** ** General messages *)

Section General.
Context {C : Type} (W : World C).

(** C10. A general message without identityKey (undefined or null), whose
    yourNonce the wallet recognises, whose session exists and whose signature
    verifies under the session's peerIdentityKey, makes processGeneralMessage
    throw "Invalid message: Missing identityKey" once the signature has been
    verified: the state, and with it lastInteractedWithPeer, is as before, and
    the verification is the only thing that happened, so no
    generalMessageReceived callback ran. *)
Theorem general_without_identityKey_rejected (message : AuthMessage C)
    (s : Peer) (yn no pk sn : string) (sg data : bytes) (l : nat)
    (o : PeerSession) :
  is_nullish (identityKey message) = true →
  yourNonce message = val yn →
  signature message = val sg →
  nonce message = val no →
  payload message = val data →
  verifyNonce W (val yn) = Ok true →
  lookupSession (val yn) s = Some (l, o) →
  sessionNonce o = val sn →
  peerIdentityKey o = val pk →
  verifySignature W (generalVerification data sg no sn pk) = Ok true →
  processGeneralMessage W message s
  = mkRun s [WalletVerified (generalVerification data sg no sn pk)]
      (Threw "Invalid message: Missing identityKey").
Proof.
  intros Hid Hyn Hsg Hno Hpl Hvn Hget Hsn Hpk Hvs.
  unfold generalVerification in *. unfold processGeneralMessage.
  rewrite Hyn, Hsg, Hno, Hpl. run. rewrite Hvn. run. rewrite Hget. run.
  rewrite Hsn, Hpk. run. rewrite Hvs. run.
  destruct (identityKey message); try discriminate; reflexivity.
Qed.

End General.

Lemma general_without_identityKey_rejected_witness :
  processGeneralMessage Scenario.world Scenario.anonymousGeneral
    Scenario.established
  = mkRun Scenario.established
      [WalletVerified
         (generalVerification [222; 173; 190; 239] [48; 68; 2; 32]
            "3q2+796tvu/erb7v3q2+796tvu/erb7v3q2+796tvu8="
            Scenario.localNonce Scenario.remoteKey)]
      (Threw "Invalid message: Missing identityKey").
Proof.
  apply (general_without_identityKey_rejected Scenario.world
           Scenario.anonymousGeneral Scenario.established
           Scenario.localNonce _ _ _ _ _ 0%nat
           {| isAuthenticated := true;
              sessionNonce := val Scenario.localNonce;
              peerNonce := val Scenario.remoteNonce;
              peerIdentityKey := val Scenario.remoteKey |});
    vm_compute; reflexivity.
Defined.

(** * Further properties of the Peer *)

(** ** Invariants through suspension and resumption *)

Section Invariants.
Context {C : Type} (I : Peer → Prop).

Lemma establishes_final {A} (r : Run C A) : establishes I r → I (final r).
Proof. destruct r as [s t o]. cbn. tauto. Qed.

Lemma establishes_after {A} (t : list (Event C)) (r : Run C A) :
  establishes I r → establishes I (after t r).
Proof. destruct r as [s t' o]. cbn. tauto. Qed.

Lemma establishes_bindRun {A B} (f : A → M C B) :
  (∀ a s, I s → establishes I (f a s)) →
  ∀ r : Run C A, establishes I r → establishes I (bindRun r f).
Proof.
  intros Hf. fix IH 1. intros [s t [a | e | p k]]; cbn.
  - intros [Hs _]. apply establishes_after, Hf, Hs.
  - tauto.
  - intros [Hs Hk]. split; [exact Hs |].
    intros v s' Hs'. apply IH, Hk, Hs'.
Qed.

Lemma establishes_catchRun {A} (h : string → M C A) :
  (∀ e s, I s → establishes I (h e s)) →
  ∀ r : Run C A, establishes I r → establishes I (catchRun r h).
Proof.
  intros Hh. fix IH 1. intros [s t [a | e | p k]]; cbn.
  - tauto.
  - intros [Hs _]. apply establishes_after, Hh, Hs.
  - intros [Hs Hk]. split; [exact Hs |].
    intros v s' Hs'. apply IH, Hk, Hs'.
Qed.

Lemma keeps_bind {A B} (m : M C A) (f : A → M C B) :
  keeps I m → (∀ a, keeps I (f a)) → keeps I (m ≫= f).
Proof.
  intros Hm Hf s Hs. rewrite bind_run.
  apply establishes_bindRun; [intros a s'; apply Hf | apply Hm, Hs].
Qed.

Lemma keeps_catch {A} (m : M C A) (h : string → M C A) :
  keeps I m → (∀ e, keeps I (h e)) → keeps I (catch m h).
Proof.
  intros Hm Hh s Hs. unfold catch.
  apply establishes_catchRun; [intros e s'; apply Hh | apply Hm, Hs].
Qed.

Lemma keeps_ret {A} (a : A) : keeps I (mret a : M C A).
Proof. intros s Hs. cbn. tauto. Qed.

Lemma keeps_throw {A} e : keeps I (throw e : M C A).
Proof. intros s Hs. cbn. tauto. Qed.

Lemma keeps_gets {A} (f : Peer → A) : keeps I (gets f : M C A).
Proof. intros s Hs. cbn. tauto. Qed.

Lemma keeps_emit e : keeps I (emit e : M C unit).
Proof. intros s Hs. cbn. tauto. Qed.

Lemma keeps_call {A} (r : Result A) : keeps I (call r : M C A).
Proof. intros s Hs. destruct r; cbn; tauto. Qed.

Lemma keeps_await p : keeps I (await p : M C string).
Proof.
  intros s Hs. cbn. split; [exact Hs |].
  intros [v | e] s' Hs'; cbn; tauto.
Qed.

Lemma keeps_modify (f : Peer → Peer) :
  (∀ s, I s → I (f s)) → keeps I (modify f : M C unit).
Proof. intros Hf s Hs. cbn. split; [apply Hf, Hs | exact Logic.I]. Qed.

Lemma keeps_forEachHandler (f : nat → Handler → M C unit) m :
  (∀ id h, keeps I (f id h)) → keeps I (forEachHandler f m).
Proof.
  intros Hf. induction m as [| [id h] m IH]; cbn.
  - apply keeps_ret.
  - apply keeps_bind; [apply Hf | intros _; exact IH].
Qed.

Lemma keeps_forEachInitialResponse
    (f : nat → InitialResponseEntry → M C unit) entries :
  (∀ id e, keeps I (f id e)) → keeps I (forEachInitialResponse f entries).
Proof.
  intros Hf. induction entries as [| [id e] m IH]; cbn.
  - apply keeps_ret.
  - apply keeps_bind; [apply keeps_gets |].
    intros live. apply keeps_bind; [| intros _; exact IH].
    destruct live; [apply Hf | apply keeps_ret].
Qed.

End Invariants.

(** ** The handler given to the transport *)

Section TransportHandler.
Context {C : Type} (W : World C).

Lemma neverThrows_after {A} (t : list (Event C)) (r : Run C A) :
  neverThrows r → neverThrows (after t r).
Proof. destruct r as [s t' o]. cbn. tauto. Qed.

Lemma catchRun_neverThrows {A} (h : string → M C A) :
  (∀ e s, neverThrows (h e s)) → ∀ r : Run C A, neverThrows (catchRun r h).
Proof.
  intros Hh. fix IH 1. intros [s t [a | e | p k]]; cbn.
  - exact I.
  - apply neverThrows_after, Hh.
  - intros v s'. apply IH.
Qed.

(** X1. The handler the constructor registers with the transport never
    throws, whatever the message, the state and the collaborators do, and
    not after a resumption either.  An error thrown by the dispatcher ends as
    one more console.error line after the events of the failed processing,
    with the state changes made before the error kept; a processing
    that returns is passed through unchanged. *)
Theorem onData_never_throws (message : AuthMessage C) (s : Peer) :
  neverThrows (onData W message s)
  ∧ (∀ s' t e,
       handleIncomingMessage W message s = mkRun s' t (Threw e) →
       onData W message s
       = mkRun s' (t ++ [Logged ("Error handling incoming message: " +:+ e)])
           (Done tt))
  ∧ (∀ s' t,
       handleIncomingMessage W message s = mkRun s' t (Done tt) →
       onData W message s = mkRun s' t (Done tt)).
Proof.
  unfold onData, catch. split; [| split].
  - apply catchRun_neverThrows. intros e s'. exact I.
  - intros s' t e ->. reflexivity.
  - intros s' t ->. reflexivity.
Qed.

End TransportHandler.

(** A general message whose yourNonce the wallet does not recognise is
    refused by the processor; the handler logs the refusal and returns. *)
Lemma onData_never_throws_witness :
  onData Scenario.forgetful Scenario.anonymousGeneral Scenario.established
  = mkRun Scenario.established
      [Logged ("Error handling incoming message: "
               +:+ "Unable to verify nonce for general message from: undefined")]
      (Done tt).
Proof.
  destruct (onData_never_throws Scenario.forgetful Scenario.anonymousGeneral
              Scenario.established) as (_ & Hlogged & _).
  apply (Hlogged Scenario.established []). vm_compute. reflexivity.
Defined.

(** ** The callback registry *)

Section KeysBelow.
Context {V : Type}.

Lemma keysBelow_mono (n n' : nat) (m : list (nat * V)) :
  (n ≤ n')%nat → keysBelow n m → keysBelow n' m.
Proof.
  intros Hle. unfold keysBelow.
  induction 1 as [| [i v] m Hi _ IH]; constructor; [cbn in *; lia | exact IH].
Qed.

Lemma keysBelow_delete (n id : nat) (m : list (nat * V)) :
  keysBelow n m → keysBelow n (map_delete id m).
Proof.
  unfold keysBelow. induction 1 as [| [i v] m Hi _ IH]; cbn.
  - constructor.
  - destruct (i =? id)%nat; [exact IH | constructor; assumption].
Qed.

Lemma keysBelow_fresh (n : nat) (m : list (nat * V)) :
  keysBelow n m → map_has n m = false.
Proof.
  unfold keysBelow. induction 1 as [| [i v] m Hi _ IH]; cbn in *.
  - reflexivity.
  - rewrite IH, orb_false_r. apply Nat.eqb_neq. lia.
Qed.

Lemma keysBelow_set (n : nat) (v : V) (m : list (nat * V)) :
  keysBelow n m → keysBelow (S n) (map_set n v m).
Proof.
  intros H. unfold map_set. rewrite (keysBelow_fresh n m H).
  apply Forall_app. split.
  - apply (keysBelow_mono n); [lia | exact H].
  - repeat constructor.
Qed.

Lemma map_delete_absent (id : nat) (m : list (nat * V)) :
  map_has id m = false → map_delete id m = m.
Proof.
  induction m as [| [i v] m IH]; cbn; [reflexivity |].
  destruct (i =? id)%nat; cbn; [discriminate |].
  intros H. rewrite IH by exact H. reflexivity.
Qed.

Lemma map_delete_set (id : nat) (v : V) (m : list (nat * V)) :
  map_has id m = false → map_delete id (map_set id v m) = m.
Proof.
  intros H. unfold map_set. rewrite H.
  induction m as [| [i w] m IH]; cbn in *.
  - rewrite Nat.eqb_refl. reflexivity.
  - destruct (i =? id)%nat; [discriminate |]. cbn in H.
    rewrite IH by exact H. reflexivity.
Qed.

End KeysBelow.

Create HintDb peer_primitives.
#[global] Hint Unfold getSession writeSession readSession
  addSession newSession walletVerifySignature walletCreateSignature send
  consoleError requirePresent requireNonBlank drawNonce drawRandomBase64
  newPromise resolve reject setTimeout clearTimeout
  runWaitClosure runTimeoutClosure fireCertificatesRequested
  fireCertificatesReceived fireInitialResponse : peer_primitives.

Create HintDb registry.

Section Registry.
Context {C : Type}.

Lemma registryBelow_unrelated (s s' : Peer) :
  callbackIdCounter s' = callbackIdCounter s →
  onGeneralMessageReceivedCallbacks s' = onGeneralMessageReceivedCallbacks s →
  onCertificatesReceivedCallbacks s' = onCertificatesReceivedCallbacks s →
  onCertificateRequestReceivedCallbacks s'
  = onCertificateRequestReceivedCallbacks s →
  onInitialResponseReceivedCallbacks s'
  = onInitialResponseReceivedCallbacks s →
  registryBelow s → registryBelow s'.
Proof. unfold registryBelow. intros -> -> -> -> ->. tauto. Qed.

Lemma keeps_settle p r : keeps registryBelow (settle p r : M C unit).
Proof.
  apply keeps_modify. intros s Hs. repeat case_match; exact Hs.
Qed.

Lemma keeps_updateSession l : keeps registryBelow (updateSession l : M C unit).
Proof.
  apply keeps_modify. intros s Hs. repeat case_match; exact Hs.
Qed.

Lemma keeps_stopListeningForInitialResponses id :
  keeps registryBelow (stopListeningForInitialResponses id : M C unit).
Proof.
  apply keeps_modify. intros s (Hg & Hc & Hr & Hi).
  repeat split; try assumption. apply keysBelow_delete, Hi.
Qed.

Lemma keeps_listenForInitialResponse sn c :
  keeps registryBelow (listenForInitialResponse sn c : M C nat).
Proof.
  intros s (Hg & Hc & Hr & Hi). cbn. split; [| exact I].
  repeat split; cbn;
    try (eapply keysBelow_mono; [| eassumption]; lia).
  apply keysBelow_set, Hi.
Qed.

Lemma keeps_listenForGeneralMessages h :
  keeps registryBelow (listenForGeneralMessages h : M C nat).
Proof.
  intros s (Hg & Hc & Hr & Hi). cbn. split; [| exact I].
  repeat split; cbn;
    try (eapply keysBelow_mono; [| eassumption]; lia).
  apply keysBelow_set, Hg.
Qed.

Lemma keeps_listenForCertificatesReceived h :
  keeps registryBelow (listenForCertificatesReceived h : M C nat).
Proof.
  intros s (Hg & Hc & Hr & Hi). cbn. split; [| exact I].
  repeat split; cbn;
    try (eapply keysBelow_mono; [| eassumption]; lia).
  apply keysBelow_set, Hc.
Qed.

Lemma keeps_listenForCertificatesRequested h :
  keeps registryBelow (listenForCertificatesRequested h : M C nat).
Proof.
  intros s (Hg & Hc & Hr & Hi). cbn. split; [| exact I].
  repeat split; cbn;
    try (eapply keysBelow_mono; [| eassumption]; lia).
  apply keysBelow_set, Hr.
Qed.

Lemma keeps_stopListening id :
  keeps registryBelow (stopListeningForGeneralMessages id : M C unit)
  ∧ keeps registryBelow (stopListeningForCertificatesReceived id : M C unit)
  ∧ keeps registryBelow (stopListeningForCertificatesRequested id : M C unit).
Proof.
  split; [| split]; apply keeps_modify; intros s (Hg & Hc & Hr & Hi);
    repeat split; try assumption; apply keysBelow_delete; assumption.
Qed.

End Registry.

(** Break an invariance goal of the registry down along the method. *)
Ltac registry_invariance :=
  autounfold with peer_primitives;
  repeat first
    [ apply keeps_ret | apply keeps_throw | apply keeps_gets
    | apply keeps_emit | apply keeps_call | apply keeps_await
    | apply keeps_settle | apply keeps_updateSession
    | apply keeps_stopListeningForInitialResponses
    | apply keeps_listenForInitialResponse
    | solve [auto 1 with registry nocore]
    | apply keeps_modify; intros ? ?; assumption
    | apply keeps_bind; [| intros ]
    | apply keeps_catch; [| intros ]
    | apply keeps_forEachHandler; intros
    | apply keeps_forEachInitialResponse; intros
    | match goal with
      | |- keeps _ (match ?x with _ => _ end) => destruct x
      | |- keeps _ (let _ := _ in _) => cbv zeta
      end ].

Section RegistryInvariant.
Context {C : Type} (W : World C).

Lemma keeps_fireTimer h : keeps registryBelow (@fireTimer C h).
Proof. unfold fireTimer. registry_invariance. Qed.

Lemma keeps_getAuthenticatedSession key t :
  keeps registryBelow (getAuthenticatedSession W key t).
Proof.
  unfold getAuthenticatedSession, initiateHandshake, waitForInitialResponse.
  registry_invariance.
Qed.
Hint Resolve keeps_getAuthenticatedSession : registry.

Lemma keeps_sendCertificateResponse key certs :
  keeps registryBelow (sendCertificateResponse W key certs).
Proof. unfold sendCertificateResponse. registry_invariance. Qed.
Hint Resolve keeps_sendCertificateResponse : registry.

Lemma keeps_toPeer data key t : keeps registryBelow (toPeer W data key t).
Proof. unfold toPeer. registry_invariance. Qed.

Lemma keeps_requestCertificates request key t :
  keeps registryBelow (requestCertificates W request key t).
Proof. unfold requestCertificates. registry_invariance. Qed.

Lemma keeps_processInitialRequest message :
  keeps registryBelow (processInitialRequest W message).
Proof. unfold processInitialRequest. registry_invariance. Qed.

Lemma keeps_processInitialResponse message :
  keeps registryBelow (processInitialResponse W message).
Proof. unfold processInitialResponse. registry_invariance. Qed.

Lemma keeps_processCertificateRequest message :
  keeps registryBelow (processCertificateRequest W message).
Proof. unfold processCertificateRequest. registry_invariance. Qed.

Lemma keeps_processCertificateResponse message :
  keeps registryBelow (processCertificateResponse W message).
Proof. unfold processCertificateResponse. registry_invariance. Qed.

Lemma keeps_processGeneralMessage message :
  keeps registryBelow (processGeneralMessage W message).
Proof. unfold processGeneralMessage. registry_invariance. Qed.

Hint Resolve keeps_processInitialRequest keeps_processInitialResponse
  keeps_processCertificateRequest keeps_processCertificateResponse
  keeps_processGeneralMessage : registry.

Lemma keeps_onData message : keeps registryBelow (onData W message).
Proof. unfold onData, handleIncomingMessage. registry_invariance. Qed.


End RegistryInvariant.


(** ** Registering and removing a listener *)

Section ListenAndStop.
Context {C : Type}.

Lemma map_get_set_other {V} (id id' : nat) (v : V) (m : list (nat * V)) :
  id' ≠ id → map_get id' (map_set id v m) = map_get id' m.
Proof.
  intros Hne. unfold map_set. destruct (map_has id m).
  - induction m as [| [i w] m IH]; [reflexivity |].
    cbn. destruct (i =? id)%nat eqn:E; cbn.
    + apply Nat.eqb_eq in E. subst i.
      rewrite (proj2 (Nat.eqb_neq id id')) by congruence. reflexivity.
    + rewrite IH. reflexivity.
  - induction m as [| [i w] m IH]; cbn.
    + rewrite (proj2 (Nat.eqb_neq id id')) by congruence. reflexivity.
    + rewrite IH. reflexivity.
Qed.

(** X3. Registering a listener and removing it again is a round trip.  In a
    Peer whose listeners all have IDs below the counter (as X2 shows of every
    Peer), each of the four listenFor methods returns the counter's value as
    the ID, stores the listener under it without disturbing the entry of any
    other ID, and the matching stopListening with that ID leaves the Peer as
    it was before the registration, the advanced counter apart. *)
Theorem listen_then_stop_restores (s : Peer) (h : Handler) (sn : string)
    (c : WaitClosure) :
  registryBelow s →
  let id := callbackIdCounter s in
  let restored := set_callbackIdCounter (S id) s in
  (∃ s1 : Peer,
     @listenForGeneralMessages C h s = mkRun s1 [] (Done id)
     ∧ map_get id (onGeneralMessageReceivedCallbacks s1) = Some h
     ∧ (∀ id', id' ≠ id →
          map_get id' (onGeneralMessageReceivedCallbacks s1)
          = map_get id' (onGeneralMessageReceivedCallbacks s))
     ∧ @stopListeningForGeneralMessages C id s1 = mkRun restored [] (Done tt))
  ∧ (∃ s1 : Peer,
       @listenForCertificatesReceived C h s = mkRun s1 [] (Done id)
       ∧ map_get id (onCertificatesReceivedCallbacks s1) = Some h
       ∧ (∀ id', id' ≠ id →
            map_get id' (onCertificatesReceivedCallbacks s1)
            = map_get id' (onCertificatesReceivedCallbacks s))
       ∧ @stopListeningForCertificatesReceived C id s1
         = mkRun restored [] (Done tt))
  ∧ (∃ s1 : Peer,
       @listenForCertificatesRequested C h s = mkRun s1 [] (Done id)
       ∧ map_get id (onCertificateRequestReceivedCallbacks s1) = Some h
       ∧ (∀ id', id' ≠ id →
            map_get id' (onCertificateRequestReceivedCallbacks s1)
            = map_get id' (onCertificateRequestReceivedCallbacks s))
       ∧ @stopListeningForCertificatesRequested C id s1
         = mkRun restored [] (Done tt))
  ∧ (∃ s1 : Peer,
       @listenForInitialResponse C sn c s = mkRun s1 [] (Done id)
       ∧ map_get id (onInitialResponseReceivedCallbacks s1)
         = Some {| entry_callback := c; entry_sessionNonce := sn |}
       ∧ (∀ id', id' ≠ id →
            map_get id' (onInitialResponseReceivedCallbacks s1)
            = map_get id' (onInitialResponseReceivedCallbacks s))
       ∧ @stopListeningForInitialResponses C id s1
         = mkRun restored [] (Done tt)).
Proof.
  intros (Hg & Hc & Hr & Hi) id restored.
  apply keysBelow_fresh in Hg, Hc, Hr, Hi.
  repeat split; eexists; (split; [reflexivity |]); cbn;
    (split; [apply map_get_set |]);
    (split; [intros id' Hne; apply map_get_set_other, Hne |]);
    unfold stopListeningForGeneralMessages,
      stopListeningForCertificatesReceived,
      stopListeningForCertificatesRequested,
      stopListeningForInitialResponses, modify; cbn;
    rewrite map_delete_set by assumption; destruct s; reflexivity.
Qed.

End ListenAndStop.

(** The Peer waiting for a handshake, whose own listener has ID 0: a general
    listener registered next gets ID 1, and removing it brings back the
    waiting Peer with its counter at 2. *)
Lemma listen_then_stop_restores_witness :
  ∃ s1 : Peer,
    @listenForGeneralMessages Scenario.Cert 7%nat Scenario.waiting
    = mkRun s1 [] (Done 1%nat)
    ∧ @stopListeningForGeneralMessages Scenario.Cert 1%nat s1
      = mkRun (set_callbackIdCounter 2%nat Scenario.waiting) [] (Done tt).
Proof.
  destruct (@listen_then_stop_restores Scenario.Cert Scenario.waiting 7%nat
              Scenario.localNonce (mkWaitClosure 0 0 0)
              ltac:(vm_compute; repeat constructor))
    as ((s1 & Hlisten & _ & _ & Hstop) & _).
  exists s1. split; [exact Hlisten | exact Hstop].
Defined.

(** ** Delivery of general messages *)

Section Delivery.
Context {C : Type} (W : World C).

Lemma forEachHandler_returns (f : nat → Handler → M C unit)
    (event : nat * Handler → Event C) (m : list (nat * Handler)) (s : Peer) :
  (∀ id h, (id, h) ∈ m → f id h s = mkRun s [event (id, h)] (Done tt)) →
  forEachHandler f m s = mkRun s (map event m) (Done tt).
Proof.
  induction m as [| [id h] m IH]; intros Hf; [reflexivity |].
  cbn [forEachHandler]. rewrite bind_run, Hf by apply list_elem_of_here.
  cbn. rewrite IH; [reflexivity |].
  intros id' h' Hin. apply Hf, list_elem_of_further, Hin.
Qed.

Lemma forEachHandler_throws (f : nat → Handler → M C unit)
    (event : nat * Handler → Event C) (before rest : list (nat * Handler))
    (id : nat) (h : Handler) (e : string) (s : Peer) :
  (∀ id' h', (id', h') ∈ before →
     f id' h' s = mkRun s [event (id', h')] (Done tt)) →
  f id h s = mkRun s [event (id, h)] (Threw e) →
  forEachHandler f (before ++ (id, h) :: rest)%list s
  = mkRun s (map event before ++ [event (id, h)])%list (Threw e).
Proof.
  intros Hbefore Hthrows.
  induction before as [| [id' h'] before IH]; cbn [forEachHandler app].
  - rewrite bind_run, Hthrows. reflexivity.
  - rewrite bind_run, Hbefore by apply list_elem_of_here.
    cbn. rewrite IH; [reflexivity |].
    intros id'' h'' Hin. apply Hbefore, list_elem_of_further, Hin.
Qed.

Lemma general_verified (message : AuthMessage C)
    (s : Peer) (yn no key pk sn : string) (sg data : bytes) (l : nat)
    (o : PeerSession) :
  yourNonce message = val yn →
  signature message = val sg →
  nonce message = val no →
  payload message = val data →
  identityKey message = val key →
  verifyNonce W (val yn) = Ok true →
  lookupSession (val yn) s = Some (l, o) →
  sessionNonce o = val sn →
  peerIdentityKey o = val pk →
  verifySignature W (generalVerification data sg no sn pk) = Ok true →
  processGeneralMessage W message s
  = after [WalletVerified (generalVerification data sg no sn pk)]
      (forEachHandler (λ id h,
         emit (GeneralMessageCallback id (val key) data);;
         call (runGeneralMessageHandler W h (val key) data))
         (onGeneralMessageReceivedCallbacks s)
         (set_lastInteractedWithPeer (val key) s)).
Proof.
  intros Hyn Hsg Hno Hpl Hid Hvn Hget Hsn Hpk Hvs.
  unfold generalVerification in *. unfold processGeneralMessage.
  rewrite Hyn, Hsg, Hno, Hpl, Hid. run. rewrite Hvn. run. rewrite Hget. run.
  rewrite Hsn, Hpk. run. rewrite Hvs. run.
  destruct (forEachHandler _ _ _) as [s' t' o']. reflexivity.
Qed.


(** X5. A general-message listener that throws ends the delivery: the
    listeners registered before it have been called, those registered after
    it are not, and processGeneralMessage throws the listener's error.
    lastInteractedWithPeer has by then been set to the sender's identityKey
    and stays so. *)
Theorem general_handler_error_stops_delivery (message : AuthMessage C)
    (s : Peer) (yn no key pk sn : string) (sg data : bytes) (l : nat)
    (o : PeerSession) (before rest : list (nat * Handler)) (id : nat)
    (h : Handler) (e : string) :
  yourNonce message = val yn →
  signature message = val sg →
  nonce message = val no →
  payload message = val data →
  identityKey message = val key →
  verifyNonce W (val yn) = Ok true →
  lookupSession (val yn) s = Some (l, o) →
  sessionNonce o = val sn →
  peerIdentityKey o = val pk →
  verifySignature W (generalVerification data sg no sn pk) = Ok true →
  onGeneralMessageReceivedCallbacks s = (before ++ (id, h) :: rest)%list →
  (∀ id' h', (id', h') ∈ before →
     runGeneralMessageHandler W h' (val key) data = Ok tt) →
  runGeneralMessageHandler W h (val key) data = Err e →
  processGeneralMessage W message s
  = mkRun (set_lastInteractedWithPeer (val key) s)
      (WalletVerified (generalVerification data sg no sn pk)
       :: map (generalCallback key data) before
       ++ [generalCallback key data (id, h)])%list
      (Threw e).
Proof.
  intros Hyn Hsg Hno Hpl Hid Hvn Hget Hsn Hpk Hvs Hmap Hbefore Hthrows.
  erewrite general_verified by eassumption. rewrite Hmap.
  erewrite (forEachHandler_throws _ (generalCallback key data));
    [reflexivity | |].
  - intros id' h' Hin. run. rewrite (Hbefore id' h' Hin). reflexivity.
  - run. rewrite Hthrows. reflexivity.
Qed.
End Delivery.


(** With the second of the three listeners throwing, the third is not
    called. *)
Lemma general_handler_error_stops_delivery_witness :
  processGeneralMessage Situation.faulty Situation.general Situation.listening
  = mkRun (set_lastInteractedWithPeer (val Scenario.remoteKey)
             Situation.listening)
      [WalletVerified
         (generalVerification [222; 173; 190; 239] [48; 68; 2; 32]
            "3q2+796tvu/erb7v3q2+796tvu/erb7v3q2+796tvu8="
            Scenario.localNonce Scenario.remoteKey);
       GeneralMessageCallback 1 (val Scenario.remoteKey) [222; 173; 190; 239];
       GeneralMessageCallback 2 (val Scenario.remoteKey) [222; 173; 190; 239]]
      (Threw "listener failed").
Proof.
  apply (general_handler_error_stops_delivery Situation.faulty
           Situation.general Situation.listening Scenario.localNonce _ _ _ _
           _ _ 0%nat
           {| isAuthenticated := false;
              sessionNonce := val Scenario.localNonce;
              peerNonce := undefined;
              peerIdentityKey := val Scenario.remoteKey |}
           [(1%nat, 7%nat)] [(3%nat, 9%nat)] 2%nat 8%nat);
    try (vm_compute; reflexivity).
  intros id h Hin. apply list_elem_of_singleton in Hin.
  injection Hin as -> ->. reflexivity.
Defined.

(** ** Outbound messages and the handshake they may need *)

Section Outbound.
Context {C : Type} (W : World C).

Lemma after_nil {A} (r : Run C A) : after [] r = r.
Proof. destruct r. reflexivity. Qed.

Lemma authenticated_session_returned (key : string) (t : option Z)
    (s : Peer) (l : nat) (o : PeerSession) :
  lookupSession (val key) s = Some (l, o) →
  isAuthenticated o = true →
  getAuthenticatedSession W (val key) t s = mkRun s [] (Done (l, o)).
Proof.
  intros Hget Hauth. unfold getAuthenticatedSession. run.
  rewrite Hget. run. rewrite Hauth. reflexivity.
Qed.

Lemma toPeer_run (data : bytes) (key : maybe string)
    (t : option Z) (s : Peer) (k : string) (l : nat) (o : PeerSession)
    (sg : bytes) (pk : string) :
  let requestNonce := randomBase64 W (draws s) in
  let request :=
    {| sr_data := data;
       sr_protocolID := authProtocolID;
       sr_keyID := requestNonce +:+ " " +:+ (peerNonce o ?? "unknown");
       sr_counterparty := peerIdentityKey o |} in
  let message :=
    {| version := val AUTH_VERSION; messageType := val "general";
       identityKey := val pk; nonce := val requestNonce;
       initialNonce := undefined;
       yourNonce := val (peerNonce o ?? "unknown");
       certificates := undefined; requestedCertificates := undefined;
       payload := val data; signature := val sg |} in
  key = val k
  ∨ (is_nullish key = true ∧ autoPersistLastSession s = true
     ∧ lastInteractedWithPeer s = val k) →
  lookupSession (val k) s = Some (l, o) →
  isAuthenticated o = true →
  createSignature W request = Ok sg →
  getPublicKey W = Ok pk →
  toPeer W data key t s
  = mkRun (set_draws (S (draws s)) s) [WalletSigned request; Sent message]
      match transportSend W message with
      | Ok _ => Done tt
      | Err e =>
          Threw ("Failed to send message to peer "
                 +:+ (peerIdentityKey o ?? "unknown") +:+ ": " +:+ e)
      end.
Proof.
  intros requestNonce request message Hkey Hget Hauth Hsg Hpk.
  subst requestNonce request message.
  unfold toPeer. rewrite bind_run. cbn [gets bindRun after app].
  rewrite bind_run. cbn [gets bindRun after app].
  assert (match lastInteractedWithPeer s, key with
          | val _, val _ => key
          | val k', _ => if autoPersistLastSession s then val k' else key
          | _, _ => key
          end = val k) as ->.
  { destruct Hkey as [-> | (Hnull & -> & ->)].
    - destruct (lastInteractedWithPeer s); reflexivity.
    - destruct key; try discriminate; reflexivity. }
  rewrite bind_run, (authenticated_session_returned k t s l o Hget Hauth).
  run. rewrite Hsg. run. rewrite Hpk. run.
  destruct (transportSend W _) as [[] | e]; reflexivity.
Qed.

(** X6. toPeer to a peer with which an authenticated session exists starts
    no handshake.  The recipient is the given identityKey, or, when none is
    given and autoPersistLastSession is on, the peer last interacted with.
    With the wallet signing and giving its public key, toPeer asks for one
    signature, over the payload, under the key ID [requestNonce peerNonce]
    and the session's peerIdentityKey as counterparty, and hands the
    transport one general message that carries the payload, the request
    nonce, the session's peerNonce as yourNonce and that signature.  The
    only change to the Peer is the random draw.  An error of the transport
    is thrown as "Failed to send message to peer K: error". *)
Theorem toPeer_on_authenticated_session (data : bytes) (key : maybe string)
    (t : option Z) (s : Peer) (k : string) (l : nat) (o : PeerSession)
    (sg : bytes) (pk : string) :
  let requestNonce := randomBase64 W (draws s) in
  let request :=
    {| sr_data := data;
       sr_protocolID := authProtocolID;
       sr_keyID := requestNonce +:+ " " +:+ (peerNonce o ?? "unknown");
       sr_counterparty := peerIdentityKey o |} in
  let message :=
    {| version := val AUTH_VERSION; messageType := val "general";
       identityKey := val pk; nonce := val requestNonce;
       initialNonce := undefined;
       yourNonce := val (peerNonce o ?? "unknown");
       certificates := undefined; requestedCertificates := undefined;
       payload := val data; signature := val sg |} in
  key = val k
  ∨ (is_nullish key = true ∧ autoPersistLastSession s = true
     ∧ lastInteractedWithPeer s = val k) →
  lookupSession (val k) s = Some (l, o) →
  isAuthenticated o = true →
  createSignature W request = Ok sg →
  getPublicKey W = Ok pk →
  toPeer W data key t s
  = mkRun (set_draws (S (draws s)) s) [WalletSigned request; Sent message]
      match transportSend W message with
      | Ok _ => Done tt
      | Err e =>
          Threw ("Failed to send message to peer "
                 +:+ (peerIdentityKey o ?? "unknown") +:+ ": " +:+ e)
      end.
Proof. apply toPeer_run. Qed.

Lemma initiateHandshake_suspends (s : Peer) (key : maybe string)
    (maxWaitTime : option Z) (sn pk : string) :
  createNonce W (draws s) = Ok sn →
  getPublicKey W = Ok pk →
  transportSend W (initialRequestOf pk sn (certificatesToRequest s)) = Ok tt →
  ∃ s1 : Peer,
    initiateHandshake W key maxWaitTime s
    = mkRun s1 [Sent (initialRequestOf pk sn (certificatesToRequest s))]
        (Await (nextPromise s) (λ v s',
           match v with
           | Fulfilled x => mkRun s' [] (Done x)
           | Rejected e => mkRun s' [] (Threw e)
           end)).
Proof.
  intros Hsn Hpk Hsend. unfold initialRequestOf in *.
  unfold initiateHandshake, waitForInitialResponse, newPromise,
    listenForInitialResponse, nextCallbackID, setTimeout, await.
  run. rewrite Hsn. run. rewrite Hpk. run. rewrite Hsend. run.
  eexists. reflexivity.
Qed.

Lemma establish_or_reuse (key : maybe string) (t : option Z) (s : Peer) :
  unauthenticated key s →
  getAuthenticatedSession W key t s
  = bindRun (initiateHandshake W (orUndefined key) t s)
      (λ sessionNonce,
         peerSession ← getSession (val (key ?? sessionNonce));
         match peerSession with
         | Some (l, o) =>
             if isAuthenticated o then mret (l, o)
             else throw unableToEstablish
         | None => throw unableToEstablish
         end).
Proof.
  intros Hnone.
  unfold getAuthenticatedSession, unauthenticated in *.
  rewrite bind_run.
  destruct Hnone as [Hnull | Hpending].
  - rewrite Hnull. unfold mret, M_ret. cbn [bindRun].
    rewrite after_nil, bind_run. reflexivity.
  - destruct (is_nullish key).
    { unfold mret, M_ret. cbn [bindRun].
      rewrite after_nil, bind_run. reflexivity. }
    unfold getSession, gets. cbn [bindRun].
    rewrite after_nil.
    destruct (lookupSession key s) as [[l o] |];
      [rewrite Hpending |]; rewrite bind_run; reflexivity.
Qed.

(** X7. How a handshake ends for its caller.  When getAuthenticatedSession
    has no authenticated session to return, and the nonce, the public key
    and the send succeed, it has sent the initialRequest and is suspended,
    in the state initiateHandshake left.  If the wait is rejected with an
    error, it throws that error.  If the wait is fulfilled with a session
    nonce, it looks the session up again, under the identityKey if one was
    given and under that nonce otherwise, in the state of that moment: an
    authenticated session is returned, anything else makes it throw "Unable
    to establish mutual authentication with peer!". *)
Theorem handshake_resumption (key : maybe string) (t : option Z) (s : Peer)
    (sn pk : string) :
  let request := initialRequestOf pk sn (certificatesToRequest s) in
  unauthenticated key s →
  createNonce W (draws s) = Ok sn →
  getPublicKey W = Ok pk →
  transportSend W request = Ok tt →
  ∃ k : Settled → Peer → Run C (nat * PeerSession),
    getAuthenticatedSession W key t s
    = mkRun (final (initiateHandshake W (orUndefined key) t s))
        [Sent request] (Await (nextPromise s) k)
    ∧ (∀ e s', k (Rejected e) s' = mkRun s' [] (Threw e))
    ∧ (∀ v s',
         k (Fulfilled v) s'
         = mkRun s' []
             match lookupSession (val (key ?? v)) s' with
             | Some (l, o) =>
                 if isAuthenticated o then Done (l, o)
                 else Threw unableToEstablish
             | None => Threw unableToEstablish
             end).
Proof.
  intros request Hnone Hsn Hpk Hsend. subst request.
  destruct (initiateHandshake_suspends s (orUndefined key) t sn pk Hsn Hpk
              Hsend) as (s1 & Hrun).
  rewrite establish_or_reuse by assumption.
  rewrite Hrun. cbn [bindRun final]. eexists. split; [reflexivity |].
  split; [reflexivity |].
  intros v s'. cbn [bindRun after]. rewrite bind_run.
  unfold getSession, gets. cbn [bindRun after app].
  destruct (lookupSession _ s') as [[l o] |]; [| reflexivity].
  destruct (isAuthenticated o); reflexivity.
Qed.

(** X8. A handshake whose initialRequest the transport refuses.  The
    error of the transport reaches the caller of getAuthenticatedSession,
    requestCertificates or toPeer as it is, without the "Failed to send ..."
    prefix these methods put on the errors of their own sends.  The session
    handed to the session manager before the send stays there,
    unauthenticated; no listener, timer or promise was set up. *)
Theorem failed_send_leaves_pending_session (key : maybe string)
    (t : option Z) (s : Peer) (sn pk e : string) :
  let request := initialRequestOf pk sn (certificatesToRequest s) in
  unauthenticated key s →
  createNonce W (draws s) = Ok sn →
  getPublicKey W = Ok pk →
  transportSend W request = Err e →
  ∃ s1 : Peer,
    getAuthenticatedSession W key t s = mkRun s1 [Sent request] (Threw e)
    ∧ (∀ toRequest,
         requestCertificates W toRequest key t s
         = mkRun s1 [Sent request] (Threw e))
    ∧ (∀ data k, key = val k →
         toPeer W data key t s = mkRun s1 [Sent request] (Threw e))
    ∧ sessionManager s1
      = SessionManagerOps.addSession (nextRef s)
          (pendingSession sn (orUndefined key)) (sessionManager s)
    ∧ heap s1 !! nextRef s = Some (pendingSession sn (orUndefined key))
    ∧ onInitialResponseReceivedCallbacks s1
      = onInitialResponseReceivedCallbacks s
    ∧ callbackIdCounter s1 = callbackIdCounter s
    ∧ timers s1 = timers s
    ∧ promises s1 = promises s.
Proof.
  intros request Hnone Hsn Hpk Hsend. subst request.
  unfold initialRequestOf in *.
  assert (∀ t', initiateHandshake W (orUndefined key) t' s
          = mkRun (set_sessionManager
       (SessionManagerOps.addSession (nextRef s)
          (pendingSession sn (orUndefined key))
          (sessionManager s))
       (set_heap (<[nextRef s := pendingSession sn (orUndefined key)]>
                    (heap s))
          (set_nextRef (S (nextRef s)) (set_draws (S (draws s)) s))))
              [Sent (initialRequestOf pk sn (certificatesToRequest s))]
              (Threw e)) as Hrun.
  { intros t'. unfold initiateHandshake, initialRequestOf, pendingSession.
    run. rewrite Hsn. run. rewrite Hpk. run. rewrite Hsend. reflexivity. }
  eexists. split; [| split; [| split; [| split; [| split]]]].
  - rewrite establish_or_reuse, Hrun by assumption. reflexivity.
  - intros toRequest. unfold requestCertificates. cbv zeta.
    rewrite bind_run, establish_or_reuse, Hrun by assumption. reflexivity.
  - intros data k ->. unfold toPeer. rewrite bind_run. unfold gets at 1.
    cbn [bindRun]. rewrite after_nil, bind_run. unfold gets at 1.
    cbn [bindRun]. rewrite after_nil.
    rewrite bind_run.
    match goal with
    | |- bindRun (getAuthenticatedSession W ?x t s) _ = _ =>
        replace x with (val k : maybe string)
          by (destruct (lastInteractedWithPeer s); reflexivity)
    end.
    rewrite establish_or_reuse, Hrun by assumption. reflexivity.
  - reflexivity.
  - apply lookup_insert_eq.
  - repeat split.
Qed.

(** X9. A handshake that times out.  With the initialRequest sent,
    getAuthenticatedSession is suspended with a timer armed for maxWaitTime
    (10000 by default).  When that timer fires nothing is sent or logged, the
    listener is gone (the listeners are those from before the handshake),
    the promise is rejected and the caller resumes by throwing "Initial
    response timed out.".  The session handed to the session manager for the
    handshake is not removed: it stays there, unauthenticated. *)
Theorem timed_out_handshake (key : maybe string) (t : option Z) (s : Peer)
    (sn pk : string) :
  let request := initialRequestOf pk sn (certificatesToRequest s) in
  let p := nextPromise s in
  let e := "Initial response timed out." in
  registryBelow s →
  unauthenticated key s →
  createNonce W (draws s) = Ok sn →
  getPublicKey W = Ok pk →
  transportSend W request = Ok tt →
  ∃ (s1 : Peer) (k : Settled → Peer → Run C (nat * PeerSession)),
    getAuthenticatedSession W key t s = mkRun s1 [Sent request] (Await p k)
    ∧ timers s1 !! nextTimer s
      = Some {| tc_callbackID := callbackIdCounter s; tc_promise := p;
                tc_delay := default 10000 t |}
    ∧ let r := @fireTimer C (nextTimer s) s1 in
      outcome r = Done tt
      ∧ trace r = []
      ∧ k (Rejected e) (final r) = mkRun (final r) [] (Threw e)
      ∧ promises (final r) !! p = Some (Settle (Rejected e))
      ∧ timers (final r) !! nextTimer s = None
      ∧ onInitialResponseReceivedCallbacks (final r)
        = onInitialResponseReceivedCallbacks s
      ∧ sessionManager (final r)
        = SessionManagerOps.addSession (nextRef s)
            (pendingSession sn (orUndefined key)) (sessionManager s)
      ∧ heap (final r) !! nextRef s
        = Some (pendingSession sn (orUndefined key)).
Proof.
  intros request p e (_ & _ & _ & Hbelow) Hnone Hsn Hpk Hsend.
  subst request p e. unfold initialRequestOf in *.
  apply keysBelow_fresh in Hbelow.
  rewrite establish_or_reuse by assumption.
  unfold initiateHandshake, waitForInitialResponse, newPromise,
    listenForInitialResponse, nextCallbackID, setTimeout, await.
  run. rewrite Hsn. run. rewrite Hpk. run. rewrite Hsend. run.
  do 2 eexists. split; [reflexivity |].
  split; [destruct t; apply lookup_insert_eq |].
  unfold fireTimer, runTimeoutClosure, clearTimeout,
    stopListeningForInitialResponses, reject, settle. run.
  rewrite lookup_insert_eq. run. rewrite lookup_insert_eq. cbn.
  split; [reflexivity |]. split; [reflexivity |].
  split; [reflexivity |].
  split; [apply lookup_insert_eq |].
  split; [apply lookup_delete_eq |].
  split; [apply map_delete_set, Hbelow |].
  split; [reflexivity | apply lookup_insert_eq].
Qed.

End Outbound.



(** The Peer that answered an initialRequest of [remoteKey] sends to that
    peer when toPeer is called without an identity key. *)
Lemma toPeer_on_authenticated_session_witness :
  toPeer Scenario.world [104; 105] undefined None Scenario.established
  = mkRun (set_draws 2 Scenario.established)
      [WalletSigned
         {| sr_data := [104; 105];
            sr_protocolID := authProtocolID;
            sr_keyID := "3q2+796tvu/erb7v3q2+796tvu/erb7v3q2+796tvu8="
                        +:+ " " +:+ Scenario.remoteNonce;
            sr_counterparty := val Scenario.remoteKey |};
       Sent
         {| version := val AUTH_VERSION; messageType := val "general";
            identityKey := val Scenario.localKey;
            nonce := val "3q2+796tvu/erb7v3q2+796tvu/erb7v3q2+796tvu8=";
            initialNonce := undefined;
            yourNonce := val Scenario.remoteNonce;
            certificates := undefined; requestedCertificates := undefined;
            payload := val [104; 105];
            signature := val [48; 68; 2; 32] |}]
      (Done tt).
Proof.
  apply (toPeer_on_authenticated_session Scenario.world [104; 105] undefined
           None Scenario.established Scenario.remoteKey 0%nat
           {| isAuthenticated := true;
              sessionNonce := val Scenario.localNonce;
              peerNonce := val Scenario.remoteNonce;
              peerIdentityKey := val Scenario.remoteKey |}
           [48; 68; 2; 32] Scenario.localKey);
    try (vm_compute; reflexivity).
  right. vm_compute. repeat split; reflexivity.
Defined.

(** Resumed while its session is still pending, the caller fails. *)
Lemma handshake_resumption_witness :
  ∃ k : Settled → Peer → Run Scenario.Cert (nat * PeerSession),
    outcome (getAuthenticatedSession Scenario.world (val Scenario.remoteKey)
               None Scenario.fresh)
    = Await 0%nat k
    ∧ k (Fulfilled Scenario.localNonce) Scenario.waiting
      = mkRun Scenario.waiting [] (Threw unableToEstablish).
Proof.
  destruct (handshake_resumption Scenario.world (val Scenario.remoteKey) None
              Scenario.fresh Scenario.localNonce Scenario.localKey
              ltac:(right; vm_compute; exact I)
              ltac:(vm_compute; reflexivity) ltac:(vm_compute; reflexivity)
              ltac:(vm_compute; reflexivity))
    as (k & Hrun & _ & Hfulfilled).
  exists k. split; [rewrite Hrun; reflexivity |].
  rewrite Hfulfilled. vm_compute. reflexivity.
Defined.

(** toPeer over a transport that cannot send. *)
Lemma failed_send_leaves_pending_session_witness :
  ∃ s1 : Peer,
    toPeer Situation.offline [104; 105] (val Scenario.remoteKey) None
      Scenario.fresh
    = mkRun s1
        [Sent (initialRequestOf Scenario.localKey Scenario.localNonce
                 emptyRequest)]
        (Threw "socket closed")
    ∧ heap s1 !! 0%nat
      = Some (pendingSession Scenario.localNonce (val Scenario.remoteKey)).
Proof.
  destruct (failed_send_leaves_pending_session Situation.offline
              (val Scenario.remoteKey) None Scenario.fresh
              Scenario.localNonce Scenario.localKey "socket closed"
              ltac:(right; vm_compute; exact I)
              ltac:(vm_compute; reflexivity) ltac:(vm_compute; reflexivity)
              ltac:(vm_compute; reflexivity))
    as (s1 & _ & _ & HtoPeer & _ & Hsession & _).
  exists s1. split; [| exact Hsession].
  apply (HtoPeer [104; 105] Scenario.remoteKey eq_refl).
Defined.

(** A handshake of a new Peer with 50 ms to wait. *)
Lemma timed_out_handshake_witness :
  ∃ (s1 : Peer)
    (k : Settled → Peer → Run Scenario.Cert (nat * PeerSession)),
    getAuthenticatedSession Scenario.world (val Scenario.remoteKey) (Some 50)
      Scenario.fresh
    = mkRun s1
        [Sent (initialRequestOf Scenario.localKey Scenario.localNonce
                 emptyRequest)]
        (Await 0%nat k)
    ∧ k (Rejected "Initial response timed out.")
        (final (@fireTimer Scenario.Cert 0 s1))
      = mkRun (final (@fireTimer Scenario.Cert 0 s1)) []
          (Threw "Initial response timed out.")
    ∧ heap (final (@fireTimer Scenario.Cert 0 s1)) !! 0%nat
      = Some (pendingSession Scenario.localNonce (val Scenario.remoteKey)).
Proof.
  destruct (timed_out_handshake Scenario.world (val Scenario.remoteKey)
              (Some 50) Scenario.fresh Scenario.localNonce Scenario.localKey
              ltac:(vm_compute; repeat constructor)
              ltac:(right; vm_compute; exact I)
              ltac:(vm_compute; reflexivity) ltac:(vm_compute; reflexivity)
              ltac:(vm_compute; reflexivity))
    as (s1 & k & Hrun & _ & _ & _ & Hthrows & _ & _ & _ & _ & Hsession).
  exists s1, k. split; [exact Hrun |]. split; [exact Hthrows | exact Hsession].
Defined.

(** ** The handshake, step by step and from end to end *)

Section InitialRequestAnswered.
Context {C : Type} (W : World C).

Lemma fireCertificatesRequested_returns (sender : maybe string)
    (requested : RequestedCertificateSet) (s : Peer) :
  (∀ id h, (id, h) ∈ onCertificateRequestReceivedCallbacks s →
     runCertificatesRequestedHandler W h sender requested = Ok tt) →
  fireCertificatesRequested W sender requested s
  = mkRun s (map (requestedCallback sender requested)
               (onCertificateRequestReceivedCallbacks s)) (Done tt).
Proof.
  intros Hhandlers. unfold fireCertificatesRequested.
  rewrite bind_run. unfold gets. cbn [bindRun]. rewrite after_nil.
  apply (forEachHandler_returns _ (requestedCallback sender requested)).
  intros id h Hin. run. rewrite (Hhandlers id h Hin). reflexivity.
Qed.

Lemma initialRequest_run (message : AuthMessage C) (s : Peer)
    (sn pk : string) (sg : bytes) (calls : list (Event C))
    (enclosed : maybe (list C)) :
  optional_trim_is_empty (identityKey message) = false →
  optional_trim_is_empty (initialNonce message) = false →
  createNonce W (draws s) = Ok sn →
  certificatesStep W s (identityKey message) (requestedCertificates message)
    calls enclosed →
  createSignature W (initialResponseSigning W message sn) = Ok sg →
  getPublicKey W = Ok pk →
  processInitialRequest W message s
  = mkRun
      (set_lastInteractedWithPeer (lastAfterInitialRequest message s)
         (set_sessionManager
            (SessionManagerOps.addSession (nextRef s)
               (acceptedSession message sn) (sessionManager s))
            (set_heap (<[nextRef s := acceptedSession message sn]> (heap s))
               (set_nextRef (S (nextRef s)) (set_draws (S (draws s)) s)))))
      (calls ++ [WalletSigned (initialResponseSigning W message sn);
                 Sent (initialResponseOf message pk sn enclosed
                         (certificatesToRequest s) sg)])%list
      (settled (transportSend W
                  (initialResponseOf message pk sn enclosed
                     (certificatesToRequest s) sg))).
Proof.
  intros Hid Hnonce Hsn Hstep Hsg Hpk.
  unfold initialResponseSigning, initialResponseOf, acceptedSession in *.
  unfold processInitialRequest. rewrite Hid, Hnonce. cbn [orb].
  rewrite bind_run, drawNonce_run, Hsn. cbn [settled bindRun].
  rewrite after_nil, bind_run, addSession_run. cbn [bindRun].
  rewrite after_nil, bind_run.
  match goal with
  | |- bindRun (?m ?s0) _ = _ =>
      assert (m s0 = mkRun s0 calls (Done enclosed)) as ->
  end.
  { unfold certificatesStep in Hstep.
    destruct (requestedCertificates message) as [| | r];
      try (destruct Hstep as [-> ->]; reflexivity).
    destruct (certifiers r) as [| c cs];
      [destruct Hstep as [-> ->]; reflexivity |].
    cbn [length Nat.ltb Nat.leb]. rewrite bind_run. unfold gets at 1.
    cbn [bindRun onCertificateRequestReceivedCallbacks
           set_sessionManager set_heap set_nextRef set_draws].
    rewrite after_nil.
    destruct (onCertificateRequestReceivedCallbacks s) as [| l ls] eqn:Hls.
    - destruct Hstep as (-> & found & Hfound & ->).
      cbn [length Nat.ltb Nat.leb]. rewrite bind_run, call_run, Hfound.
      reflexivity.
    - destruct Hstep as (Hhandlers & -> & ->).
      cbn [length Nat.ltb Nat.leb]. rewrite bind_run.
      rewrite fireCertificatesRequested_returns.
      + cbn. rewrite Hls, app_nil_r. reflexivity.
      + cbn. rewrite Hls. exact Hhandlers. }
  cbn [bindRun]. rewrite bind_run, walletCreateSignature_run.
  unfold initialResponseSignedData. rewrite Hsg. cbn [settled bindRun after].
  rewrite bind_run, call_run, Hpk. cbn [settled bindRun after].
  rewrite bind_run. unfold gets at 1. cbn [bindRun after]. cbv zeta.
  rewrite bind_run. unfold gets at 1. cbn [bindRun after].
  rewrite bind_run. unfold lastAfterInitialRequest.
  cbn [lastInteractedWithPeer set_sessionManager set_heap set_nextRef
         set_draws certificatesToRequest].
  destruct (is_undefined (lastInteractedWithPeer s)) eqn:Hlast;
    unfold modify, mret, M_ret; cbn [bindRun after];
    rewrite send_run; cbn [after app]; [reflexivity |].
  destruct s; reflexivity.
Qed.

End InitialRequestAnswered.

Section InitialResponseCompletes.
Context {C : Type} (W : World C).

Lemma ret_run {A} (a : A) (s : Peer) :
  (mret a : M C A) s = mkRun s [] (Done a).
Proof. reflexivity. Qed.

Lemma modify_run (f : Peer → Peer) (s : Peer) :
  (modify f : M C unit) s = mkRun (f s) [] (Done tt).
Proof. reflexivity. Qed.

Lemma fireCertificatesReceived_returns (sender : maybe string)
    (certs : list C) (s : Peer) :
  (∀ id h, (id, h) ∈ onCertificatesReceivedCallbacks s →
     runCertificatesReceivedHandler W h sender certs = Ok tt) →
  fireCertificatesReceived W sender certs s
  = mkRun s (map (certificatesCallback sender certs)
               (onCertificatesReceivedCallbacks s)) (Done tt).
Proof.
  intros Hhandlers. unfold fireCertificatesReceived.
  rewrite bind_run. unfold gets. cbn [bindRun]. rewrite after_nil.
  apply (forEachHandler_returns _ (certificatesCallback sender certs)).
  intros id h Hin. run. rewrite (Hhandlers id h Hin). reflexivity.
Qed.

Lemma initialResponse_run (message : AuthMessage C) (s : Peer)
    (yn sn : string) (l : nat) (o : PeerSession) (certs : list C)
    (id h p : nat) :
  yourNonce message = val yn →
  verifyNonce W (val yn) = Ok true →
  lookupSession (val yn) s = Some (l, o) →
  sessionNonce o = val sn →
  verifySignature W (initialResponseVerification W message o) = Ok true →
  certifiers (certificatesToRequest s) ≠ [] →
  certificates message = val certs →
  certs ≠ [] →
  validateCertificates W message (certificatesToRequest s) = Ok tt →
  (∀ id' h', (id', h') ∈ onCertificatesReceivedCallbacks s →
     runCertificatesReceivedHandler W h' (identityKey message) certs = Ok tt) →
  onInitialResponseReceivedCallbacks s
  = [(id, {| entry_callback := mkWaitClosure h id p;
             entry_sessionNonce := sn |})] →
  promises s !! p = Some Pending →
  certifiers (requestedCertificates message ?? emptyRequest) = [] →
  processInitialResponse W message s
  = mkRun
      (set_promises (<[p := Settle (Fulfilled sn)]> (promises s))
         (set_onInitialResponseReceivedCallbacks []
            (set_timers (delete h (timers s))
               (set_lastInteractedWithPeer
                  (lastAfterInitialResponse message s)
                  (set_sessionManager
                     (SessionManagerOps.updateSession l
                        (authenticatedBy message o) (sessionManager s))
                     (set_heap (alter (authenticatedBy message) l (heap s))
                        s))))))
      (WalletVerified (initialResponseVerification W message o)
       :: map (certificatesCallback (identityKey message) certs)
            (onCertificatesReceivedCallbacks s)
       ++ [InitialResponseCallback id sn])%list
      (Done tt).
Proof.
  intros Hyn Hvn Hget Hsn Hvs Hasks Hcerts Hsome Hvalid Hhandlers Hwait
    Hpending Hnone.
  destruct (lookupSession_Some _ _ _ _ Hget) as [Hidx Hheap].
  unfold processInitialResponse, initialResponseVerification in *.
  rewrite Hyn. cbn [is_undefined]. rewrite bind_run, call_run, Hvn.
  cbn [settled bindRun negb]. rewrite after_nil, bind_run.
  unfold getSession, gets at 1. cbn [bindRun]. rewrite after_nil, Hget.
  rewrite bind_run, walletVerifySignature_run, Hvs.
  cbn [settled bindRun negb after].
  rewrite bind_run. unfold writeSession, modify at 1. cbn [bindRun after].
  rewrite bind_run. unfold updateSession, modify at 1. cbn [bindRun after].
  cbn [heap set_heap]. rewrite lookup_alter_eq, Hheap.
  cbn [fmap option_fmap option_map].
  rewrite bind_run. unfold gets at 1. cbn [bindRun after].
  cbn [certificatesToRequest set_sessionManager set_heap].
  rewrite Hcerts. cbn [nullish].
  destruct (certifiers (certificatesToRequest s)) as [| c cs];
    [contradiction |].
  destruct certs as [| c' cs']; [contradiction |].
  cbn [length Nat.ltb Nat.leb andb].
  rewrite bind_run, call_run, Hvalid. cbn [settled bindRun after].
  rewrite bind_run, fireCertificatesReceived_returns by exact Hhandlers.
  cbn [bindRun after onCertificatesReceivedCallbacks set_sessionManager
         set_heap].
  rewrite bind_run.
  assert (∀ s0 : Peer,
            onInitialResponseReceivedCallbacks s0
            = onInitialResponseReceivedCallbacks s →
            heap s0 !! l = Some (authenticatedBy message o) →
            promises s0 = promises s →
            timers s0 = timers s →
            bindRun (fireInitialResponse l o s0)
              (λ _ : (),
                 match requestedCertificates message with
                 | val requested =>
                     if (0 <? length (certifiers requested))%nat
                     then
                       gets onCertificateRequestReceivedCallbacks
                       ≫= λ registered : list (nat * Handler),
                            if (0 <? length registered)%nat
                            then
                              fireCertificatesRequested W
                                (val (identityKey message ?? "unknown"))
                                requested
                            else
                              call
                                (getVerifiableCertificates W requested
                                   (val (identityKey message ?? "unknown")))
                              ≫= λ verifiableCertificates : list C,
                                   sendCertificateResponse W
                                     (identityKey message ?? "unknown")
                                     verifiableCertificates
                     else mret ()
                 | _ => mret ()
                 end)
            = mkRun
                (set_promises (<[p := Settle (Fulfilled sn)]> (promises s))
                   (set_onInitialResponseReceivedCallbacks []
                      (set_timers (delete h (timers s)) s0)))
                [InitialResponseCallback id sn] (Done tt)) as Hfire.
  { intros s0 Hsame Hcell Hpromises Htimers.
    unfold fireInitialResponse. rewrite bind_run. unfold gets at 1.
    cbn [bindRun]. rewrite after_nil, Hsame, Hwait.
    cbn [forEachInitialResponse]. rewrite bind_run. unfold gets at 1.
    cbn [bindRun]. rewrite after_nil, Hsame, Hwait.
    cbn [map_has]. rewrite Nat.eqb_refl. cbn [orb].
    rewrite bind_run, bind_run. unfold readSession, gets at 1.
    cbn [bindRun]. rewrite after_nil, Hcell.
    cbn [default authenticatedBy sessionNonce Datatypes.id]. rewrite Hsn.
    cbn [entry_sessionNonce entry_callback].
    rewrite bool_decide_eq_true_2 by reflexivity.
    unfold runWaitClosure, clearTimeout, stopListeningForInitialResponses,
      resolve, settle. run. rewrite Hsame, Hwait, Hpromises, Htimers.
    cbn [map_delete]. rewrite Nat.eqb_refl, Hpending.
    destruct (requestedCertificates message) as [| | r]; try reflexivity.
    cbn in Hnone. rewrite Hnone. reflexivity. }
  unfold lastAfterInitialResponse.
  destruct (missing_or_blank (identityKey message)); cbn [negb];
    rewrite ?ret_run, ?modify_run; cbn [bindRun];
    rewrite ?after_nil, bind_run, Hfire;
    cbn; first [reflexivity | rewrite lookup_alter_eq, Hheap; reflexivity].
Qed.
End InitialResponseCompletes.

Section HandshakeCompleted.
Context {C : Type} (WA WB : World C).

(** X12. A handshake from end to end, between an initiator that asks for
    certificates and a responder that holds some and asks for none.
    getAuthenticatedSession, called without an identity key, sends the
    initialRequest and waits.  processInitialRequest of the responder, given
    that request, signs the two nonces and answers with its certificates.
    processInitialResponse of the initiator, given that answer, puts to its
    wallet a verification of the same data under the same key ID as the
    responder signed, the two decoders agreeing, and calls the waiting
    listener.  The resumed getAuthenticatedSession returns the session.  The
    two sessions mirror each other: each side's peerNonce is the other's
    sessionNonce, and each side's peerIdentityKey is the other's public
    key.  The session manager is taken to find a session under its own
    nonce. *)
Theorem handshake_completes (a b : Peer) (key : maybe string) (t : option Z)
    (nA nB pkA pkB : string) (sg : bytes) (certs : list C) :
  let request := initialRequestOf pkA nA (certificatesToRequest a) in
  let signing :=
    {| sr_data := toArrayBase64 WB (nA +:+ nB);
       sr_protocolID := authProtocolID;
       sr_keyID := nA +:+ " " +:+ nB;
       sr_counterparty := val pkA |} in
  let response :=
    {| version := val AUTH_VERSION; messageType := val "initialResponse";
       identityKey := val pkB; nonce := undefined;
       initialNonce := val nB; yourNonce := val nA;
       certificates := val certs;
       requestedCertificates := val (certificatesToRequest b);
       payload := undefined; signature := val sg |} in
  let verifying :=
    {| vr_data := toArrayBase64 WA (nA +:+ nB);
       vr_signature := sg;
       vr_protocolID := authProtocolID;
       vr_keyID := nA +:+ " " +:+ nB;
       vr_counterparty := val pkB |} in
  let sessionOfA :=
    {| isAuthenticated := true; sessionNonce := val nA;
       peerNonce := val nB; peerIdentityKey := val pkB |} in
  let sessionOfB :=
    {| isAuthenticated := true; sessionNonce := val nB;
       peerNonce := val nA; peerIdentityKey := val pkA |} in
  is_nullish key = true →
  onInitialResponseReceivedCallbacks a = [] →
  certifiers (certificatesToRequest a) ≠ [] →
  createNonce WA (draws a) = Ok nA →
  getPublicKey WA = Ok pkA →
  transportSend WA request = Ok tt →
  trim pkA ≠ "" → trim nA ≠ "" →
  onCertificateRequestReceivedCallbacks b = [] →
  certifiers (certificatesToRequest b) = [] →
  createNonce WB (draws b) = Ok nB →
  getVerifiableCertificates WB (certificatesToRequest a) (val pkA)
  = Ok certs →
  certs ≠ [] →
  createSignature WB signing = Ok sg →
  getPublicKey WB = Ok pkB →
  transportSend WB response = Ok tt →
  verifyNonce WA (val nA) = Ok true →
  verifySignature WA verifying = Ok true →
  validateCertificates WA response (certificatesToRequest a) = Ok tt →
  (∀ id h, (id, h) ∈ onCertificatesReceivedCallbacks a →
     runCertificatesReceivedHandler WA h (val pkB) certs = Ok tt) →
  ∃ (a1 b1 a2 : Peer) (k : Settled → Peer → Run C (nat * PeerSession)),
    getAuthenticatedSession WA key t a
    = mkRun a1 [Sent request] (Await (nextPromise a) k)
    ∧ processInitialRequest WB request b
      = mkRun b1 [WalletSigned signing; Sent response] (Done tt)
    ∧ sessionManager b1
      = SessionManagerOps.addSession (nextRef b) sessionOfB (sessionManager b)
    ∧ heap b1 !! nextRef b = Some sessionOfB
    ∧ processInitialResponse WA response a1
      = mkRun a2
          (WalletVerified verifying
           :: map (certificatesCallback (val pkB) certs)
                (onCertificatesReceivedCallbacks a)
           ++ [InitialResponseCallback (callbackIdCounter a) nA])%list
          (Done tt)
    ∧ k (Fulfilled nA) a2 = mkRun a2 [] (Done (nextRef a, sessionOfA))
    ∧ onInitialResponseReceivedCallbacks a2 = []
    ∧ timers a2 !! nextTimer a = None
    ∧ promises a2 !! nextPromise a = Some (Settle (Fulfilled nA)).
Proof.
  intros request signing response verifying sessionOfA sessionOfB.
  intros Hkey Hnone Hasks HnA HpkA Hsent HpkA' HnA'.
  intros Hauto Hnoasks HnB Hfound Hcerts Hsg HpkB Hreplied.
  intros Hvn Hvs Hvalid Hhandlers.
  pose proof (initialRequest_run WB request b nB pkB sg [] (val certs)) as HB.
  subst request. unfold initialRequestOf in *. cbn in HB.
  rewrite !bool_decide_eq_false_2 in HB by assumption.
  specialize (HB eq_refl eq_refl HnB).
  destruct (certifiers (certificatesToRequest a)) as [| c cs] eqn:Hcs;
    [contradiction |].
  rewrite Hauto in HB.
  specialize (HB (conj eq_refl (ex_intro _ certs (conj Hfound eq_refl)))).
  unfold initialResponseSigning, initialResponseOf, acceptedSession in HB.
  cbn in HB. subst signing response. specialize (HB Hsg HpkB).
  rewrite Hreplied in HB. cbn [settled] in HB.
  assert (orUndefined key = undefined) as Hundefined
    by (destruct key; try discriminate; reflexivity).
  assert (∀ v : string, key ?? v = v) as Hby
    by (intros v; destruct key; try discriminate; reflexivity).
  evar (a1 : Peer).
  evar (k : Settled → Peer → Run C (nat * PeerSession)).
  assert (getAuthenticatedSession WA key t a
          = mkRun a1
              [Sent {| version := val AUTH_VERSION;
                       messageType := val "initialRequest";
                       identityKey := val pkA; nonce := undefined;
                       initialNonce := val nA; yourNonce := undefined;
                       certificates := undefined;
                       requestedCertificates := val (certificatesToRequest a);
                       payload := undefined; signature := undefined |}]
              (Await (nextPromise a) k)) as HA.
  { rewrite establish_or_reuse by (left; exact Hkey). rewrite Hundefined.
    unfold initiateHandshake, waitForInitialResponse, newPromise,
      listenForInitialResponse, nextCallbackID, setTimeout, await.
    run. rewrite HnA. run. rewrite HpkA. run. rewrite Hsent. run.
    rewrite Hnone. cbn [map_set map_has app].
    subst a1 k. reflexivity. }
  pose proof (initialResponse_run WA
                {| version := val AUTH_VERSION;
                   messageType := val "initialResponse";
                   identityKey := val pkB; nonce := undefined;
                   initialNonce := val nB; yourNonce := val nA;
                   certificates := val certs;
                   requestedCertificates := val (certificatesToRequest b);
                   payload := undefined; signature := val sg |}
                a1 nA nA (nextRef a)
                (pendingSession nA undefined) certs (callbackIdCounter a)
                (nextTimer a) (nextPromise a) eq_refl Hvn) as HA2.
  subst verifying.
  lapply HA2; clear HA2.
  2: { subst a1. unfold lookupSession, SessionManagerOps.getSession,
         SessionManagerOps.addSession. cbn.
       rewrite lookup_insert_eq. cbn. rewrite lookup_insert_eq.
       reflexivity. }
  intros HA2. specialize (HA2 eq_refl Hvs).
  lapply HA2; clear HA2; [| subst a1; cbn; rewrite Hcs; discriminate].
  intros HA2.
  specialize (HA2 eq_refl Hcerts Hvalid Hhandlers eq_refl).
  lapply HA2; clear HA2; [| subst a1; apply lookup_insert_eq].
  intros HA2. specialize (HA2 Hnoasks).
  exists a1. do 2 eexists. exists k. split; [exact HA |].
  split; [exact HB |].
  split; [reflexivity |].
  split; [apply lookup_insert_eq |].
  split; [exact HA2 |].
  split.
  { subst k. cbn [bindRun after app]. rewrite !after_nil, Hby.
    unfold lookupSession.
    cbn [sessionManager set_sessionManager heap set_heap set_promises
           set_onInitialResponseReceivedCallbacks set_timers
           set_lastInteractedWithPeer].
    rewrite (updateSession_found _ _ _ nA) by reflexivity.
    cbn [mbind option_bind]. rewrite lookup_alter_eq. subst a1.
    cbn [heap set_heap set_promises set_onInitialResponseReceivedCallbacks
           set_timers set_nextTimer set_callbackIdCounter set_nextPromise
           set_sessionManager set_nextRef set_draws].
    rewrite lookup_insert_eq. reflexivity. }
  split; [reflexivity |].
  split; [apply lookup_delete_eq | apply lookup_insert_eq].
Qed.
End HandshakeCompleted.

Section HandshakeSteps.
Context {C : Type} (W : World C).

(** X10. How an initialRequest is answered.  For a request whose identityKey
    and initialNonce are not blank strings (a missing one passes),
    processInitialRequest mints a session nonce and hands the session manager
    an authenticated session with that nonce, the request's initialNonce as
    peerNonce and its identityKey as peerIdentityKey.  If the request names
    certifiers, the certificatesRequested listeners are called with the
    requester and the request, and nothing is enclosed; with no listener
    registered, the certificates the wallet finds are enclosed.  The wallet
    is asked for one signature, over the decoding of the two nonces
    concatenated, the requester's first, under the key ID made of the two
    nonces and with the requester as counterparty.  lastInteractedWithPeer
    becomes the requester if it was undefined.  The initialResponse handed
    to the transport carries the new nonce as initialNonce, the request's
    initialNonce as yourNonce, the certificates enclosed, this Peer's own
    certificatesToRequest and the signature; the method ends as the send
    does, an error of the transport being thrown as it is. *)
Theorem initialRequest_answered (message : AuthMessage C) (s : Peer)
    (sn pk : string) (sg : bytes) (calls : list (Event C))
    (enclosed : maybe (list C)) :
  optional_trim_is_empty (identityKey message) = false →
  optional_trim_is_empty (initialNonce message) = false →
  createNonce W (draws s) = Ok sn →
  certificatesStep W s (identityKey message) (requestedCertificates message)
    calls enclosed →
  createSignature W (initialResponseSigning W message sn) = Ok sg →
  getPublicKey W = Ok pk →
  processInitialRequest W message s
  = mkRun
      (set_lastInteractedWithPeer (lastAfterInitialRequest message s)
         (set_sessionManager
            (SessionManagerOps.addSession (nextRef s)
               (acceptedSession message sn) (sessionManager s))
            (set_heap (<[nextRef s := acceptedSession message sn]> (heap s))
               (set_nextRef (S (nextRef s)) (set_draws (S (draws s)) s)))))
      (calls ++ [WalletSigned (initialResponseSigning W message sn);
                 Sent (initialResponseOf message pk sn enclosed
                         (certificatesToRequest s) sg)])%list
      (settled (transportSend W
                  (initialResponseOf message pk sn enclosed
                     (certificatesToRequest s) sg))).
Proof. apply initialRequest_run. Qed.

(** X11. An initialResponse with certificates ends the wait.  In a Peer that
    asked for certificates and has one handshake waiting, an initialResponse
    for that handshake's nonce, signed and enclosing certificates that
    validate, from a peer that asks for none: the session is marked
    authenticated with the peer's nonce and key and handed to updateSession,
    the certificatesReceived listeners are called in order, then the waiting
    listener, which clears the timer, removes itself and fulfils the promise
    with the session nonce; lastInteractedWithPeer becomes the sender unless
    its identityKey is missing or blank. *)
Theorem initialResponse_completes_wait (message : AuthMessage C) (s : Peer)
    (yn sn : string) (l : nat) (o : PeerSession) (certs : list C)
    (id h p : nat) :
  yourNonce message = val yn →
  verifyNonce W (val yn) = Ok true →
  lookupSession (val yn) s = Some (l, o) →
  sessionNonce o = val sn →
  verifySignature W (initialResponseVerification W message o) = Ok true →
  certifiers (certificatesToRequest s) ≠ [] →
  certificates message = val certs →
  certs ≠ [] →
  validateCertificates W message (certificatesToRequest s) = Ok tt →
  (∀ id' h', (id', h') ∈ onCertificatesReceivedCallbacks s →
     runCertificatesReceivedHandler W h' (identityKey message) certs = Ok tt) →
  onInitialResponseReceivedCallbacks s
  = [(id, {| entry_callback := mkWaitClosure h id p;
             entry_sessionNonce := sn |})] →
  promises s !! p = Some Pending →
  certifiers (requestedCertificates message ?? emptyRequest) = [] →
  processInitialResponse W message s
  = mkRun
      (set_promises (<[p := Settle (Fulfilled sn)]> (promises s))
         (set_onInitialResponseReceivedCallbacks []
            (set_timers (delete h (timers s))
               (set_lastInteractedWithPeer
                  (lastAfterInitialResponse message s)
                  (set_sessionManager
                     (SessionManagerOps.updateSession l
                        (authenticatedBy message o) (sessionManager s))
                     (set_heap (alter (authenticatedBy message) l (heap s))
                        s))))))
      (WalletVerified (initialResponseVerification W message o)
       :: map (certificatesCallback (identityKey message) certs)
            (onCertificatesReceivedCallbacks s)
       ++ [InitialResponseCallback id sn])%list
      (Done tt).
Proof. apply initialResponse_run. Qed.

End HandshakeSteps.


(** The remote peer answers the initialRequest of a Peer that asks for
    certificates. *)
Lemma initialRequest_answered_witness :
  processInitialRequest Situation.responder
    (initialRequestOf Scenario.localKey Scenario.localNonce
       (certificatesToRequest Scenario.demanding))
    Scenario.fresh
  = mkRun
      (final (processInitialRequest Situation.responder
                (initialRequestOf Scenario.localKey Scenario.localNonce
                   (certificatesToRequest Scenario.demanding))
                Scenario.fresh))
      [WalletSigned
         {| sr_data :=
              Base64.decode (Scenario.localNonce +:+ Scenario.remoteNonce);
            sr_protocolID := authProtocolID;
            sr_keyID := Scenario.localNonce +:+ " " +:+ Scenario.remoteNonce;
            sr_counterparty := val Scenario.localKey |};
       Sent
         {| version := val AUTH_VERSION;
            messageType := val "initialResponse";
            identityKey := val Scenario.remoteKey; nonce := undefined;
            initialNonce := val Scenario.remoteNonce;
            yourNonce := val Scenario.localNonce;
            certificates := val ["certificate of membership"];
            requestedCertificates := val emptyRequest;
            payload := undefined; signature := val [48; 69; 2; 33] |}]
      (Done tt).
Proof.
  pose proof (initialRequest_answered Situation.responder
                (initialRequestOf Scenario.localKey Scenario.localNonce
                   (certificatesToRequest Scenario.demanding))
                Scenario.fresh Scenario.remoteNonce Scenario.remoteKey
                [48; 69; 2; 33] [] (val ["certificate of membership"])
                ltac:(vm_compute; reflexivity)
                ltac:(vm_compute; reflexivity)
                ltac:(vm_compute; reflexivity)
                ltac:(vm_compute; split; [reflexivity |];
                      eexists; split; reflexivity)
                ltac:(vm_compute; reflexivity)
                ltac:(vm_compute; reflexivity)) as H.
  rewrite H. reflexivity.
Defined.

(** The waiting Peer that asked for certificates receives the answer. *)
Lemma initialResponse_completes_wait_witness :
  let r := processInitialResponse Scenario.world Scenario.certifiedResponse
             Scenario.demandingWaiting in
  trace r
  = [WalletVerified
       (initialResponseVerification Scenario.world Scenario.certifiedResponse
          (pendingSession Scenario.localNonce (val Scenario.remoteKey)));
     InitialResponseCallback 0 Scenario.localNonce]
  ∧ promises (final r) !! 0%nat
    = Some (Settle (Fulfilled Scenario.localNonce)).
Proof.
  pose proof (initialResponse_completes_wait Scenario.world
                Scenario.certifiedResponse Scenario.demandingWaiting
                Scenario.localNonce Scenario.localNonce 0%nat
                (pendingSession Scenario.localNonce (val Scenario.remoteKey))
                ["certificate of membership"] 0%nat 0%nat 0%nat
                ltac:(vm_compute; reflexivity)
                ltac:(vm_compute; reflexivity)
                ltac:(vm_compute; reflexivity)
                ltac:(vm_compute; reflexivity)
                ltac:(vm_compute; reflexivity)
                ltac:(vm_compute; discriminate)
                ltac:(vm_compute; reflexivity)
                ltac:(vm_compute; discriminate)
                ltac:(vm_compute; reflexivity)
                ltac:(vm_compute; inversion 1)
                ltac:(vm_compute; reflexivity)
                ltac:(vm_compute; reflexivity)
                ltac:(vm_compute; reflexivity)) as H.
  cbv zeta. rewrite H. split; reflexivity.
Defined.

(** The handshake between the Peer that asks for certificates and the remote
    peer. *)
Lemma handshake_completes_witness :
  ∃ (a1 a2 : Peer)
    (k : Settled → Peer → Run Scenario.Cert (nat * PeerSession)),
    getAuthenticatedSession Scenario.world undefined None Scenario.demanding
    = mkRun a1
        [Sent (initialRequestOf Scenario.localKey Scenario.localNonce
                 (certificatesToRequest Scenario.demanding))]
        (Await 0%nat k)
    ∧ k (Fulfilled Scenario.localNonce) a2
      = mkRun a2 []
          (Done (0%nat,
                 {| isAuthenticated := true;
                    sessionNonce := val Scenario.localNonce;
                    peerNonce := val Scenario.remoteNonce;
                    peerIdentityKey := val Scenario.remoteKey |})).
Proof.
  destruct (handshake_completes Scenario.world Situation.responder
              Scenario.demanding Scenario.fresh undefined None
              Scenario.localNonce
              Scenario.remoteNonce Scenario.localKey Scenario.remoteKey
              [48; 69; 2; 33] ["certificate of membership"]
              ltac:(vm_compute; reflexivity)
              ltac:(vm_compute; reflexivity)
              ltac:(vm_compute; discriminate)
              ltac:(vm_compute; reflexivity)
              ltac:(vm_compute; reflexivity)
              ltac:(vm_compute; reflexivity)
              ltac:(vm_compute; discriminate)
              ltac:(vm_compute; discriminate)
              ltac:(vm_compute; reflexivity)
              ltac:(vm_compute; reflexivity)
              ltac:(vm_compute; reflexivity)
              ltac:(vm_compute; reflexivity)
              ltac:(vm_compute; discriminate)
              ltac:(vm_compute; reflexivity)
              ltac:(vm_compute; reflexivity)
              ltac:(vm_compute; reflexivity)
              ltac:(vm_compute; reflexivity)
              ltac:(vm_compute; reflexivity)
              ltac:(vm_compute; reflexivity)
              ltac:(vm_compute; inversion 1))
    as (a1 & b1 & a2 & k & Hwaits & _ & _ & _ & _ & Hreturns & _).
  exists a1, a2, k. split; [exact Hwaits | exact Hreturns].
Defined.

(** ** Messages from signer to verifier *)



Section GeneralRoundTrip.
Context {C : Type} (WS WR : World C).

(** X13. A general message from sender to listener.  What toPeer signs is
    what processGeneralMessage verifies: the payload, under the key ID made
    of the sender's request nonce and the nonce the receiver minted for the
    session.  The sender addresses the message by its session's peerNonce;
    the receiver finds under it the session whose own nonce that is, checks
    the signature against that session's peerIdentityKey, and calls its
    general-message listeners with the sender's public key and the payload
    sent. *)
Theorem general_message_round_trip (data : bytes) (key : maybe string)
    (t : option Z) (s r : Peer) (k pn pk pk' : string) (l l' : nat)
    (o o' : PeerSession) (sg : bytes) :
  let rn := randomBase64 WS (draws s) in
  let request :=
    {| sr_data := data; sr_protocolID := authProtocolID;
       sr_keyID := rn +:+ " " +:+ pn;
       sr_counterparty := peerIdentityKey o |} in
  let message := generalMessageOf pk rn pn data sg in
  let verification :=
    {| vr_data := data; vr_signature := sg;
       vr_protocolID := authProtocolID;
       vr_keyID := rn +:+ " " +:+ pn;
       vr_counterparty := val pk' |} in
  key = val k
  ∨ (is_nullish key = true ∧ autoPersistLastSession s = true
     ∧ lastInteractedWithPeer s = val k) →
  lookupSession (val k) s = Some (l, o) →
  isAuthenticated o = true →
  peerNonce o = val pn →
  createSignature WS request = Ok sg →
  getPublicKey WS = Ok pk →
  transportSend WS message = Ok tt →
  verifyNonce WR (val pn) = Ok true →
  lookupSession (val pn) r = Some (l', o') →
  sessionNonce o' = val pn →
  peerIdentityKey o' = val pk' →
  verifySignature WR verification = Ok true →
  (∀ id h, (id, h) ∈ onGeneralMessageReceivedCallbacks r →
     runGeneralMessageHandler WR h (val pk) data = Ok tt) →
  toPeer WS data key t s
  = mkRun (set_draws (S (draws s)) s) [WalletSigned request; Sent message]
      (Done tt)
  ∧ processGeneralMessage WR message r
    = mkRun (set_lastInteractedWithPeer (val pk) r)
        (WalletVerified verification
         :: map (generalCallback pk data)
              (onGeneralMessageReceivedCallbacks r))
        (Done tt).
Proof.
  intros rn request message verification Hkey Hget Hauth Hpn Hsg Hpk Hsend.
  intros Hvn Hget' Hsn' Hpk' Hvs Hhandlers.
  subst rn request message verification. unfold generalMessageOf in *. split.
  - pose proof (toPeer_run WS data key t s k l o sg pk) as Hrun.
    cbv zeta in Hrun. rewrite Hpn in Hrun. cbn [nullish] in Hrun.
    rewrite (Hrun Hkey Hget Hauth Hsg Hpk), Hsend. reflexivity.
  - erewrite (general_verified WR _ r pn _ pk pk' pn sg data l' o');
      try eassumption; try reflexivity.
    erewrite (forEachHandler_returns _ (generalCallback pk data));
      [reflexivity |].
    intros id h Hin. run. cbn in Hin. rewrite (Hhandlers id h Hin).
    reflexivity.
Qed.

End GeneralRoundTrip.


Section Certificates.
Context {C : Type} (W : World C).

Lemma requireNonBlank_run (x e : string) (s : Peer) :
  nonBlank x →
  (requireNonBlank (val x) e : M C string) s = mkRun s [] (Done x).
Proof.
  intros Hx. unfold requireNonBlank.
  rewrite bool_decide_eq_false_2 by exact Hx. reflexivity.
Qed.

Lemma requestCertificates_run (toRequest : RequestedCertificateSet)
    (k : string) (t : option Z) (s : Peer) (l : nat) (o : PeerSession)
    (sg : bytes) (pk : string) :
  let rn := randomBase64 W (draws s) in
  lookupSession (val k) s = Some (l, o) →
  isAuthenticated o = true →
  createSignature W (certificateRequestSigning W toRequest rn o) = Ok sg →
  getPublicKey W = Ok pk →
  requestCertificates W toRequest (val k) t s
  = mkRun (set_draws (S (draws s)) s)
      [WalletSigned (certificateRequestSigning W toRequest rn o);
       Sent (certificateRequestOf toRequest pk rn o sg)]
      match transportSend W (certificateRequestOf toRequest pk rn o sg) with
      | Ok _ => Done tt
      | Err e =>
          Threw ("Failed to send certificate request message to peer "
                 +:+ (peerIdentityKey o ?? "unknown") +:+ ": " +:+ e)
      end.
Proof.
  intros rn Hget Hauth Hsg Hpk. subst rn.
  unfold certificateRequestSigning, certificateRequestOf in *.
  unfold requestCertificates. cbv zeta.
  rewrite bind_run, (authenticated_session_returned W k _ s l o Hget Hauth).
  run. rewrite Hsg. run. rewrite Hpk. run.
  destruct (transportSend W _) as [[] | e]; reflexivity.
Qed.

Lemma sendCertificateResponse_run (k : string) (certs : list C) (s : Peer)
    (l : nat) (o : PeerSession) (sg : bytes) (pk : string) :
  let rn := randomBase64 W (draws s) in
  lookupSession (val k) s = Some (l, o) →
  isAuthenticated o = true →
  createSignature W (certificateResponseSigning W certs rn o) = Ok sg →
  getPublicKey W = Ok pk →
  sendCertificateResponse W k certs s
  = mkRun (set_draws (S (draws s)) s)
      [WalletSigned (certificateResponseSigning W certs rn o);
       Sent (certificateResponseOf certs pk rn o sg)]
      match transportSend W (certificateResponseOf certs pk rn o sg) with
      | Ok _ => Done tt
      | Err e =>
          Threw ("Failed to send certificate response message to peer "
                 +:+ (peerIdentityKey o ?? "unknown") +:+ ": " +:+ e)
      end.
Proof.
  intros rn Hget Hauth Hsg Hpk. subst rn.
  unfold certificateResponseSigning, certificateResponseOf in *.
  unfold sendCertificateResponse.
  rewrite bind_run, (authenticated_session_returned W k _ s l o Hget Hauth).
  run. rewrite Hsg. run. rewrite Hpk. run.
  destruct (transportSend W _) as [[] | e]; reflexivity.
Qed.

Lemma certificateRequest_verified (message : AuthMessage C) (s : Peer)
    (yn no sn pk : string) (sg : bytes) (l : nat) (o : PeerSession) :
  yourNonce message = val yn → nonBlank yn →
  verifyNonce W (val yn) = Ok true →
  lookupSession (val yn) s = Some (l, o) →
  signature message = val sg →
  nonce message = val no → nonBlank no →
  sessionNonce o = val sn → nonBlank sn →
  peerIdentityKey o = val pk → nonBlank pk →
  verifySignature W (certificateRequestVerification W message sg no sn pk)
  = Ok true →
  processCertificateRequest W message s
  = after [WalletVerified
             (certificateRequestVerification W message sg no sn pk)]
      (match requestedCertificates message, identityKey message with
       | val requested, val key =>
           if (0 <? length (certifiers requested))%nat
              && negb (bool_decide (trim key = ""))
           then
             registered ← gets onCertificateRequestReceivedCallbacks;
             if (0 <? length registered)%nat then
               fireCertificatesRequested W (val key) requested
             else
               verifiableCertificates ←
                 call (getVerifiableCertificates W requested (val key));
               sendCertificateResponse W key verifiableCertificates
           else mret tt
       | _, _ => mret tt
       end s).
Proof.
  intros Hyn Hyn' Hvn Hget Hsg Hno Hno' Hsn Hsn' Hpk Hpk' Hvs.
  unfold certificateRequestVerification in *.
  unfold processCertificateRequest. cbv zeta.
  rewrite Hyn, bind_run, requireNonBlank_run by exact Hyn'.
  cbn [bindRun]. rewrite after_nil, bind_run, call_run, Hvn.
  cbn [settled bindRun negb]. rewrite after_nil, bind_run.
  unfold getSession, gets at 1. cbn [bindRun]. rewrite after_nil, Hget.
  rewrite Hsg, bind_run. unfold requirePresent at 1.
  rewrite ret_run. cbn [bindRun]. rewrite after_nil.
  rewrite Hno, bind_run, requireNonBlank_run by exact Hno'.
  cbn [bindRun]. rewrite after_nil.
  rewrite Hsn, bind_run, requireNonBlank_run by exact Hsn'.
  cbn [bindRun]. rewrite after_nil.
  rewrite Hpk, bind_run, requireNonBlank_run by exact Hpk'.
  cbn [bindRun]. rewrite after_nil.
  rewrite bind_run, walletVerifySignature_run, Hvs.
  cbn [settled bindRun negb]. reflexivity.
Qed.

Lemma certificateResponse_run (message : AuthMessage C) (s : Peer)
    (yn sn : string) (sg : bytes) (l : nat) (o : PeerSession) :
  let sender := val (identityKey message ?? "unknown") in
  let certs := certificates message ?? [] in
  yourNonce message = val yn → nonBlank yn →
  verifyNonce W (val yn) = Ok true →
  lookupSession (val yn) s = Some (l, o) →
  sessionNonce o = val sn → nonBlank sn →
  signature message = val sg →
  verifySignature W (certificateResponseVerification W message sg sn)
  = Ok true →
  validateCertificates W message
    (requestedCertificates message ?? emptyRequest) = Ok tt →
  (∀ id h, (id, h) ∈ onCertificatesReceivedCallbacks s →
     runCertificatesReceivedHandler W h sender certs = Ok tt) →
  processCertificateResponse W message s
  = mkRun s
      (WalletVerified (certificateResponseVerification W message sg sn)
       :: map (certificatesCallback sender certs)
            (onCertificatesReceivedCallbacks s))
      (Done tt).
Proof.
  intros sender certs Hyn Hyn' Hvn Hget Hsn Hsn' Hsg Hvs Hvalid Hhandlers.
  subst sender certs. unfold certificateResponseVerification in *.
  unfold processCertificateResponse. cbv zeta.
  rewrite Hyn, bind_run, requireNonBlank_run by exact Hyn'.
  cbn [bindRun]. rewrite after_nil, bind_run, call_run, Hvn.
  cbn [settled bindRun negb]. rewrite after_nil, bind_run.
  unfold getSession, gets at 1. cbn [bindRun]. rewrite after_nil, Hget.
  rewrite Hsn, bind_run, requireNonBlank_run by exact Hsn'.
  cbn [bindRun]. rewrite after_nil.
  rewrite Hsg, bind_run. unfold requirePresent at 1.
  rewrite ret_run. cbn [bindRun]. rewrite after_nil.
  rewrite bind_run, walletVerifySignature_run, Hvs.
  cbn [settled bindRun negb]. rewrite bind_run, call_run, Hvalid.
  cbn [settled bindRun]. rewrite after_nil.
  rewrite fireCertificatesReceived_returns by exact Hhandlers.
  reflexivity.
Qed.

End Certificates.

Section CertificateExchange.
Context {C : Type} (W : World C).



End CertificateExchange.

Section CertificateExchangeBothSides.
Context {C : Type} (WA WB : World C).

(** X16. An exchange of certificates from end to end, between two peers
    whose sessions mirror each other.  requestCertificates signs the JSON
    text of the requested set under the key ID made of its request nonce and
    the peer's nonce; processCertificateRequest of the peer verifies under
    that same key ID and, no listener being registered, answers through
    sendCertificateResponse, which signs the JSON text of the certificates
    under the key ID made of its own request nonce and the requester's
    nonce; processCertificateResponse of the requester verifies under that
    same key ID and calls its certificatesReceived listeners with the peer's
    public key and the certificates.  The answer carries no
    requestedCertificates, so the requester validates the certificates
    against the empty set, not against the set it asked for. *)
Theorem certificate_exchange (toRequest : RequestedCertificateSet)
    (t : option Z) (a b : Peer) (kB pkA pkB pkA' nA nB : string)
    (lA lB : nat) (oA oB : PeerSession) (sgA sgB : bytes) (certs : list C) :
  let rnA := randomBase64 WA (draws a) in
  let rnB := randomBase64 WB (draws b) in
  let request := certificateRequestOf toRequest pkA rnA oA sgA in
  let response := certificateResponseOf certs pkB rnB oB sgB in
  let verifiedByB :=
    {| vr_data := utf8JsonOfRequest WB (Some toRequest);
       vr_signature := sgA; vr_protocolID := authProtocolID;
       vr_keyID := rnA +:+ " " +:+ nB;
       vr_counterparty := val pkA' |} in
  let verifiedByA :=
    {| vr_data := utf8JsonOfCertificates WA certs;
       vr_signature := sgB; vr_protocolID := authProtocolID;
       vr_keyID := rnB +:+ " " +:+ nA;
       vr_counterparty := val pkB |} in
  lookupSession (val kB) a = Some (lA, oA) →
  lookupSession (val nA) a = Some (lA, oA) →
  isAuthenticated oA = true →
  sessionNonce oA = val nA → peerNonce oA = val nB →
  lookupSession (val nB) b = Some (lB, oB) →
  lookupSession (val pkA) b = Some (lB, oB) →
  isAuthenticated oB = true →
  sessionNonce oB = val nB → peerNonce oB = val nA →
  peerIdentityKey oB = val pkA' →
  nonBlank nA → nonBlank nB → nonBlank rnA → nonBlank pkA → nonBlank pkA' →
  certifiers toRequest ≠ [] →
  createSignature WA (certificateRequestSigning WA toRequest rnA oA)
  = Ok sgA →
  getPublicKey WA = Ok pkA →
  transportSend WA request = Ok tt →
  verifyNonce WB (val nB) = Ok true →
  verifySignature WB verifiedByB = Ok true →
  onCertificateRequestReceivedCallbacks b = [] →
  getVerifiableCertificates WB toRequest (val pkA) = Ok certs →
  createSignature WB (certificateResponseSigning WB certs rnB oB) = Ok sgB →
  getPublicKey WB = Ok pkB →
  transportSend WB response = Ok tt →
  verifyNonce WA (val nA) = Ok true →
  verifySignature WA verifiedByA = Ok true →
  validateCertificates WA response emptyRequest = Ok tt →
  (∀ id h, (id, h) ∈ onCertificatesReceivedCallbacks a →
     runCertificatesReceivedHandler WA h (val pkB) certs = Ok tt) →
  let a1 := set_draws (S (draws a)) a in
  requestCertificates WA toRequest (val kB) t a
  = mkRun a1
      [WalletSigned (certificateRequestSigning WA toRequest rnA oA);
       Sent request]
      (Done tt)
  ∧ sr_keyID (certificateRequestSigning WA toRequest rnA oA)
    = vr_keyID verifiedByB
  ∧ processCertificateRequest WB request b
    = mkRun (set_draws (S (draws b)) b)
        [WalletVerified verifiedByB;
         WalletSigned (certificateResponseSigning WB certs rnB oB);
         Sent response]
        (Done tt)
  ∧ sr_keyID (certificateResponseSigning WB certs rnB oB)
    = vr_keyID verifiedByA
  ∧ processCertificateResponse WA response a1
    = mkRun a1
        (WalletVerified verifiedByA
         :: map (certificatesCallback (val pkB) certs)
              (onCertificatesReceivedCallbacks a))
        (Done tt).
Proof.
  intros rnA rnB request response verifiedByB verifiedByA.
  intros HgetA HgetA' HauthA HsnA HpnA HgetB HgetB' HauthB HsnB HpnB HpkB'.
  intros HnA HnB HrnA HpkA' HpkA'' Hasks HsgA HpkA HsentA.
  intros HvnB HvsB HnoneB Hfound HsgB HpkB HsentB HvnA HvsA Hvalid Hhandlers.
  intros a1.
  split; [| split; [| split; [| split]]].
  - rewrite (requestCertificates_run WA toRequest kB t a lA oA sgA pkA)
      by assumption.
    fold rnA. fold request. rewrite HsentA. reflexivity.
  - cbn. rewrite HpnA. reflexivity.
  - rewrite (certificateRequest_verified WB request b nB rnA nB pkA' sgA lB
               oB);
      try assumption;
      try (subst request; cbn; rewrite ?HpnA, ?HsnA; reflexivity).
    unfold request at 2 3. unfold certificateRequestOf.
    cbn [requestedCertificates identityKey].
    destruct (certifiers toRequest) as [| c cs]; [contradiction |].
    cbn [length Nat.ltb Nat.leb andb].
    rewrite bool_decide_eq_false_2 by exact HpkA'. cbn [negb].
    rewrite bind_run. unfold gets at 1. cbn [bindRun].
    rewrite after_nil, HnoneB. cbn [length Nat.ltb Nat.leb].
    rewrite bind_run, call_run, Hfound. cbn [settled bindRun].
    rewrite after_nil.
    rewrite (sendCertificateResponse_run WB pkA certs b lB oB sgB pkB)
      by assumption.
    fold rnB. fold response. rewrite HsentB. reflexivity.
  - cbn. rewrite HpnB. reflexivity.
  - rewrite (certificateResponse_run WA response a1 nA nA sgB lA oA);
      try assumption;
      try (subst response; cbn; rewrite ?HpnB, ?HsnB; reflexivity).
Qed.

End CertificateExchangeBothSides.

(** The Peer that answered [remoteKey] sends it two bytes. *)
Lemma general_message_round_trip_witness :
  processGeneralMessage Situation.responder
    (generalMessageOf Scenario.localKey
       "3q2+796tvu/erb7v3q2+796tvu/erb7v3q2+796tvu8=" Scenario.remoteNonce
       [104; 105] [48; 68; 2; 32])
    Situation.answered
  = mkRun
      (set_lastInteractedWithPeer (val Scenario.localKey) Situation.answered)
      [WalletVerified
         {| vr_data := [104; 105]; vr_signature := [48; 68; 2; 32];
            vr_protocolID := authProtocolID;
            vr_keyID := "3q2+796tvu/erb7v3q2+796tvu/erb7v3q2+796tvu8="
                        +:+ " " +:+ Scenario.remoteNonce;
            vr_counterparty := val Scenario.localKey |};
       GeneralMessageCallback 0 (val Scenario.localKey) [104; 105]]
      (Done tt).
Proof.
  apply (general_message_round_trip Scenario.world Situation.responder
           [104; 105] (val Scenario.remoteKey) None Scenario.established
           Situation.answered Scenario.remoteKey Scenario.remoteNonce
           Scenario.localKey Scenario.localKey 0%nat 0%nat
           {| isAuthenticated := true;
              sessionNonce := val Scenario.localNonce;
              peerNonce := val Scenario.remoteNonce;
              peerIdentityKey := val Scenario.remoteKey |}
           {| isAuthenticated := true;
              sessionNonce := val Scenario.remoteNonce;
              peerNonce := val Scenario.localNonce;
              peerIdentityKey := val Scenario.localKey |}
           [48; 68; 2; 32]);
    try (vm_compute; reflexivity).
  left. reflexivity.
Defined.



(** The remote peer answers a certificateRequest by itself. *)
Lemma certificate_exchange_witness :
  processCertificateRequest Situation.responder Situation.certificateRequest
    Situation.answered
  = mkRun (set_draws 2 Situation.answered)
      [WalletVerified
         (certificateRequestVerification Situation.responder
            Situation.certificateRequest [48; 68; 2; 32]
            "3q2+796tvu/erb7v3q2+796tvu/erb7v3q2+796tvu8="
            Scenario.remoteNonce Scenario.localKey);
       WalletSigned
         {| sr_data := [];
            sr_protocolID := authProtocolID;
            sr_keyID := "3q2+796tvu/erb7v3q2+796tvu/erb7v3q2+796tvu8="
                        +:+ " " +:+ Scenario.localNonce;
            sr_counterparty := val Scenario.localKey |};
       Sent Situation.certificateResponse]
      (Done tt).
Proof.
  pose proof (certificate_exchange Scenario.world Situation.responder
                (certificatesToRequest Scenario.demanding) None
                Scenario.established Situation.answered
                Scenario.remoteKey Scenario.localKey Scenario.remoteKey
                Scenario.localKey Scenario.localNonce Scenario.remoteNonce
                0%nat 0%nat
                {| isAuthenticated := true;
                   sessionNonce := val Scenario.localNonce;
                   peerNonce := val Scenario.remoteNonce;
                   peerIdentityKey := val Scenario.remoteKey |}
                {| isAuthenticated := true;
                   sessionNonce := val Scenario.remoteNonce;
                   peerNonce := val Scenario.localNonce;
                   peerIdentityKey := val Scenario.localKey |}
                [48; 68; 2; 32] [48; 69; 2; 33]
                ["certificate of membership"]
                ltac:(vm_compute; reflexivity)
                ltac:(vm_compute; reflexivity)
                ltac:(vm_compute; reflexivity)
                ltac:(vm_compute; reflexivity)
                ltac:(vm_compute; reflexivity)
                ltac:(vm_compute; reflexivity)
                ltac:(vm_compute; reflexivity)
                ltac:(vm_compute; reflexivity)
                ltac:(vm_compute; reflexivity)
                ltac:(vm_compute; reflexivity)
                ltac:(vm_compute; reflexivity)
                ltac:(vm_compute; discriminate)
                ltac:(vm_compute; discriminate)
                ltac:(vm_compute; discriminate)
                ltac:(vm_compute; discriminate)
                ltac:(vm_compute; discriminate)
                ltac:(vm_compute; discriminate)
                ltac:(vm_compute; reflexivity)
                ltac:(vm_compute; reflexivity)
                ltac:(vm_compute; reflexivity)
                ltac:(vm_compute; reflexivity)
                ltac:(vm_compute; reflexivity)
                ltac:(vm_compute; reflexivity)
                ltac:(vm_compute; reflexivity)
                ltac:(vm_compute; reflexivity)
                ltac:(vm_compute; reflexivity)
                ltac:(vm_compute; reflexivity)
                ltac:(vm_compute; reflexivity)
                ltac:(vm_compute; reflexivity)
                ltac:(vm_compute; reflexivity)
                ltac:(vm_compute; inversion 1)) as (_ & _ & Hanswered & _).
  exact Hanswered.
Defined.

(** ** What message handling never changes *)



Section Untouched.
Context {C B : Type} (part : Peer → B).

Lemma leaves_from {A} (s0 s1 : Peer) (r : Run C A) :
  part s1 = part s0 → leaves part s1 r → leaves part s0 r.
Proof. destruct r as [s t o]. cbn. intros <- [-> Hk]. tauto. Qed.

Lemma leaves_after {A} (s0 : Peer) (t : list (Event C)) (r : Run C A) :
  leaves part s0 r → leaves part s0 (after t r).
Proof. destruct r as [s t' o]. cbn. tauto. Qed.

Lemma leaves_bindRun {A A'} (f : A → M C A') :
  (∀ a, untouched part (f a)) →
  ∀ (r : Run C A) (s0 : Peer),
    leaves part s0 r → leaves part s0 (bindRun r f).
Proof.
  intros Hf. fix IH 1. intros [s t [a | e | p k]] s0; cbn.
  - intros [Hs _]. apply leaves_after, (leaves_from s0 s); [exact Hs |].
    apply Hf.
  - tauto.
  - intros [Hs Hk]. split; [exact Hs |]. intros v s'. apply IH, Hk.
Qed.

Lemma leaves_catchRun {A} (h : string → M C A) :
  (∀ e, untouched part (h e)) →
  ∀ (r : Run C A) (s0 : Peer),
    leaves part s0 r → leaves part s0 (catchRun r h).
Proof.
  intros Hh. fix IH 1. intros [s t [a | e | p k]] s0; cbn.
  - tauto.
  - intros [Hs _]. apply leaves_after, (leaves_from s0 s); [exact Hs |].
    apply Hh.
  - intros [Hs Hk]. split; [exact Hs |]. intros v s'. apply IH, Hk.
Qed.

Lemma untouched_bind {A A'} (m : M C A) (f : A → M C A') :
  untouched part m → (∀ a, untouched part (f a)) → untouched part (m ≫= f).
Proof. intros Hm Hf s. rewrite bind_run. apply leaves_bindRun, Hm. exact Hf. Qed.

Lemma untouched_catch {A} (m : M C A) (h : string → M C A) :
  untouched part m → (∀ e, untouched part (h e)) →
  untouched part (catch m h).
Proof. intros Hm Hh s. unfold catch. apply leaves_catchRun, Hm. exact Hh. Qed.

Lemma untouched_ret {A} (a : A) : untouched part (mret a : M C A).
Proof. intros s. cbn. tauto. Qed.

Lemma untouched_throw {A} e : untouched part (throw e : M C A).
Proof. intros s. cbn. tauto. Qed.

Lemma untouched_gets {A} (f : Peer → A) : untouched part (gets f : M C A).
Proof. intros s. cbn. tauto. Qed.

Lemma untouched_emit e : untouched part (emit e : M C unit).
Proof. intros s. cbn. tauto. Qed.

Lemma untouched_call {A} (r : Result A) : untouched part (call r : M C A).
Proof. intros s. destruct r; cbn; tauto. Qed.

Lemma untouched_await p : untouched part (await p : M C string).
Proof. intros s. cbn. split; [reflexivity |]. intros [v | e] s'; cbn; tauto. Qed.

Lemma untouched_modify (f : Peer → Peer) :
  (∀ s, part (f s) = part s) → untouched part (modify f : M C unit).
Proof. intros Hf s. cbn. split; [apply Hf | exact I]. Qed.

Lemma untouched_forEachHandler (f : nat → Handler → M C unit) m :
  (∀ id h, untouched part (f id h)) → untouched part (forEachHandler f m).
Proof.
  intros Hf. induction m as [| [id h] m IH]; cbn.
  - apply untouched_ret.
  - apply untouched_bind; [apply Hf | intros _; exact IH].
Qed.

Lemma untouched_forEachInitialResponse
    (f : nat → InitialResponseEntry → M C unit) entries :
  (∀ id e, untouched part (f id e)) →
  untouched part (forEachInitialResponse f entries).
Proof.
  intros Hf. induction entries as [| [id e] m IH]; cbn.
  - apply untouched_ret.
  - apply untouched_bind; [apply untouched_gets |].
    intros live. apply untouched_bind; [| intros _; exact IH].
    destruct live; [apply Hf | apply untouched_ret].
Qed.

End Untouched.

Create HintDb configuration.

(** Break a goal about an untouched part down along the method. *)
Ltac untouchedness :=
  autounfold with peer_primitives;
  unfold settle, updateSession, stopListeningForInitialResponses,
    listenForInitialResponse, nextCallbackID;
  repeat first
    [ apply untouched_ret | apply untouched_throw | apply untouched_gets
    | apply untouched_emit | apply untouched_call | apply untouched_await
    | solve [auto 1 with configuration nocore]
    | apply untouched_modify; intros; repeat case_match; reflexivity
    | apply untouched_bind; [| intros ]
    | apply untouched_catch; [| intros ]
    | apply untouched_forEachHandler; intros
    | apply untouched_forEachInitialResponse; intros
    | match goal with
      | |- untouched _ (match ?x with _ => _ end) => destruct x
      | |- untouched _ (let _ := _ in _) => cbv zeta
      end ].

Section ConfigurationUntouched.
Context {C : Type} (W : World C).

Lemma fireTimer_configuration h : untouched configuration (@fireTimer C h).
Proof. unfold fireTimer. untouchedness. Qed.

Lemma getAuthenticatedSession_configuration key t :
  untouched configuration (getAuthenticatedSession W key t).
Proof.
  unfold getAuthenticatedSession, initiateHandshake, waitForInitialResponse.
  untouchedness.
Qed.
Hint Resolve getAuthenticatedSession_configuration : configuration.

Lemma sendCertificateResponse_configuration key certs :
  untouched configuration (sendCertificateResponse W key certs).
Proof. unfold sendCertificateResponse. untouchedness. Qed.
Hint Resolve sendCertificateResponse_configuration : configuration.

Lemma handleIncomingMessage_configuration message :
  untouched configuration (handleIncomingMessage W message).
Proof.
  unfold handleIncomingMessage, processInitialRequest,
    processInitialResponse, processCertificateRequest,
    processCertificateResponse, processGeneralMessage.
  untouchedness.
Qed.
Hint Resolve handleIncomingMessage_configuration : configuration.


End ConfigurationUntouched.

(** ** The signature gate *)



Section SignatureGate.
Context {C : Type} (W : World C).

Ltac refuse :=
  left; repeat split; [eexists; reflexivity | repeat constructor].

Lemma verification_gate {A} (v : VerificationRequest) (f : bool → M C A)
    (s : Peer) :
  (∃ e, f false s = mkRun s [] (Threw e)) →
  gated W s ((walletVerifySignature W v ≫= f) s).
Proof.
  intros [e He]. unfold gated. rewrite bind_run, walletVerifySignature_run.
  destruct (verifySignature W v) as [[|] | e'] eqn:Hvs; cbn [settled bindRun].
  - right. exists v. destruct (f true s) as [s' t o]. cbn.
    eexists. split; [reflexivity | exact Hvs].
  - rewrite He. refuse.
  - refuse.
Qed.

Lemma requirePresent_run {A} (x : A) (e : string) (s : Peer) :
  (requirePresent (val x) e : M C A) s = mkRun s [] (Done x).
Proof. reflexivity. Qed.

Ltac gate :=
  match goal with
  | |- gated W ?s ((walletVerifySignature W ?v ≫= ?f) ?s) =>
      apply (verification_gate v f s); eexists; reflexivity
  end.

Ltac pass :=
  rewrite bind_run,
    ?requirePresent_run, ?ret_run, ?call_run;
  try (unfold getSession, gets at 1);
  cbn [settled bindRun negb]; rewrite ?after_nil.

Lemma general_signature_gate (message : AuthMessage C) (s : Peer) :
  gated W s (processGeneralMessage W message s).
Proof.
  unfold processGeneralMessage. cbv zeta.
  destruct (yourNonce message) as [| | yn]; try refuse.
  destruct (signature message) as [| | sg]; try refuse.
  destruct (nonce message) as [| | no]; try refuse.
  destruct (payload message) as [| | data]; try refuse.
  do 4 pass. pass.
  destruct (verifyNonce W (val yn)) as [[|] | e]; cbn [settled bindRun negb];
    try refuse.
  rewrite ?after_nil. pass.
  destruct (lookupSession (val yn) s) as [[l o] |]; [| refuse].
  destruct (sessionNonce o) as [| | sn]; try refuse.
  destruct (peerIdentityKey o) as [| | pk]; try refuse.
  do 2 pass.
  gate.
Qed.

Lemma initialResponse_signature_gate (message : AuthMessage C) (s : Peer) :
  gated W s (processInitialResponse W message s).
Proof.
  unfold processInitialResponse. cbv zeta.
  destruct (is_undefined (yourNonce message)); [refuse |].
  pass.
  destruct (verifyNonce W _) as [[|] | e]; cbn [settled bindRun negb];
    try refuse.
  rewrite ?after_nil. pass.
  destruct (lookupSession _ s) as [[l o] |]; [| refuse].
  gate.
Qed.

Lemma certificateRequest_signature_gate (message : AuthMessage C)
    (s : Peer) :
  gated W s (processCertificateRequest W message s).
Proof.
  unfold processCertificateRequest, requireNonBlank. cbv zeta.
  destruct (yourNonce message) as [| | yn]; try refuse.
  case_bool_decide; [refuse |]. pass. pass.
  destruct (verifyNonce W _) as [[|] | e]; cbn [settled bindRun negb];
    try refuse.
  rewrite ?after_nil. pass.
  destruct (lookupSession _ s) as [[l o] |]; [| refuse].
  destruct (signature message) as [| | sg]; try refuse. pass.
  destruct (nonce message) as [| | no]; try refuse.
  case_bool_decide; [refuse |]. pass.
  destruct (sessionNonce o) as [| | sn]; try refuse.
  case_bool_decide; [refuse |]. pass.
  destruct (peerIdentityKey o) as [| | pk]; try refuse.
  case_bool_decide; [refuse |]. pass.
  gate.
Qed.

Lemma certificateResponse_signature_gate (message : AuthMessage C)
    (s : Peer) :
  gated W s (processCertificateResponse W message s).
Proof.
  unfold processCertificateResponse, requireNonBlank. cbv zeta.
  destruct (yourNonce message) as [| | yn]; try refuse.
  case_bool_decide; [refuse |]. pass. pass.
  destruct (verifyNonce W _) as [[|] | e]; cbn [settled bindRun negb];
    try refuse.
  rewrite ?after_nil. pass.
  destruct (lookupSession _ s) as [[l o] |]; [| refuse].
  destruct (sessionNonce o) as [| | sn]; try refuse.
  case_bool_decide; [refuse |]. pass.
  destruct (signature message) as [| | sg]; try refuse. pass.
  gate.
Qed.

(** X18. The signature gate.  Each of the four processors of signed
    messages (initialResponse, certificateRequest, certificateResponse,
    general) either refuses the message, throwing with the Peer as it was
    and nothing sent and no listener called, or has begun by putting a
    signature to the wallet that the wallet found valid.  Hence a run that
    changed the Peer, sent, called a listener or returned began with a valid
    signature. *)
Theorem accepted_only_with_valid_signature
    (process : AuthMessage C → M C unit) (message : AuthMessage C)
    (s : Peer) :
  process ∈ yourNonceProcessors W →
  let r := process message s in
  (refused s r ∨ beganWithValidSignature W r)
  ∧ (tookEffect s r → beganWithValidSignature W r).
Proof.
  intros Hin r.
  assert (gated W s r) as Hgate.
  { subst r. unfold yourNonceProcessors in Hin.
    repeat (apply elem_of_cons in Hin as [-> | Hin]);
      [ apply initialResponse_signature_gate
      | apply certificateRequest_signature_gate
      | apply certificateResponse_signature_gate
      | apply general_signature_gate
      | apply elem_of_nil in Hin; contradiction ]. }
  split; [exact Hgate |].
  intros [Hs | [Ht | [a Ha]]]; destruct Hgate as [(Hs' & [e He] & Ht') | Hv];
    try exact Hv.
  - contradiction.
  - apply Exists_exists in Ht as (ev & Hev & Hsent).
    rewrite Forall_forall in Ht'. rewrite (Ht' ev Hev) in Hsent.
    discriminate.
  - rewrite He in Ha. discriminate.
Qed.

End SignatureGate.

(** A general message whose signature the wallet rejects reaches none of the
    three listeners and leaves the Peer as it was. *)
Lemma accepted_only_with_valid_signature_witness :
  refused Situation.listening
    (processGeneralMessage Situation.distrustful Situation.general
       Situation.listening).
Proof.
  destruct (accepted_only_with_valid_signature Situation.distrustful
              (processGeneralMessage Situation.distrustful)
              Situation.general Situation.listening) as [[Hrefused | Hvalid] _].
  - unfold yourNonceProcessors. do 3 apply list_elem_of_further.
    apply list_elem_of_here.
  - exact Hrefused.
  - destruct Hvalid as (v & t & _ & Hv). discriminate.
Defined.
